(** * Tame: the volume limiter control loop of [tame.py]

    A shallow embedding of [AudioController] and [VolumeLimiter] and of
    the part of [TameGUI] that drives them.

    Numbers.  Python floats are read as real numbers: every arithmetic
    operation is the exact one, so rounding, infinities and NaN are outside
    the model.  Two operations of the program are partial.  Division
    raises [ZeroDivisionError] on a zero divisor and so does [float_div];
    [**] raises [OverflowError] when the power is too large for a float and
    so does [float_pow].

    Effects.  The two Python objects live in a [Heap]; methods are
    computations of the monad [Py], which threads the heap, may raise, and
    records the calls made on the audio endpoint (and the divisions
    evaluated) as a list of [Event]s in program order.

    The endpoint.  The COM objects behind [_meter] and [_volume_ctrl] are
    outside the program.  What each of their calls answers is an input of
    the method that makes the call: [Some v] when the call returns [v],
    [None] when it raises.  Nothing is assumed about the answers.  The
    clock is an input in the same way.

    Threads.  The loop of [_run] and the callbacks of the window run in two
    threads; here a callback runs between two iterations of the loop. *)

From Stdlib Require Import Reals Lra List Bool.
From Stdlib Require Import Lia.
From Stdlib Require String.
Import ListNotations.
Local Open Scope R_scope.

(** ** Float comparisons and division *)

Definition float_gt (a b : R) : bool := if Rgt_dec a b then true else false.
Definition float_ge (a b : R) : bool := if Rge_dec a b then true else false.
Definition float_lt (a b : R) : bool := if Rlt_dec a b then true else false.

(** Python truth value of a float: [0.0] is false. *)
Definition float_truthy (a : R) : bool := if Req_dec_T a 0 then false else true.

(** [max(0.0, min(1.0, level))] *)
Definition clamp01 (level : R) : R := Rmax 0 (Rmin 1 level).

(** ** Events, exceptions *)

Inductive Event : Type :=
| GetPeakValue (answer : option R)
    (* self._meter.GetPeakValue() *)
| GetMasterVolumeLevelScalar (answer : option R)
    (* self._volume_ctrl.GetMasterVolumeLevelScalar() *)
| SetMasterVolumeLevelScalar (level : R) (ok : bool)
    (* self._volume_ctrl.SetMasterVolumeLevelScalar(level, None) *)
| Divide (numerator denominator : R)
    (* a float division that was evaluated *)
| Sleep (seconds : R).
    (* time.sleep(seconds) *)

Inductive Exn : Type :=
| ZeroDivisionError
| OverflowError
| DeviceError.

Inductive Outcome (A : Type) : Type :=
| Returns (a : A)
| Raises (e : Exn).
Arguments Returns {A} a.
Arguments Raises {A} e.

(** ** The objects *)

Module Settings.
(** The fields of [Settings] read by [VolumeLimiter.__init__]. *)
Record t : Type := mk {
  volume_cap : R;
  attack_time : R;
  release_time : R;
  hold_time : R;
  user_cooldown : R;
  leeway_db : R;
  dampening : R;
  dampening_speed : R;
  voice_mode : bool
}.

(** [Settings.set_defaults] (lines 58-69) *)
Definition set_defaults : t :=
  {| volume_cap := 0.2;
     attack_time := 0.05;
     release_time := 0.5;
     hold_time := 0.15;
     user_cooldown := 2.0;
     leeway_db := 3.0;
     dampening := 1.0;
     dampening_speed := 0.0;
     voice_mode := false |}.
End Settings.

Module AudioController.
(** The attributes of an [AudioController] that hold values; [_volume_ctrl]
    and [_meter] point to the endpoint. *)
Record t : Type := mk {
  _cached_volume : R;
  _last_set_volume : R;
  user_set_time : option R;      (* None, or the time of the last change *)
  user_set_volume : R
}.

Definition set__cached_volume (v : R) (a : t) : t :=
  mk v (_last_set_volume a) (user_set_time a) (user_set_volume a).
Definition set__last_set_volume (v : R) (a : t) : t :=
  mk (_cached_volume a) v (user_set_time a) (user_set_volume a).
Definition set_user_set_time (v : option R) (a : t) : t :=
  mk (_cached_volume a) (_last_set_volume a) v (user_set_volume a).
Definition set_user_set_volume (v : R) (a : t) : t :=
  mk (_cached_volume a) (_last_set_volume a) (user_set_time a) v.

(** [AudioController.__init__], given the volume the endpoint reports. *)
Definition __init__ (volume : R) : t :=
  {| _cached_volume := volume;
     _last_set_volume := volume;
     user_set_time := None;
     user_set_volume := volume |}.
End AudioController.

Module VolumeLimiter.
(** The attributes of a [VolumeLimiter] that hold values; [settings],
    [audio], [_stop] and [_thread] point to other objects. *)
Record t : Type := mk {
  is_running : bool;
  volume_cap : R;
  original_volume : R;
  current_peak : R;
  current_volume : R;
  is_limiting : bool;
  last_over_threshold_time : R;
  time_over_threshold : R;
  peak_start_time : R;
  attack_time : R;
  release_time : R;
  hold_time : R;
  user_cooldown : R;
  leeway_db : R;
  dampening : R;
  dampening_speed : R;
  voice_mode : bool;
  release_rate : R;
  ui_peak : R;
  ui_volume : R
}.

Definition set_is_running (v : bool) (l : t) : t :=
  mk v (volume_cap l) (original_volume l) (current_peak l)
     (current_volume l) (is_limiting l) (last_over_threshold_time l)
     (time_over_threshold l) (peak_start_time l) (attack_time l)
     (release_time l) (hold_time l) (user_cooldown l) (leeway_db l)
     (dampening l) (dampening_speed l) (voice_mode l) (release_rate l)
     (ui_peak l) (ui_volume l).
Definition set_original_volume (v : R) (l : t) : t :=
  mk (is_running l) (volume_cap l) v (current_peak l)
     (current_volume l) (is_limiting l) (last_over_threshold_time l)
     (time_over_threshold l) (peak_start_time l) (attack_time l)
     (release_time l) (hold_time l) (user_cooldown l) (leeway_db l)
     (dampening l) (dampening_speed l) (voice_mode l) (release_rate l)
     (ui_peak l) (ui_volume l).
Definition set_current_peak (v : R) (l : t) : t :=
  mk (is_running l) (volume_cap l) (original_volume l) v
     (current_volume l) (is_limiting l) (last_over_threshold_time l)
     (time_over_threshold l) (peak_start_time l) (attack_time l)
     (release_time l) (hold_time l) (user_cooldown l) (leeway_db l)
     (dampening l) (dampening_speed l) (voice_mode l) (release_rate l)
     (ui_peak l) (ui_volume l).
Definition set_current_volume (v : R) (l : t) : t :=
  mk (is_running l) (volume_cap l) (original_volume l) (current_peak l)
     v (is_limiting l) (last_over_threshold_time l)
     (time_over_threshold l) (peak_start_time l) (attack_time l)
     (release_time l) (hold_time l) (user_cooldown l) (leeway_db l)
     (dampening l) (dampening_speed l) (voice_mode l) (release_rate l)
     (ui_peak l) (ui_volume l).
Definition set_is_limiting (v : bool) (l : t) : t :=
  mk (is_running l) (volume_cap l) (original_volume l) (current_peak l)
     (current_volume l) v (last_over_threshold_time l)
     (time_over_threshold l) (peak_start_time l) (attack_time l)
     (release_time l) (hold_time l) (user_cooldown l) (leeway_db l)
     (dampening l) (dampening_speed l) (voice_mode l) (release_rate l)
     (ui_peak l) (ui_volume l).
Definition set_last_over_threshold_time (v : R) (l : t) : t :=
  mk (is_running l) (volume_cap l) (original_volume l) (current_peak l)
     (current_volume l) (is_limiting l) v
     (time_over_threshold l) (peak_start_time l) (attack_time l)
     (release_time l) (hold_time l) (user_cooldown l) (leeway_db l)
     (dampening l) (dampening_speed l) (voice_mode l) (release_rate l)
     (ui_peak l) (ui_volume l).
Definition set_time_over_threshold (v : R) (l : t) : t :=
  mk (is_running l) (volume_cap l) (original_volume l) (current_peak l)
     (current_volume l) (is_limiting l) (last_over_threshold_time l)
     v (peak_start_time l) (attack_time l)
     (release_time l) (hold_time l) (user_cooldown l) (leeway_db l)
     (dampening l) (dampening_speed l) (voice_mode l) (release_rate l)
     (ui_peak l) (ui_volume l).
Definition set_release_time (v : R) (l : t) : t :=
  mk (is_running l) (volume_cap l) (original_volume l) (current_peak l)
     (current_volume l) (is_limiting l) (last_over_threshold_time l)
     (time_over_threshold l) (peak_start_time l) (attack_time l)
     v (hold_time l) (user_cooldown l) (leeway_db l)
     (dampening l) (dampening_speed l) (voice_mode l) (release_rate l)
     (ui_peak l) (ui_volume l).
Definition set_release_rate (v : R) (l : t) : t :=
  mk (is_running l) (volume_cap l) (original_volume l) (current_peak l)
     (current_volume l) (is_limiting l) (last_over_threshold_time l)
     (time_over_threshold l) (peak_start_time l) (attack_time l)
     (release_time l) (hold_time l) (user_cooldown l) (leeway_db l)
     (dampening l) (dampening_speed l) (voice_mode l) v
     (ui_peak l) (ui_volume l).
Definition set_ui_peak (v : R) (l : t) : t :=
  mk (is_running l) (volume_cap l) (original_volume l) (current_peak l)
     (current_volume l) (is_limiting l) (last_over_threshold_time l)
     (time_over_threshold l) (peak_start_time l) (attack_time l)
     (release_time l) (hold_time l) (user_cooldown l) (leeway_db l)
     (dampening l) (dampening_speed l) (voice_mode l) (release_rate l)
     v (ui_volume l).
Definition set_ui_volume (v : R) (l : t) : t :=
  mk (is_running l) (volume_cap l) (original_volume l) (current_peak l)
     (current_volume l) (is_limiting l) (last_over_threshold_time l)
     (time_over_threshold l) (peak_start_time l) (attack_time l)
     (release_time l) (hold_time l) (user_cooldown l) (leeway_db l)
     (dampening l) (dampening_speed l) (voice_mode l) (release_rate l)
     (ui_peak l) v.
End VolumeLimiter.

(** ** The heap and the monad *)

(** [audio] is the one [AudioController] that both [TameGUI.audio] and
    [VolumeLimiter.audio] point to.  [last_time] is the local variable of
    [VolumeLimiter._run] that survives from one loop iteration to the
    next. *)
Record Heap : Type := mkHeap {
  limiter : VolumeLimiter.t;
  audio : AudioController.t;
  last_time : R
}.

Record Run (A : Type) : Type := mkRun {
  outcome : Outcome A;
  final : Heap;
  events : list Event          (* oldest first *)
}.
Arguments mkRun {A} outcome final events.
Arguments outcome {A} r.
Arguments final {A} r.
Arguments events {A} r.

Definition Py (A : Type) : Type := Heap -> Run A.

Definition ret {A : Type} (a : A) : Py A :=
  fun h => mkRun (Returns a) h [].

(** [evs] happened before the run [r]. *)
Definition after {A : Type} (evs : list Event) (r : Run A) : Run A :=
  match r with
  | mkRun o h evs' => mkRun o h (evs ++ evs')
  end.

Definition bind {A B : Type} (m : Py A) (f : A -> Py B) : Py B :=
  fun h =>
    match m h with
    | mkRun (Returns a) h' evs => after evs (f a h')
    | mkRun (Raises e) h' evs => mkRun (Raises e) h' evs
    end.

Notation "x <- m ;; k" := (bind m (fun x => k))
  (at level 100, m at next level, k at level 200, right associativity).
Notation "m ;; k" := (bind m (fun _ => k))
  (at level 100, k at level 200, right associativity).

Definition raise {A : Type} (e : Exn) : Py A :=
  fun h => mkRun (Raises e) h [].

(** [try: body / except: handler] with a bare [except]: whatever [body]
    raised is dropped, what it did to the heap before raising stays. *)
Definition try_except {A : Type} (body handler : Py A) : Py A :=
  fun h =>
    match body h with
    | mkRun (Returns a) h' evs => mkRun (Returns a) h' evs
    | mkRun (Raises _) h' evs => after evs (handler h')
    end.

Definition emit (e : Event) : Py unit :=
  fun h => mkRun (Returns tt) h [e].

Definition get_limiter : Py VolumeLimiter.t :=
  fun h => mkRun (Returns (limiter h)) h [].
Definition get_audio : Py AudioController.t :=
  fun h => mkRun (Returns (audio h)) h [].
Definition get_last_time : Py R :=
  fun h => mkRun (Returns (last_time h)) h [].

Definition modify_limiter (f : VolumeLimiter.t -> VolumeLimiter.t) : Py unit :=
  fun h => mkRun (Returns tt) (mkHeap (f (limiter h)) (audio h) (last_time h)) [].
Definition modify_audio (f : AudioController.t -> AudioController.t) : Py unit :=
  fun h => mkRun (Returns tt) (mkHeap (limiter h) (f (audio h)) (last_time h)) [].
Definition put_last_time (v : R) : Py unit :=
  fun h => mkRun (Returns tt) (mkHeap (limiter h) (audio h) v) [].

(** [a / b] on floats. *)
Definition float_div (a b : R) : Py R :=
  if Req_dec_T b 0 then raise ZeroDivisionError
  else emit (Divide a b) ;; ret (a / b).

(** The largest float, [sys.float_info.max]. *)
Definition float_max : R := (2 - / 2 ^ 52) * 2 ^ 1023.

(** [a ** b] on floats, for a positive [a]: Python raises [OverflowError]
    when the power is beyond the largest float. *)
Definition float_pow (a b : R) : Py R :=
  if float_gt (Rpower a b) float_max then raise OverflowError
  else ret (Rpower a b).

Definition sleep (seconds : R) : Py unit := emit (Sleep seconds).

(** ** Calls on the endpoint *)

Definition meter_GetPeakValue (answer : option R) : Py R :=
  emit (GetPeakValue answer) ;;
  match answer with
  | Some peak => ret peak
  | None => raise DeviceError
  end.

Definition volume_ctrl_GetMasterVolumeLevelScalar (answer : option R) : Py R :=
  emit (GetMasterVolumeLevelScalar answer) ;;
  match answer with
  | Some v => ret v
  | None => raise DeviceError
  end.

Definition volume_ctrl_SetMasterVolumeLevelScalar (level : R) (ok : bool)
  : Py unit :=
  emit (SetMasterVolumeLevelScalar level ok) ;;
  if ok then ret tt else raise DeviceError.

(** ** [AudioController] methods *)

(** [AudioController.get_raw_peak] (lines 178-188): the peak as if the
    volume were 100%. *)
Definition get_raw_peak (answer : option R) : Py R :=
  try_except
    (peak <- meter_GetPeakValue answer ;;
     a <- get_audio ;;
     let vol := AudioController._cached_volume a in
     if float_gt vol 0.01 then
       q <- float_div peak vol ;;
       ret (Rmin 1 q)
     else
       ret peak)
    (ret 0).

(** [AudioController.get_volume] (lines 190-196) *)
Definition get_volume (answer : option R) : Py R :=
  try_except
    (v <- volume_ctrl_GetMasterVolumeLevelScalar answer ;;
     modify_audio (AudioController.set__cached_volume v) ;;
     a <- get_audio ;;
     ret (AudioController._cached_volume a))
    (a <- get_audio ;;
     ret (AudioController._cached_volume a)).

(** [AudioController.set_volume] (lines 198-206); [ok] tells whether the
    endpoint accepts the write. *)
Definition set_volume (ok : bool) (level : R) : Py unit :=
  try_except
    (let level := clamp01 level in
     volume_ctrl_SetMasterVolumeLevelScalar level ok ;;
     modify_audio (AudioController.set__last_set_volume level) ;;
     modify_audio (AudioController.set__cached_volume level))
    (ret tt).

(** [AudioController.check_user_changed] (lines 208-216); [clock] is what
    [time.time()] answers inside the method. *)
Definition check_user_changed (clock : R) (answer : option R) : Py bool :=
  current <- get_volume answer ;;
  a <- get_audio ;;
  if float_gt (Rabs (current - AudioController._last_set_volume a)) 0.01 then
    modify_audio (AudioController.set_user_set_time (Some clock)) ;;
    modify_audio (AudioController.set_user_set_volume current) ;;
    modify_audio (AudioController.set__last_set_volume current) ;;
    ret true
  else
    ret false.

(** ** [VolumeLimiter] methods *)

(** [VolumeLimiter._update_release_rate] (lines 262-267) *)
Definition _update_release_rate : Py unit :=
  l <- get_limiter ;;
  if float_gt (VolumeLimiter.release_time l) 0 then
    rate <- float_div 1 (VolumeLimiter.release_time l) ;;
    modify_limiter (VolumeLimiter.set_release_rate rate)
  else
    modify_limiter (VolumeLimiter.set_release_rate 10).

(** The attributes assigned by [VolumeLimiter.__init__] before it calls
    [_update_release_rate]; [volume] is what [audio_ctrl.get_volume()]
    returned.  [release_rate] is not assigned yet at that point. *)
Definition limiter_attributes (settings : Settings.t) (volume : R)
  : VolumeLimiter.t :=
  {| VolumeLimiter.is_running := true;
     VolumeLimiter.volume_cap := Settings.volume_cap settings;
     VolumeLimiter.original_volume := volume;
     VolumeLimiter.current_peak := 0;
     VolumeLimiter.current_volume := volume;
     VolumeLimiter.is_limiting := false;
     VolumeLimiter.last_over_threshold_time := 0;
     VolumeLimiter.time_over_threshold := 0;
     VolumeLimiter.peak_start_time := 0;
     VolumeLimiter.attack_time := Settings.attack_time settings;
     VolumeLimiter.release_time := Settings.release_time settings;
     VolumeLimiter.hold_time := Settings.hold_time settings;
     VolumeLimiter.user_cooldown := Settings.user_cooldown settings;
     VolumeLimiter.leeway_db := Settings.leeway_db settings;
     VolumeLimiter.dampening := Settings.dampening settings;
     VolumeLimiter.dampening_speed := Settings.dampening_speed settings;
     VolumeLimiter.voice_mode := Settings.voice_mode settings;
     VolumeLimiter.release_rate := 0;
     VolumeLimiter.ui_peak := 0;
     VolumeLimiter.ui_volume := volume |}.

(** [VolumeLimiter.__init__(settings, audio_ctrl)] (lines 222-260), run on
    a heap that holds [audio_ctrl]. *)
Definition VolumeLimiter__init__ (settings : Settings.t) (answer : option R)
  : Py unit :=
  volume <- get_volume answer ;;
  modify_limiter (fun _ => limiter_attributes settings volume) ;;
  _update_release_rate.

(** The heap after [TameGUI.__init__] has built both objects: the endpoint
    reports [volume] to [AudioController.__init__] and answers [answer] to
    the [get_volume] of [VolumeLimiter.__init__].  (The limiter the heap
    holds before [VolumeLimiter.__init__] runs is never read.) *)
Definition startup (settings : Settings.t) (volume : R) (answer : option R)
  : Run unit :=
  let a := AudioController.__init__ volume in
  VolumeLimiter__init__ settings answer
    (mkHeap (limiter_attributes settings volume) a 0).

(** What one iteration of the loop of [_run] gets from outside: the clock
    and the endpoint's answer for each call the iteration can make. *)
Record Iteration : Type := mkIteration {
  now : R;                            (* time.time() at [now = ...] *)
  user_clock : R;                     (* time.time() in check_user_changed *)
  check_volume : option R;            (* get_volume in check_user_changed *)
  peak : option R;                    (* raw_peak = self.audio.get_raw_peak() *)
  volume : option R;                  (* self.current_volume = ...get_volume() *)
  release_volume : option R;          (* current = self.audio.get_volume() *)
  write_ok : bool;                    (* the set_volume of this iteration *)
  telemetry_peak : option R;          (* self.ui_peak = ...get_raw_peak() *)
  telemetry_volume : option R         (* self.ui_volume = ...get_volume() *)
}.

(** [self.audio.user_set_time and (now - self.audio.user_set_time) <
    self.user_cooldown] (line 300) *)
Definition in_user_cooldown (a : AudioController.t) (now cooldown : R) : bool :=
  match AudioController.user_set_time a with
  | None => false
  | Some t => float_truthy t && float_lt (now - t) cooldown
  end.

(** The volume computed once limiting is engaged (lines 328-358): from [if
    potential_output >= soft_threshold] down to [target_volume = max(0.01,
    min(1.0, target_volume))]. *)
Definition limiting_target (raw_peak potential_output soft_threshold : R)
  : Py R :=
  l <- get_limiter ;;
  leeway_ratio <-
    (if float_ge potential_output soft_threshold then
       ret 1
     else
       float_div (potential_output - VolumeLimiter.volume_cap l)
                 (soft_threshold - VolumeLimiter.volume_cap l)) ;;
  let time_since_attack :=
    VolumeLimiter.time_over_threshold l - VolumeLimiter.attack_time l in
  ramp_progress <-
    (if float_gt (VolumeLimiter.dampening_speed l) 0.001 then
       q <- float_div time_since_attack (VolumeLimiter.dampening_speed l) ;;
       ret (Rmin 1 q)
     else
       ret 1) ;;
  let sustained_factor := 1 + (VolumeLimiter.dampening l - 1) * ramp_progress in
  let sustained_factor :=
    Rmax 1 (Rmin (VolumeLimiter.dampening l) sustained_factor) in
  base_target <- float_div (VolumeLimiter.volume_cap l) raw_peak ;;
  let target_volume :=
    VolumeLimiter.original_volume l * (1 - leeway_ratio)
    + base_target * leeway_ratio in
  target_volume <- float_div target_volume sustained_factor ;;
  ret (Rmax 0.01 (Rmin 1 target_volume)).

(** The [if potential_output > self.volume_cap and raw_peak > 0.001]
    branch (lines 319-360). *)
Definition over_threshold (it : Iteration) (dt raw_peak potential_output
                           soft_threshold : R) : Py unit :=
  modify_limiter (fun l =>
    VolumeLimiter.set_time_over_threshold
      (VolumeLimiter.time_over_threshold l + dt) l) ;;
  modify_limiter (VolumeLimiter.set_last_over_threshold_time (now it)) ;;
  l <- get_limiter ;;
  if float_ge (VolumeLimiter.time_over_threshold l)
              (VolumeLimiter.attack_time l) then
    (if negb (VolumeLimiter.is_limiting l) then
       modify_limiter (VolumeLimiter.set_is_limiting true)
     else ret tt) ;;
    target_volume <- limiting_target raw_peak potential_output soft_threshold ;;
    set_volume (write_ok it) target_volume
  else
    ret tt.

(** The [else] branch (lines 362-381): the signal is under the threshold. *)
Definition under_threshold (it : Iteration) (dt : R) : Py unit :=
  modify_limiter (VolumeLimiter.set_time_over_threshold 0) ;;
  l <- get_limiter ;;
  if VolumeLimiter.is_limiting l then
    let time_since_loud := now it - VolumeLimiter.last_over_threshold_time l in
    if float_gt time_since_loud (VolumeLimiter.hold_time l) then
      current <- get_volume (release_volume it) ;;
      let target := VolumeLimiter.original_volume l in
      if float_lt current (target - 0.005) then
        let new_vol := current + VolumeLimiter.release_rate l * dt in
        let new_vol := Rmin new_vol target in
        set_volume (write_ok it) new_vol
      else
        set_volume (write_ok it) target ;;
        modify_limiter (VolumeLimiter.set_is_limiting false)
    else
      ret tt
  else
    ret tt.

(** [if self.audio.check_user_changed(): ...] (lines 292-297): a volume the
    user chose becomes the new baseline. *)
Definition follow_user (it : Iteration) : Py unit :=
  changed <- check_user_changed (user_clock it) (check_volume it) ;;
  if changed then
    a <- get_audio ;;
    let new_user_vol := AudioController.user_set_volume a in
    modify_limiter (VolumeLimiter.set_original_volume new_user_vol) ;;
    modify_limiter (VolumeLimiter.set_is_limiting false) ;;
    modify_limiter (VolumeLimiter.set_time_over_threshold 0)
  else ret tt.

(** From [raw_peak = self.audio.get_raw_peak()] to the end of the
    [if]/[else] on the threshold (lines 304-381). *)
Definition limit (it : Iteration) (dt : R) : Py unit :=
  raw_peak <- get_raw_peak (peak it) ;;
  modify_limiter (VolumeLimiter.set_current_peak raw_peak) ;;
  v <- get_volume (volume it) ;;
  modify_limiter (VolumeLimiter.set_current_volume v) ;;
  l <- get_limiter ;;
  let potential_output := raw_peak * VolumeLimiter.original_volume l in
  e <- float_div (VolumeLimiter.leeway_db l) 20 ;;
  leeway_factor <- float_pow 10 e ;;
  let soft_threshold := VolumeLimiter.volume_cap l * leeway_factor in
  if float_gt potential_output (VolumeLimiter.volume_cap l)
     && float_gt raw_peak 0.001 then
    over_threshold it dt raw_peak potential_output soft_threshold
  else
    under_threshold it dt.

(** [self.ui_peak = ...; self.ui_volume = ...] (lines 383-385) *)
Definition publish_telemetry (it : Iteration) : Py unit :=
  p <- get_raw_peak (telemetry_peak it) ;;
  modify_limiter (VolumeLimiter.set_ui_peak p) ;;
  v <- get_volume (telemetry_volume it) ;;
  modify_limiter (VolumeLimiter.set_ui_volume v).

(** One pass through the body of [while not self._stop.is_set()] in
    [VolumeLimiter._run] (lines 283-388). *)
Definition loop_body (it : Iteration) : Py unit :=
  l <- get_limiter ;;
  if negb (VolumeLimiter.is_running l) then
    sleep 0.05 ;;
    modify_limiter (VolumeLimiter.set_time_over_threshold 0)
  else
    last <- get_last_time ;;
    let dt := now it - last in
    put_last_time (now it) ;;
    follow_user it ;;
    a <- get_audio ;;
    l <- get_limiter ;;
    if in_user_cooldown a (now it) (VolumeLimiter.user_cooldown l) then
      sleep 0.02
    else
      limit it dt ;;
      publish_telemetry it ;;
      sleep 0.02.

(** [VolumeLimiter._run] (lines 278-388): [start] is the clock when the
    thread starts, the list holds one entry per iteration made before
    [_stop] is set. *)
Fixpoint iterate (its : list Iteration) : Py unit :=
  match its with
  | [] => ret tt
  | it :: rest => loop_body it ;; iterate rest
  end.

Definition _run (start : R) (its : list Iteration) : Py unit :=
  put_last_time start ;;
  iterate its.

(** ** [TameGUI] callbacks that touch the limiter *)

(** [TameGUI._toggle] (lines 658-665; the widget updates are left out) *)
Definition _toggle : Py unit :=
  modify_limiter (fun l =>
    VolumeLimiter.set_is_running (negb (VolumeLimiter.is_running l)) l).

(** [TameGUI._on_release_change] (lines 599-601) *)
Definition _on_release_change (val : R) : Py unit :=
  modify_limiter (VolumeLimiter.set_release_time val) ;;
  _update_release_rate.

(** * Specification vocabulary *)

(** Both volumes the controller remembers are in [0, 1]. *)
Definition volumes_in_range (a : AudioController.t) : Prop :=
  0 <= AudioController._cached_volume a <= 1 /\
  0 <= AudioController._last_set_volume a <= 1.

(** What [get_volume] returns when the cached volume is [cached]: the
    endpoint's answer, or [cached] when the endpoint raises. *)
Definition volume_read (answer : option R) (cached : R) : R :=
  match answer with
  | Some v => v
  | None => cached
  end.

(** What [get_raw_peak] returns when the cached volume is [vol], and the
    events it leaves. *)
Definition raw_peak_read (answer : option R) (vol : R) : R :=
  match answer with
  | Some peak => if float_gt vol 0.01 then Rmin 1 (peak / vol) else peak
  | None => 0
  end.

Definition raw_peak_events (answer : option R) (vol : R) : list Event :=
  GetPeakValue answer ::
  match answer with
  | Some peak => if float_gt vol 0.01 then [Divide peak vol] else []
  | None => []
  end.

(** The levels the endpoint was asked to set, in order. *)
Fixpoint writes (evs : list Event) : list R :=
  match evs with
  | [] => []
  | SetMasterVolumeLevelScalar level _ :: rest => level :: writes rest
  | _ :: rest => writes rest
  end.

(** The peak meter was not read. *)
Fixpoint no_peak_read (evs : list Event) : bool :=
  match evs with
  | [] => true
  | GetPeakValue _ :: _ => false
  | _ :: rest => no_peak_read rest
  end.

(** A division is guarded when its divisor is positive. *)
Definition guarded (e : Event) : Prop :=
  match e with
  | Divide _ d => 0 < d
  | _ => True
  end.

(** The power of line 315, [10 ** (self.leeway_db / 20)], is not beyond the
    largest float: the line does not raise. *)
Definition leeway_factor_finite (l : VolumeLimiter.t) : Prop :=
  Rpower 10 (VolumeLimiter.leeway_db l / 20) <= float_max.

(** The rate [_update_release_rate] derives from a release time. *)
Definition release_rate_of (release_time : R) : R :=
  if float_gt release_time 0 then 1 / release_time else 10.

(** The state of the controller that the specification talks about. *)
Record ControllerState : Type := mkControllerState {
  originalVolume : R;
  isLimiting : bool;
  timeOverThreshold : R;
  lastWrittenVolume : R
}.

Definition controller_state (h : Heap) : ControllerState :=
  {| originalVolume := VolumeLimiter.original_volume (limiter h);
     isLimiting := VolumeLimiter.is_limiting (limiter h);
     timeOverThreshold := VolumeLimiter.time_over_threshold (limiter h);
     lastWrittenVolume := AudioController._last_set_volume (audio h) |}.

(** The user presses the button, the loop goes round once per entry of
    [its], the user presses the button again. *)
Definition toggle_twice (its : list Iteration) : Py unit :=
  _toggle ;;
  iterate its ;;
  _toggle.

(** The heap when the program has started with the default settings on an
    endpoint whose volume is [volume]. *)
Definition default_heap (volume : R) : Heap :=
  final (startup Settings.set_defaults volume (Some volume)).

(** An iteration at time [t] in which the endpoint reports the volume [v]
    and the peak [p] to every call and accepts writes. *)
Definition steady (t v p : R) : Iteration :=
  {| now := t;
     user_clock := t;
     check_volume := Some v;
     peak := Some p;
     volume := Some v;
     release_volume := Some v;
     write_ok := true;
     telemetry_peak := Some p;
     telemetry_volume := Some v |}.

(** The iteration leaves the loop body at one of its two [continue]s: the
    controller is disabled, or the cooldown after a change by the user is
    running. *)
Definition skips (it : Iteration) (h : Heap) : bool :=
  negb (VolumeLimiter.is_running (limiter h))
  || in_user_cooldown (audio (final (follow_user it h))) (now it)
       (VolumeLimiter.user_cooldown (limiter h)).

(** ** The end-to-end example *)

(** The default settings with the leeway set to 0 dB. *)
Definition e2e_settings : Settings.t :=
  {| Settings.volume_cap := 0.2;
     Settings.attack_time := 0.05;
     Settings.release_time := 0.5;
     Settings.hold_time := 0.15;
     Settings.user_cooldown := 2.0;
     Settings.leeway_db := 0;
     Settings.dampening := 1.0;
     Settings.dampening_speed := 0.0;
     Settings.voice_mode := false |}.

(** The program has started on an endpoint at full volume. *)
Definition e2e_heap : Heap := final (startup e2e_settings 1 (Some 1)).

(** An iteration at time [t] while a signal of raw peak 0.5 plays: the
    endpoint is at volume [vol] when the iteration starts (so its meter
    shows [0.5 * vol]) and at volume [vol'] when the telemetry is read. *)
Definition e2e_tick (vol vol' t : R) : Iteration :=
  {| now := t;
     user_clock := t;
     check_volume := Some vol;
     peak := Some (0.5 * vol);
     volume := Some vol;
     release_volume := Some vol;
     write_ok := true;
     telemetry_peak := Some (0.5 * vol');
     telemetry_volume := Some vol' |}.




(** An iteration at time [t] while a full-scale signal plays: the endpoint
    is at volume [v] when the iteration starts, so its meter shows [v], and
    at volume [w] when the telemetry is read. *)
Definition loud (v w t : R) : Iteration :=
  {| now := t;
     user_clock := t;
     check_volume := Some v;
     peak := Some v;
     volume := Some v;
     release_volume := Some v;
     write_ok := true;
     telemetry_peak := Some w;
     telemetry_volume := Some w |}.

(** ** Example states and iterations *)

(** The controller holds the endpoint at 0.4 below a baseline of 1; the
    signal was last over the threshold at time 100 and the previous
    iteration ran at 100.5. *)
Definition holding_heap : Heap :=
  {| limiter :=
       {| VolumeLimiter.is_running := true;
          VolumeLimiter.volume_cap := 0.2;
          VolumeLimiter.original_volume := 1;
          VolumeLimiter.current_peak := 0.5;
          VolumeLimiter.current_volume := 0.4;
          VolumeLimiter.is_limiting := true;
          VolumeLimiter.last_over_threshold_time := 100;
          VolumeLimiter.time_over_threshold := 0;
          VolumeLimiter.peak_start_time := 0;
          VolumeLimiter.attack_time := 0.05;
          VolumeLimiter.release_time := 0.5;
          VolumeLimiter.hold_time := 0.15;
          VolumeLimiter.user_cooldown := 2.0;
          VolumeLimiter.leeway_db := 3.0;
          VolumeLimiter.dampening := 1.0;
          VolumeLimiter.dampening_speed := 0.0;
          VolumeLimiter.voice_mode := false;
          VolumeLimiter.release_rate := release_rate_of 0.5;
          VolumeLimiter.ui_peak := 0.5;
          VolumeLimiter.ui_volume := 0.4 |};
     audio :=
       {| AudioController._cached_volume := 0.4;
          AudioController._last_set_volume := 0.4;
          AudioController.user_set_time := None;
          AudioController.user_set_volume := 1 |};
     last_time := 100.5 |}.

(** An iteration at time [t] in which the peak meter raises; the volume
    control reports [v]. *)
Definition meter_down (t v : R) : Iteration :=
  {| now := t;
     user_clock := t;
     check_volume := Some v;
     peak := None;
     volume := Some v;
     release_volume := Some v;
     write_ok := true;
     telemetry_peak := None;
     telemetry_volume := Some v |}.

(** * Invariants of the loop: vocabulary *)

(** The attributes of the limiter that only the window changes. *)
Definition same_settings (l l' : VolumeLimiter.t) : Prop :=
  VolumeLimiter.is_running l' = VolumeLimiter.is_running l /\
  VolumeLimiter.volume_cap l' = VolumeLimiter.volume_cap l /\
  VolumeLimiter.attack_time l' = VolumeLimiter.attack_time l /\
  VolumeLimiter.release_time l' = VolumeLimiter.release_time l /\
  VolumeLimiter.hold_time l' = VolumeLimiter.hold_time l /\
  VolumeLimiter.user_cooldown l' = VolumeLimiter.user_cooldown l /\
  VolumeLimiter.leeway_db l' = VolumeLimiter.leeway_db l /\
  VolumeLimiter.dampening l' = VolumeLimiter.dampening l /\
  VolumeLimiter.dampening_speed l' = VolumeLimiter.dampening_speed l /\
  VolumeLimiter.voice_mode l' = VolumeLimiter.voice_mode l /\
  VolumeLimiter.release_rate l' = VolumeLimiter.release_rate l /\
  VolumeLimiter.peak_start_time l' = VolumeLimiter.peak_start_time l.

(** A volume the endpoint reports is in [0, 1]. *)
Definition in_unit (answer : option R) : Prop :=
  match answer with
  | Some v => 0 <= v <= 1
  | None => True
  end.

(** Every volume the endpoint reports during the iteration is in [0, 1]. *)
Definition volumes_reported_in_unit (it : Iteration) : Prop :=
  in_unit (check_volume it) /\ in_unit (volume it) /\
  in_unit (release_volume it) /\ in_unit (telemetry_volume it).

(** The volume [check_user_changed] sees at the start of an iteration. *)
Definition volume_seen (it : Iteration) (h : Heap) : R :=
  volume_read (check_volume it) (AudioController._cached_volume (audio h)).

(** An enabled iteration on which the loop sees no change by the user, is
    past the cooldown, gets a float from the power of line 315, and hears
    the signal over the threshold. *)
Definition loud_now (it : Iteration) (h : Heap) : Prop :=
  let l := limiter h in
  let raw_peak := raw_peak_read (peak it) (volume_seen it h) in
  VolumeLimiter.is_running l = true /\
  ~ Rabs (volume_seen it h - AudioController._last_set_volume (audio h)) > 0.01 /\
  in_user_cooldown (audio h) (now it) (VolumeLimiter.user_cooldown l) = false /\
  leeway_factor_finite l /\
  raw_peak * VolumeLimiter.original_volume l > VolumeLimiter.volume_cap l /\
  raw_peak > 0.001.

(** Such an iteration, with the signal over the threshold for long enough
    to limit. *)
Definition limits_now (it : Iteration) (h : Heap) : Prop :=
  loud_now it h /\
  VolumeLimiter.time_over_threshold (limiter h) + (now it - last_time h)
  >= VolumeLimiter.attack_time (limiter h).

(** An answer of the endpoint, if there is one, is at most [M]. *)
Definition at_most (M : R) (answer : option R) : Prop :=
  match answer with
  | Some v => v <= M
  | None => True
  end.

(** Every volume the endpoint reports during the iteration is at most [M]. *)
Definition volumes_reported_at_most (M : R) (it : Iteration) : Prop :=
  at_most M (check_volume it) /\ at_most M (volume it) /\
  at_most M (release_volume it) /\ at_most M (telemetry_volume it).

(** * The window's callbacks *)

(** Assignments to attributes of the limiter made from the window only:
    [Assign.volume_cap v l] is [l] after [self.limiter.volume_cap = v]. *)
Module Assign.
Definition volume_cap (v : R) (l : VolumeLimiter.t) : VolumeLimiter.t :=
  VolumeLimiter.mk (VolumeLimiter.is_running l) v
    (VolumeLimiter.original_volume l) (VolumeLimiter.current_peak l)
    (VolumeLimiter.current_volume l) (VolumeLimiter.is_limiting l)
    (VolumeLimiter.last_over_threshold_time l)
    (VolumeLimiter.time_over_threshold l) (VolumeLimiter.peak_start_time l)
    (VolumeLimiter.attack_time l) (VolumeLimiter.release_time l)
    (VolumeLimiter.hold_time l) (VolumeLimiter.user_cooldown l)
    (VolumeLimiter.leeway_db l) (VolumeLimiter.dampening l)
    (VolumeLimiter.dampening_speed l) (VolumeLimiter.voice_mode l)
    (VolumeLimiter.release_rate l) (VolumeLimiter.ui_peak l)
    (VolumeLimiter.ui_volume l).
Definition attack_time (v : R) (l : VolumeLimiter.t) : VolumeLimiter.t :=
  VolumeLimiter.mk (VolumeLimiter.is_running l) (VolumeLimiter.volume_cap l)
    (VolumeLimiter.original_volume l) (VolumeLimiter.current_peak l)
    (VolumeLimiter.current_volume l) (VolumeLimiter.is_limiting l)
    (VolumeLimiter.last_over_threshold_time l)
    (VolumeLimiter.time_over_threshold l) (VolumeLimiter.peak_start_time l) v
    (VolumeLimiter.release_time l) (VolumeLimiter.hold_time l)
    (VolumeLimiter.user_cooldown l) (VolumeLimiter.leeway_db l)
    (VolumeLimiter.dampening l) (VolumeLimiter.dampening_speed l)
    (VolumeLimiter.voice_mode l) (VolumeLimiter.release_rate l)
    (VolumeLimiter.ui_peak l) (VolumeLimiter.ui_volume l).
Definition hold_time (v : R) (l : VolumeLimiter.t) : VolumeLimiter.t :=
  VolumeLimiter.mk (VolumeLimiter.is_running l) (VolumeLimiter.volume_cap l)
    (VolumeLimiter.original_volume l) (VolumeLimiter.current_peak l)
    (VolumeLimiter.current_volume l) (VolumeLimiter.is_limiting l)
    (VolumeLimiter.last_over_threshold_time l)
    (VolumeLimiter.time_over_threshold l) (VolumeLimiter.peak_start_time l)
    (VolumeLimiter.attack_time l) (VolumeLimiter.release_time l) v
    (VolumeLimiter.user_cooldown l) (VolumeLimiter.leeway_db l)
    (VolumeLimiter.dampening l) (VolumeLimiter.dampening_speed l)
    (VolumeLimiter.voice_mode l) (VolumeLimiter.release_rate l)
    (VolumeLimiter.ui_peak l) (VolumeLimiter.ui_volume l).
Definition user_cooldown (v : R) (l : VolumeLimiter.t) : VolumeLimiter.t :=
  VolumeLimiter.mk (VolumeLimiter.is_running l) (VolumeLimiter.volume_cap l)
    (VolumeLimiter.original_volume l) (VolumeLimiter.current_peak l)
    (VolumeLimiter.current_volume l) (VolumeLimiter.is_limiting l)
    (VolumeLimiter.last_over_threshold_time l)
    (VolumeLimiter.time_over_threshold l) (VolumeLimiter.peak_start_time l)
    (VolumeLimiter.attack_time l) (VolumeLimiter.release_time l)
    (VolumeLimiter.hold_time l) v (VolumeLimiter.leeway_db l)
    (VolumeLimiter.dampening l) (VolumeLimiter.dampening_speed l)
    (VolumeLimiter.voice_mode l) (VolumeLimiter.release_rate l)
    (VolumeLimiter.ui_peak l) (VolumeLimiter.ui_volume l).
Definition leeway_db (v : R) (l : VolumeLimiter.t) : VolumeLimiter.t :=
  VolumeLimiter.mk (VolumeLimiter.is_running l) (VolumeLimiter.volume_cap l)
    (VolumeLimiter.original_volume l) (VolumeLimiter.current_peak l)
    (VolumeLimiter.current_volume l) (VolumeLimiter.is_limiting l)
    (VolumeLimiter.last_over_threshold_time l)
    (VolumeLimiter.time_over_threshold l) (VolumeLimiter.peak_start_time l)
    (VolumeLimiter.attack_time l) (VolumeLimiter.release_time l)
    (VolumeLimiter.hold_time l) (VolumeLimiter.user_cooldown l) v
    (VolumeLimiter.dampening l) (VolumeLimiter.dampening_speed l)
    (VolumeLimiter.voice_mode l) (VolumeLimiter.release_rate l)
    (VolumeLimiter.ui_peak l) (VolumeLimiter.ui_volume l).
Definition dampening (v : R) (l : VolumeLimiter.t) : VolumeLimiter.t :=
  VolumeLimiter.mk (VolumeLimiter.is_running l) (VolumeLimiter.volume_cap l)
    (VolumeLimiter.original_volume l) (VolumeLimiter.current_peak l)
    (VolumeLimiter.current_volume l) (VolumeLimiter.is_limiting l)
    (VolumeLimiter.last_over_threshold_time l)
    (VolumeLimiter.time_over_threshold l) (VolumeLimiter.peak_start_time l)
    (VolumeLimiter.attack_time l) (VolumeLimiter.release_time l)
    (VolumeLimiter.hold_time l) (VolumeLimiter.user_cooldown l)
    (VolumeLimiter.leeway_db l) v (VolumeLimiter.dampening_speed l)
    (VolumeLimiter.voice_mode l) (VolumeLimiter.release_rate l)
    (VolumeLimiter.ui_peak l) (VolumeLimiter.ui_volume l).
Definition dampening_speed (v : R) (l : VolumeLimiter.t) : VolumeLimiter.t :=
  VolumeLimiter.mk (VolumeLimiter.is_running l) (VolumeLimiter.volume_cap l)
    (VolumeLimiter.original_volume l) (VolumeLimiter.current_peak l)
    (VolumeLimiter.current_volume l) (VolumeLimiter.is_limiting l)
    (VolumeLimiter.last_over_threshold_time l)
    (VolumeLimiter.time_over_threshold l) (VolumeLimiter.peak_start_time l)
    (VolumeLimiter.attack_time l) (VolumeLimiter.release_time l)
    (VolumeLimiter.hold_time l) (VolumeLimiter.user_cooldown l)
    (VolumeLimiter.leeway_db l) (VolumeLimiter.dampening l) v
    (VolumeLimiter.voice_mode l) (VolumeLimiter.release_rate l)
    (VolumeLimiter.ui_peak l) (VolumeLimiter.ui_volume l).
End Assign.

(** The slider callbacks (lines 593-616); [val] is the number [float(val)]
    gives. *)
Definition _on_cap_change (val : R) : Py unit :=
  modify_limiter (Assign.volume_cap val).

Definition _on_attack_change (val : R) : Py unit :=
  modify_limiter (Assign.attack_time val).

Definition _on_hold_change (val : R) : Py unit :=
  modify_limiter (Assign.hold_time val).

Definition _on_cooldown_change (val : R) : Py unit :=
  modify_limiter (Assign.user_cooldown val).

Definition _on_leeway_change (val : R) : Py unit :=
  modify_limiter (Assign.leeway_db val).

Definition _on_dampening_change (val : R) : Py unit :=
  modify_limiter (Assign.dampening val).

Definition _on_dampening_speed_change (val : R) : Py unit :=
  modify_limiter (Assign.dampening_speed val).

(** [TameGUI._reset_defaults] (lines 645-656; [_update_slider_displays]
    touches widgets only and is left out) *)
Definition _reset_defaults : Py unit :=
  modify_limiter (Assign.attack_time 0.05) ;;
  modify_limiter (VolumeLimiter.set_release_time 0.5) ;;
  modify_limiter (Assign.hold_time 0.15) ;;
  modify_limiter (Assign.user_cooldown 2.0) ;;
  modify_limiter (Assign.leeway_db 3.0) ;;
  modify_limiter (Assign.dampening 2.0) ;;
  modify_limiter (Assign.dampening_speed 0.1) ;;
  _update_release_rate.

(** What the user can do in the window to the limiter. *)
Inductive Callback : Type :=
| CapChange (val : R)
| AttackChange (val : R)
| ReleaseChange (val : R)
| HoldChange (val : R)
| CooldownChange (val : R)
| LeewayChange (val : R)
| DampeningChange (val : R)
| DampeningSpeedChange (val : R)
| ResetDefaults
| Toggle.

Definition callback (c : Callback) : Py unit :=
  match c with
  | CapChange val => _on_cap_change val
  | AttackChange val => _on_attack_change val
  | ReleaseChange val => _on_release_change val
  | HoldChange val => _on_hold_change val
  | CooldownChange val => _on_cooldown_change val
  | LeewayChange val => _on_leeway_change val
  | DampeningChange val => _on_dampening_change val
  | DampeningSpeedChange val => _on_dampening_speed_change val
  | ResetDefaults => _reset_defaults
  | Toggle => _toggle
  end.

(** The limiter's thread and the window's thread share the limiter.  A
    [Step] is a whole callback or a whole loop iteration; a list of them is
    one interleaving of the two threads at that granularity. *)
Inductive Step : Type :=
| Gui (c : Callback)
| Loop (it : Iteration).

Definition step (s : Step) : Py unit :=
  match s with
  | Gui c => callback c
  | Loop it => loop_body it
  end.

Fixpoint steps (ss : list Step) : Py unit :=
  match ss with
  | [] => ret tt
  | s :: rest => step s ;; steps rest
  end.

(** The release rate is the one [_update_release_rate] computes from the
    release time. *)
Definition release_rate_current (l : VolumeLimiter.t) : Prop :=
  VolumeLimiter.release_rate l = release_rate_of (VolumeLimiter.release_time l).

(** A step that leaves the power of line 315 a float: a move of the leeway
    slider has to set a leeway whose power is one; every other step keeps
    the leeway, or sets 3 dB. *)
Definition leeway_kept_finite (s : Step) : Prop :=
  match s with
  | Gui (LeewayChange val) => Rpower 10 (val / 20) <= float_max
  | _ => True
  end.

(** * The limiting branch in closed form *)

(** [leeway_ratio] (lines 330-335) *)
Definition leeway_ratio_of (cap potential_output soft_threshold : R) : R :=
  if float_ge potential_output soft_threshold then 1
  else (potential_output - cap) / (soft_threshold - cap).

(** [target_volume] before the sustained factor is applied (lines 351-354),
    for a limiter and the raw peak it heard. *)
Definition blend_of (l : VolumeLimiter.t) (raw_peak : R) : R :=
  let cap := VolumeLimiter.volume_cap l in
  let potential_output := raw_peak * VolumeLimiter.original_volume l in
  let soft_threshold := cap * Rpower 10 (VolumeLimiter.leeway_db l / 20) in
  let leeway_ratio := leeway_ratio_of cap potential_output soft_threshold in
  VolumeLimiter.original_volume l * (1 - leeway_ratio)
  + cap / raw_peak * leeway_ratio.

(** [sustained_factor] (lines 339-347) once the signal has been over the
    threshold for [time_over] seconds. *)
Definition sustained_factor_of (l : VolumeLimiter.t) (time_over : R) : R :=
  let time_since_attack := time_over - VolumeLimiter.attack_time l in
  let ramp_progress :=
    if float_gt (VolumeLimiter.dampening_speed l) 0.001
    then Rmin 1 (time_since_attack / VolumeLimiter.dampening_speed l)
    else 1 in
  Rmax 1 (Rmin (VolumeLimiter.dampening l)
               (1 + (VolumeLimiter.dampening l - 1) * ramp_progress)).

(** [max(0.01, min(1.0, target_volume))] as [set_volume] passes it on. *)
Definition floor_and_clamp (target_volume : R) : R :=
  clamp01 (Rmax 0.01 (Rmin 1 target_volume)).

(** The heap with the time over the threshold replaced. *)
Definition with_time_over (time_over : R) (h : Heap) : Heap :=
  mkHeap (VolumeLimiter.set_time_over_threshold time_over (limiter h))
         (audio h) (last_time h).

(** * A release from start to end: vocabulary *)

(** An iteration at time [t] in silence: the endpoint is at volume [v]
    when the iteration starts and at [v'] when the telemetry is read. *)
Definition quiet (v v' t : R) : Iteration :=
  {| now := t;
     user_clock := t;
     check_volume := Some v;
     peak := Some 0;
     volume := Some v;
     release_volume := Some v;
     write_ok := true;
     telemetry_peak := Some 0;
     telemetry_volume := Some v' |}.

(** The volume the release branch (lines 369-381) hands to the endpoint
    when the endpoint is at [v], the baseline is [o] and the loop adds
    [step] per iteration. *)
Definition release_step (v o step : R) : R :=
  clamp01 (if float_lt v (o - 0.005) then Rmin (v + step) o else o).

(** [n] iterations in silence, [dt] seconds apart, the first at time
    [t + dt], on an endpoint that starts at [v] and takes every volume of
    the release towards [o]. *)
Fixpoint release_ticks (n : nat) (t dt v o step : R) : list Iteration :=
  match n with
  | O => []
  | S k =>
      quiet v (release_step v o step) (t + dt)
      :: release_ticks k (t + dt) dt (release_step v o step) o step
  end.

(** What matters of the heap during a release that started from [h0]: the
    settings, the baseline and the time of the last loud sample are those
    of [h0], no change by the user is on record, [limiting] tells whether
    the release is still going on, the endpoint is at [v], which is also
    the last volume written, and the previous iteration ran at [t]. *)
Definition release_phase (h0 : Heap) (limiting : bool) (v t : R) (h : Heap)
  : Prop :=
  same_settings (limiter h0) (limiter h) /\
  VolumeLimiter.original_volume (limiter h)
  = VolumeLimiter.original_volume (limiter h0) /\
  VolumeLimiter.last_over_threshold_time (limiter h)
  = VolumeLimiter.last_over_threshold_time (limiter h0) /\
  AudioController.user_set_time (audio h) = None /\
  VolumeLimiter.is_limiting (limiter h) = limiting /\
  AudioController._cached_volume (audio h) = v /\
  AudioController._last_set_volume (audio h) = v /\
  last_time h = t.

(** * The meter and the graph *)


(** The height of the threshold line in [TameGUI._draw_graph] (lines
    733-734), as a fraction of the graph: the local variable [threshold]. *)
Definition _draw_graph_threshold : Py R :=
  l <- get_limiter ;;
  let original_vol :=
    if float_gt (VolumeLimiter.original_volume l) 0
    then VolumeLimiter.original_volume l
    else 1 in
  q <- float_div (VolumeLimiter.volume_cap l) original_vol ;;
  ret (Rmin 1 q).

(** * The settings file *)

(** A value as [json.load] returns it and [json.dump] takes it.  Python
    keeps [int] and [float] apart; both are numbers here. *)
Module Json.
#[warnings="-register-all"] Inductive t : Type :=
| Number (x : R)
| Boolean (b : bool)
| Text (s : String.string)
| Null
| Array (items : list t)
| Object (members : list (String.string * t)).

(** [data.get(key, default)] on the members of an object. *)
Fixpoint get (data : list (String.string * t)) (key : String.string)
         (default : t) : t :=
  match data with
  | [] => default
  | (k, v) :: rest => if String.eqb k key then v else get rest key default
  end.

(** [key in data] *)
Fixpoint has (data : list (String.string * t)) (key : String.string) : bool :=
  match data with
  | [] => false
  | (k, _) :: rest => String.eqb k key || has rest key
  end.
End Json.

(** [settings.json] as [Settings.load] finds it: it does not exist, or
    reading it gives a value, or reading it raises ([open] fails, or the
    text is not JSON). *)
Inductive SettingsFile : Type :=
| Missing
| Holds (data : Json.t)
| Unreadable.

(** The [Settings] object with all its attributes.  [load] stores what the
    file holds under a key whatever its type, so an attribute is a JSON
    value here; [Settings.t] above is the view [VolumeLimiter.__init__]
    takes of it. *)
Module SettingsObject.
Import String.
Local Open Scope string_scope.

Record t : Type := mk {
  volume_cap : Json.t;
  show_close_notifications : Json.t;
  run_at_startup : Json.t;
  attack_time : Json.t;
  release_time : Json.t;
  hold_time : Json.t;
  user_cooldown : Json.t;
  leeway_db : Json.t;
  dampening : Json.t;
  dampening_speed : Json.t;
  voice_mode : Json.t
}.

(** [Settings.set_defaults] (lines 58-69), all eleven attributes. *)
Definition set_defaults : t :=
  {| volume_cap := Json.Number 0.2;
     show_close_notifications := Json.Boolean true;
     run_at_startup := Json.Boolean false;
     attack_time := Json.Number 0.05;
     release_time := Json.Number 0.5;
     hold_time := Json.Number 0.15;
     user_cooldown := Json.Number 2.0;
     leeway_db := Json.Number 3.0;
     dampening := Json.Number 1.0;
     dampening_speed := Json.Number 0.0;
     voice_mode := Json.Boolean false |}.

(** [Settings.load] (lines 36-56).  On a value that is not an object the
    first [data.get] raises, and the bare [except] sets the defaults. *)
Definition load (file : SettingsFile) : t :=
  match file with
  | Holds (Json.Object data) =>
      {| volume_cap := Json.get data "volume_cap" (Json.Number 0.2);
         show_close_notifications :=
           Json.get data "show_close_notifications" (Json.Boolean true);
         run_at_startup := Json.get data "run_at_startup" (Json.Boolean false);
         attack_time := Json.get data "attack_time" (Json.Number 0.05);
         release_time := Json.get data "release_time" (Json.Number 0.5);
         hold_time := Json.get data "hold_time" (Json.Number 0.15);
         user_cooldown := Json.get data "user_cooldown" (Json.Number 2.0);
         leeway_db := Json.get data "leeway_db" (Json.Number 3.0);
         dampening := Json.get data "dampening" (Json.Number 1.0);
         dampening_speed := Json.get data "dampening_speed" (Json.Number 0.0);
         voice_mode := Json.get data "voice_mode" (Json.Boolean false) |}
  | Holds _ => set_defaults
  | Unreadable => set_defaults
  | Missing => set_defaults
  end.

(** The dictionary [Settings.save] builds (lines 72-84). *)
Definition data (s : t) : list (string * Json.t) :=
  [ ("volume_cap", volume_cap s);
    ("show_close_notifications", show_close_notifications s);
    ("run_at_startup", run_at_startup s);
    ("attack_time", attack_time s);
    ("release_time", release_time s);
    ("hold_time", hold_time s);
    ("user_cooldown", user_cooldown s);
    ("leeway_db", leeway_db s);
    ("dampening", dampening s);
    ("dampening_speed", dampening_speed s);
    ("voice_mode", voice_mode s) ].

(** [Settings.save] (lines 71-86), when the write goes through: the file
    afterwards. *)
Definition save (s : t) : SettingsFile := Holds (Json.Object (data s)).

(** The keys [load] asks for. *)
Definition keys : list string :=
  [ "volume_cap"; "show_close_notifications"; "run_at_startup";
    "attack_time"; "release_time"; "hold_time"; "user_cooldown";
    "leeway_db"; "dampening"; "dampening_speed"; "voice_mode" ].

(** The attributes [VolumeLimiter.__init__] reads, when each holds a value
    of the type the limiter computes with. *)
Definition read (s : t) : option Settings.t :=
  match volume_cap s, attack_time s, release_time s, hold_time s,
        user_cooldown s, leeway_db s, dampening s, dampening_speed s,
        voice_mode s with
  | Json.Number cap, Json.Number attack, Json.Number release,
    Json.Number hold, Json.Number cooldown, Json.Number leeway,
    Json.Number damp, Json.Number speed, Json.Boolean voice =>
      Some {| Settings.volume_cap := cap;
              Settings.attack_time := attack;
              Settings.release_time := release;
              Settings.hold_time := hold;
              Settings.user_cooldown := cooldown;
              Settings.leeway_db := leeway;
              Settings.dampening := damp;
              Settings.dampening_speed := speed;
              Settings.voice_mode := voice |}
  | _, _, _, _, _, _, _, _, _ => None
  end.
End SettingsObject.

(** [VolumeLimiter.save_settings] (lines 390-400): the [Settings] object
    after the nine assignments, and the file [save] leaves. *)
Definition save_settings (l : VolumeLimiter.t) (s : SettingsObject.t)
  : SettingsObject.t * SettingsFile :=
  let s :=
    {| SettingsObject.volume_cap := Json.Number (VolumeLimiter.volume_cap l);
       SettingsObject.show_close_notifications :=
         SettingsObject.show_close_notifications s;
       SettingsObject.run_at_startup := SettingsObject.run_at_startup s;
       SettingsObject.attack_time := Json.Number (VolumeLimiter.attack_time l);
       SettingsObject.release_time :=
         Json.Number (VolumeLimiter.release_time l);
       SettingsObject.hold_time := Json.Number (VolumeLimiter.hold_time l);
       SettingsObject.user_cooldown :=
         Json.Number (VolumeLimiter.user_cooldown l);
       SettingsObject.leeway_db := Json.Number (VolumeLimiter.leeway_db l);
       SettingsObject.dampening := Json.Number (VolumeLimiter.dampening l);
       SettingsObject.dampening_speed :=
         Json.Number (VolumeLimiter.dampening_speed l);
       SettingsObject.voice_mode := Json.Boolean (VolumeLimiter.voice_mode l) |}
  in
  (s, SettingsObject.save s).

(** * The level graph *)

(** [self.peak_history = [0.0] * 100] ([TameGUI.__init__], line 418) *)
Definition peak_history_init : list R := repeat 0 100.

(** What [TameGUI._schedule_ui_update] (lines 700-719) does to
    [peak_history] when the limiter publishes [peak]: [pop(0)] and
    [append(peak)].  On an empty list [pop] raises, and the [except: pass]
    around the body leaves the list as it is. *)
Definition _schedule_ui_update (peak : R) (peak_history : list R) : list R :=
  match peak_history with
  | [] => []
  | _ :: rest => rest ++ [peak]
  end.

(** One update per published peak, in order. *)
Definition ui_updates (peaks peak_history : list R) : list R :=
  fold_left (fun history peak => _schedule_ui_update peak history)
            peaks peak_history.

(** The loop [for i, peak in enumerate(self.peak_history)] of
    [_draw_graph] (lines 745-748) from index [i] on: [points] gets [x]
    and [y] of every sample; the graph is 50 high. *)
Fixpoint waveform (i : nat) (step : R) (peak_history : list R) : list R :=
  match peak_history with
  | [] => []
  | peak :: rest =>
      let x := INR i * step in
      let y := 50 - peak * 50 in
      x :: y :: waveform (S i) step rest
  end.

(** The waveform of [TameGUI._draw_graph] (lines 726-756, after the
    threshold line): the [points] handed to [create_polygon] and
    [create_line], or [None] when nothing is drawn.  The graph is 340
    wide. *)
Definition _draw_graph_waveform (peak_history : list R)
  : Py (option (list R)) :=
  let num_points := length peak_history in
  if (num_points <? 2)%nat then ret None
  else
    step <- float_div 340 (INR (num_points - 1)) ;;
    let points := waveform 0 step peak_history in
    if (4 <=? length points)%nat then ret (Some points) else ret None.

(** The [x]s and the [y]s of a list of points [x0; y0; x1; y1; ...]. *)
Fixpoint xs_of (points : list R) : list R :=
  match points with
  | x :: _ :: rest => x :: xs_of rest
  | _ => []
  end.

Fixpoint ys_of (points : list R) : list R :=
  match points with
  | _ :: y :: rest => y :: ys_of rest
  | _ => []
  end.

(** * More example states *)

(** [holding_heap] after [Reset to defaults] in the window: the dampening
    is 2, reached 0.1 s after the attack. *)
Definition dampened_heap : Heap := final (_reset_defaults holding_heap).

(** The heap when [_run] is about to enter its loop at time [start], after
    the program has started with the default settings on an endpoint at
    [volume]. *)
Definition started_heap (volume start : R) : Heap :=
  mkHeap (limiter (default_heap volume)) (audio (default_heap volume)) start.

(** * Reasoning tools *)

Lemma float_gt_spec (a b : R) : reflect (a > b) (float_gt a b).
Proof. unfold float_gt. destruct (Rgt_dec a b); constructor; assumption. Qed.

Lemma float_ge_spec (a b : R) : reflect (a >= b) (float_ge a b).
Proof. unfold float_ge. destruct (Rge_dec a b); constructor; assumption. Qed.

Lemma float_lt_spec (a b : R) : reflect (a < b) (float_lt a b).
Proof. unfold float_lt. destruct (Rlt_dec a b); constructor; assumption. Qed.

Lemma float_truthy_spec (a : R) : reflect (a <> 0) (float_truthy a).
Proof.
  unfold float_truthy. destruct (Req_dec_T a 0); constructor; auto.
Qed.

Lemma clamp01_range (level : R) : 0 <= clamp01 level <= 1.
Proof.
  unfold clamp01, Rmax, Rmin.
  destruct (Rle_dec 1 level); destruct (Rle_dec 0 _); lra.
Qed.

Lemma clamp01_id (level : R) : 0 <= level <= 1 -> clamp01 level = level.
Proof.
  intros H. unfold clamp01, Rmax, Rmin.
  destruct (Rle_dec 1 level); destruct (Rle_dec 0 _); lra.
Qed.

(** ** The largest float *)

Lemma float_max_large : 2 ^ 1000 <= float_max.
Proof.
  unfold float_max.
  assert (Hone : 1 <= 2 ^ 52) by (apply pow_R1_Rle; lra).
  assert (Hinv : / 2 ^ 52 <= 1).
  { rewrite <- Rinv_1. apply Rinv_le_contravar; lra. }
  assert (Hbig : 2 ^ 1000 <= 2 ^ 1023) by (apply Rle_pow; [lra|lia]).
  assert (Hpos : 0 < 2 ^ 1023) by (apply pow_lt; lra).
  nra.
Qed.

(** Up to 6000 dB of leeway the power of line 315 is a float.  (The
    slider of the window stops at 12 dB; the power overflows from about
    6165 dB on.) *)
Lemma leeway_factor_bound (leeway_db : R) :
  leeway_db <= 6000 -> Rpower 10 (leeway_db / 20) <= float_max.
Proof.
  intros Hdb.
  apply Rle_trans with (Rpower 10 (INR 300)).
  - apply Rle_Rpower; [lra|].
    replace (INR 300) with 300.
    + lra.
    + change 300%nat with (Z.to_nat 300). rewrite INR_IZR_INZ. reflexivity.
  - rewrite Rpower_pow by lra.
    apply Rle_trans with (2 := float_max_large).
    assert (E10 : 10 ^ 300 = (10 ^ 3) ^ 100)
      by (rewrite <- pow_mult; reflexivity).
    assert (E2 : 2 ^ 1000 = (2 ^ 10) ^ 100)
      by (rewrite <- pow_mult; reflexivity).
    rewrite E10, E2. apply pow_incr. simpl. lra.
Qed.

Lemma float_max_ge_10 : 10 <= float_max.
Proof.
  apply Rle_trans with (2 := float_max_large).
  apply Rle_trans with (2 ^ 4); [simpl; lra|].
  apply Rle_pow; [lra|lia].
Qed.

Lemma leeway_3db_finite : Rpower 10 (3.0 / 20) <= float_max.
Proof. apply leeway_factor_bound. lra. Qed.

(** Unfolds the monad and the methods, and computes record accesses. *)
Ltac py_simpl :=
  cbv beta iota zeta delta
    [bind after ret raise try_except emit sleep
     get_limiter get_audio get_last_time
     modify_limiter modify_audio put_last_time float_div float_pow
     meter_GetPeakValue volume_ctrl_GetMasterVolumeLevelScalar
     volume_ctrl_SetMasterVolumeLevelScalar
     get_raw_peak get_volume set_volume check_user_changed
     _update_release_rate limiting_target over_threshold under_threshold
     follow_user limit publish_telemetry
     loop_body in_user_cooldown _toggle _on_release_change
     iterate _run toggle_twice startup VolumeLimiter__init__ limiter_attributes
     default_heap steady AudioController.__init__ Settings.set_defaults
     e2e_settings e2e_heap e2e_tick
     Settings.volume_cap Settings.attack_time Settings.release_time
     Settings.hold_time Settings.user_cooldown Settings.leeway_db
     Settings.dampening Settings.dampening_speed Settings.voice_mode
     outcome final events limiter audio last_time
     now user_clock check_volume peak volume release_volume write_ok
     telemetry_peak telemetry_volume
     AudioController._cached_volume AudioController._last_set_volume
     AudioController.user_set_time AudioController.user_set_volume
     AudioController.set__cached_volume AudioController.set__last_set_volume
     AudioController.set_user_set_time AudioController.set_user_set_volume
     VolumeLimiter.is_running VolumeLimiter.volume_cap
     VolumeLimiter.original_volume VolumeLimiter.current_peak
     VolumeLimiter.current_volume VolumeLimiter.is_limiting
     VolumeLimiter.last_over_threshold_time VolumeLimiter.time_over_threshold
     VolumeLimiter.peak_start_time VolumeLimiter.attack_time
     VolumeLimiter.release_time VolumeLimiter.hold_time
     VolumeLimiter.user_cooldown VolumeLimiter.leeway_db
     VolumeLimiter.dampening VolumeLimiter.dampening_speed
     VolumeLimiter.voice_mode VolumeLimiter.release_rate
     VolumeLimiter.ui_peak VolumeLimiter.ui_volume
     VolumeLimiter.set_is_running VolumeLimiter.set_original_volume
     VolumeLimiter.set_current_peak VolumeLimiter.set_current_volume
     VolumeLimiter.set_is_limiting VolumeLimiter.set_last_over_threshold_time
     VolumeLimiter.set_time_over_threshold VolumeLimiter.set_release_time
     VolumeLimiter.set_release_rate VolumeLimiter.set_ui_peak
     VolumeLimiter.set_ui_volume
     app andb negb].

(** [lra] after splitting on the sign and order tests inside [Rabs],
    [Rmin] and [Rmax]. *)
Ltac real_cases :=
  unfold Rabs, Rmin, Rmax in *;
  repeat match goal with
    | H : context [Rcase_abs ?x] |- _ => destruct (Rcase_abs x)
    | H : context [Rle_dec ?x ?y] |- _ => destruct (Rle_dec x y)
    | |- context [Rcase_abs ?x] => destruct (Rcase_abs x)
    | |- context [Rle_dec ?x ?y] => destruct (Rle_dec x y)
    end.

Ltac real_lra := solve [lra | real_cases; lra].

(** Decides the first test the computation is waiting for: by arithmetic
    when the context settles it, by cases otherwise. *)
Ltac py_test :=
  match goal with
  | |- context [float_gt ?a ?b] =>
      destruct (float_gt_spec a b); try (exfalso; real_lra)
  | |- context [float_ge ?a ?b] =>
      destruct (float_ge_spec a b); try (exfalso; real_lra)
  | |- context [float_lt ?a ?b] =>
      destruct (float_lt_spec a b); try (exfalso; real_lra)
  | |- context [float_truthy ?a] =>
      destruct (float_truthy_spec a); try (exfalso; real_lra)
  | |- context [Req_dec_T ?a ?b] =>
      destruct (Req_dec_T a b); try (exfalso; real_lra)
  end.

Ltac py_run := py_simpl; repeat (py_test; py_simpl).

(** * [AudioController.set_volume] *)

Lemma set_volume_run (ok : bool) (level : R) (h : Heap) :
  set_volume ok level h =
  mkRun (Returns tt)
    (mkHeap (limiter h)
       (AudioController.mk
          (if ok then clamp01 level
           else AudioController._cached_volume (audio h))
          (if ok then clamp01 level
           else AudioController._last_set_volume (audio h))
          (AudioController.user_set_time (audio h))
          (AudioController.user_set_volume (audio h)))
       (last_time h))
    [SetMasterVolumeLevelScalar (clamp01 level) ok].
Proof. destruct ok, h as [l [c s ut uv] t]; reflexivity. Qed.

(** C10. For every requested level, [set_volume] asks the endpoint for the
    level clamped to [0, 1] and for nothing else.  When the endpoint accepts
    the write, the clamped level is what [_last_set_volume] and
    [_cached_volume] record, so both are in [0, 1]; when it refuses, the
    controller is left as it was. *)
Theorem set_volume_clamps (ok : bool) (level : R) (h : Heap) :
  let r := set_volume ok level h in
  outcome r = Returns tt /\
  events r = [SetMasterVolumeLevelScalar (clamp01 level) ok] /\
  0 <= clamp01 level <= 1 /\
  (if ok then
     AudioController._last_set_volume (audio (final r)) = clamp01 level /\
     AudioController._cached_volume (audio (final r)) = clamp01 level /\
     volumes_in_range (audio (final r))
   else final r = h).
Proof.
  cbv zeta. rewrite set_volume_run. pose proof (clamp01_range level) as Hr.
  destruct ok, h as [l [c s ut uv] t];
    cbn [outcome events final audio]; unfold volumes_in_range;
    cbn [AudioController._last_set_volume AudioController._cached_volume];
    auto 10.
Qed.

(** * [AudioController.get_volume], [get_raw_peak], [check_user_changed] *)

Lemma float_div_run (a b : R) (h : Heap) :
  b <> 0 -> float_div a b h = mkRun (Returns (a / b)) h [Divide a b].
Proof.
  intros Hb. unfold float_div. destruct (Req_dec_T b 0); [contradiction|].
  reflexivity.
Qed.

Lemma get_volume_run (answer : option R) (h : Heap) :
  get_volume answer h =
  mkRun
    (Returns (volume_read answer (AudioController._cached_volume (audio h))))
    (mkHeap (limiter h)
       (AudioController.set__cached_volume
          (volume_read answer (AudioController._cached_volume (audio h)))
          (audio h))
       (last_time h))
    [GetMasterVolumeLevelScalar answer].
Proof. destruct answer, h as [l [c s ut uv] t]; reflexivity. Qed.

Lemma get_raw_peak_run (answer : option R) (h : Heap) :
  get_raw_peak answer h =
  mkRun
    (Returns (raw_peak_read answer (AudioController._cached_volume (audio h))))
    h
    (raw_peak_events answer (AudioController._cached_volume (audio h))).
Proof.
  destruct h as [l a t], answer as [p|];
    unfold raw_peak_read, raw_peak_events; py_run; reflexivity.
Qed.

Lemma check_user_changed_run (clock : R) (answer : option R) (h : Heap) :
  check_user_changed clock answer h =
  mkRun
    (Returns
       (float_gt
          (Rabs (volume_read answer (AudioController._cached_volume (audio h))
                 - AudioController._last_set_volume (audio h))) 0.01))
    (mkHeap (limiter h)
       (if float_gt
             (Rabs
                (volume_read answer (AudioController._cached_volume (audio h))
                 - AudioController._last_set_volume (audio h))) 0.01
        then
          AudioController.mk
            (volume_read answer (AudioController._cached_volume (audio h)))
            (volume_read answer (AudioController._cached_volume (audio h)))
            (Some clock)
            (volume_read answer (AudioController._cached_volume (audio h)))
        else
          AudioController.set__cached_volume
            (volume_read answer (AudioController._cached_volume (audio h)))
            (audio h))
       (last_time h))
    [GetMasterVolumeLevelScalar answer].
Proof.
  destruct h as [l [c s ut uv] t], answer as [v|];
    unfold volume_read; py_simpl; destruct (float_gt _ _); reflexivity.
Qed.

(** C9. A write of the controller is not taken for a change by the user:
    after a [set_volume] that the endpoint accepted, [_last_set_volume] is
    the level written, and [check_user_changed] returns [False] whenever the
    endpoint then reports a volume within 0.01 of that level, or cannot be
    read.  And a change is reported once: when [check_user_changed] has
    returned [True], [_last_set_volume] is the volume it saw, and the next
    call returns [False] whenever the endpoint reports a volume within 0.01
    of the one seen, or cannot be read. *)
Theorem own_write_is_no_user_change :
  (forall (h : Heap) (level clock : R) (answer : option R),
     let h' := final (set_volume true level h) in
     match answer with
     | Some v => Rabs (v - clamp01 level) <= 0.01
     | None => True
     end ->
     AudioController._last_set_volume (audio h') = clamp01 level /\
     outcome (check_user_changed clock answer h') = Returns false) /\
  (forall (h : Heap) (clock clock' : R) (answer answer' : option R),
     let r := check_user_changed clock answer h in
     let seen :=
       volume_read answer (AudioController._cached_volume (audio h)) in
     outcome r = Returns true ->
     match answer' with
     | Some v' => Rabs (v' - seen) <= 0.01
     | None => True
     end ->
     AudioController._last_set_volume (audio (final r)) = seen /\
     outcome (check_user_changed clock' answer' (final r)) = Returns false).
Proof.
  split.
  - intros h level clock answer h' Hnear. subst h'.
    rewrite set_volume_run. cbn [final audio].
    split; [reflexivity|].
    rewrite check_user_changed_run.
    cbn [outcome audio AudioController._last_set_volume
         AudioController._cached_volume].
    f_equal.
    match goal with
    | |- float_gt ?x ?y = false =>
        destruct (float_gt_spec x y) as [Hgt|]; [exfalso|reflexivity]
    end.
    destruct answer as [v|]; cbn [volume_read] in Hgt; real_lra.
  - intros h clock clock' answer answer' r seen Hchanged Hnear. subst r seen.
    rewrite check_user_changed_run in Hchanged |- *.
    cbn [outcome final audio] in Hchanged |- *.
    injection Hchanged as Hchanged. rewrite Hchanged.
    split; [reflexivity|].
    rewrite check_user_changed_run.
    cbn [outcome audio AudioController._last_set_volume
         AudioController._cached_volume].
    f_equal.
    match goal with
    | |- float_gt ?x ?y = false =>
        destruct (float_gt_spec x y) as [Hgt|]; [exfalso|reflexivity]
    end.
    destruct answer' as [v'|]; cbn [volume_read] in Hgt; real_lra.
Qed.

(** * Disabling and enabling *)

Lemma loop_body_disabled (it : Iteration) (h : Heap) :
  VolumeLimiter.is_running (limiter h) = false ->
  loop_body it h =
  mkRun (Returns tt)
    (mkHeap (VolumeLimiter.set_time_over_threshold 0 (limiter h))
       (audio h) (last_time h))
    [Sleep 0.05].
Proof.
  intros Hoff. destruct h as [l a t]. cbn [limiter] in Hoff.
  unfold loop_body, bind, get_limiter. cbn [limiter]. rewrite Hoff.
  reflexivity.
Qed.

Lemma iterate_disabled (its : list Iteration) (h : Heap) :
  VolumeLimiter.is_running (limiter h) = false ->
  iterate its h =
  mkRun (Returns tt)
    (match its with
     | [] => h
     | _ :: _ =>
         mkHeap (VolumeLimiter.set_time_over_threshold 0 (limiter h))
           (audio h) (last_time h)
     end)
    (map (fun _ => Sleep 0.05) its).
Proof.
  revert h. induction its as [|it rest IH]; intros h Hoff.
  - reflexivity.
  - cbn [iterate]. unfold bind at 1. rewrite (loop_body_disabled it h Hoff).
    rewrite IH by exact Hoff. destruct rest; reflexivity.
Qed.

Lemma toggle_twice_run (its : list Iteration) (h : Heap) :
  VolumeLimiter.is_running (limiter h) = true ->
  toggle_twice its h =
  mkRun (Returns tt)
    (match its with
     | [] => h
     | _ :: _ =>
         mkHeap (VolumeLimiter.set_time_over_threshold 0 (limiter h))
           (audio h) (last_time h)
     end)
    (map (fun _ => Sleep 0.05) its).
Proof.
  intros Hon. destruct h as [l a t]. cbn [limiter] in Hon.
  unfold toggle_twice, _toggle.
  unfold bind at 1. unfold modify_limiter at 1. cbn [limiter audio last_time].
  unfold bind. rewrite iterate_disabled; cbn [limiter audio last_time].
  - unfold modify_limiter, after. rewrite app_nil_r. cbn [app].
    destruct l; cbn in Hon |- *; subst; destruct its; reflexivity.
  - destruct l; cbn in Hon |- *; subst; reflexivity.
Qed.

(** C8, as amended.  Disabling the controller and enabling it again, with
    any number of loop iterations in between, leaves [originalVolume],
    [isLimiting] and [lastWrittenVolume] (and the whole [AudioController])
    exactly as they were and makes no call on the endpoint at all;
    [timeOverThreshold] is kept when no iteration ran in between and is 0
    otherwise. *)
Theorem toggle_twice_keeps_state (its : list Iteration) (h : Heap) :
  VolumeLimiter.is_running (limiter h) = true ->
  let r := toggle_twice its h in
  outcome r = Returns tt /\
  events r = map (fun _ => Sleep 0.05) its /\
  audio (final r) = audio h /\
  VolumeLimiter.is_running (limiter (final r)) = true /\
  controller_state (final r) =
  {| originalVolume := originalVolume (controller_state h);
     isLimiting := isLimiting (controller_state h);
     timeOverThreshold :=
       match its with
       | [] => timeOverThreshold (controller_state h)
       | _ :: _ => 0
       end;
     lastWrittenVolume := lastWrittenVolume (controller_state h) |}.
Proof.
  intros Hon r. subst r. rewrite (toggle_twice_run its h Hon).
  cbn [outcome events final].
  destruct its; cbn [audio limiter]; repeat split; auto.
Qed.

(** C8 as stated fails: start with the default settings at full volume
    and let one iteration hear a peak of 0.5, so that 20 ms are accumulated
    over the threshold.  Then, in silence, disable, let the loop go round
    once, and enable.  The accumulated time is gone. *)
Lemma toggle_twice_forgets_attack :
  let h := final (_run 100 [steady 100.02 1 0.5] (default_heap 1)) in
  VolumeLimiter.is_running (limiter h) = true /\
  controller_state (final (toggle_twice [steady 100.07 1 0] h))
  <> controller_state h.
Proof.
  intros h.
  assert (Hh : VolumeLimiter.is_running (limiter h) = true /\
               VolumeLimiter.time_over_threshold (limiter h)
               = 0 + (100.02 - 100)).
  { subst h. pose proof leeway_3db_finite. py_run. split; reflexivity. }
  destruct Hh as [Hon Htime]. split; [exact Hon|].
  rewrite (toggle_twice_run _ h Hon). cbn [final].
  unfold controller_state. cbn [limiter audio]. rewrite Htime.
  cbn [VolumeLimiter.set_time_over_threshold VolumeLimiter.time_over_threshold].
  intros Heq. injection Heq as Heq. lra.
Qed.

(** * Running the loop body *)

(** Unfolds the monad and the blocks of the loop, not the methods of
    [AudioController]: those are replaced by what they compute. *)
Ltac py_blocks :=
  cbv beta iota zeta delta
    [bind after ret raise try_except emit sleep
     get_limiter get_audio get_last_time
     modify_limiter modify_audio put_last_time float_pow
     _update_release_rate limiting_target over_threshold under_threshold
     follow_user limit publish_telemetry
     loop_body in_user_cooldown _toggle _on_release_change
     outcome final events limiter audio last_time
     now user_clock check_volume peak volume release_volume write_ok
     telemetry_peak telemetry_volume
     AudioController._cached_volume AudioController._last_set_volume
     AudioController.user_set_time AudioController.user_set_volume
     AudioController.set__cached_volume AudioController.set__last_set_volume
     AudioController.set_user_set_time AudioController.set_user_set_volume
     VolumeLimiter.is_running VolumeLimiter.volume_cap
     VolumeLimiter.original_volume VolumeLimiter.current_peak
     VolumeLimiter.current_volume VolumeLimiter.is_limiting
     VolumeLimiter.last_over_threshold_time VolumeLimiter.time_over_threshold
     VolumeLimiter.peak_start_time VolumeLimiter.attack_time
     VolumeLimiter.release_time VolumeLimiter.hold_time
     VolumeLimiter.user_cooldown VolumeLimiter.leeway_db
     VolumeLimiter.dampening VolumeLimiter.dampening_speed
     VolumeLimiter.voice_mode VolumeLimiter.release_rate
     VolumeLimiter.ui_peak VolumeLimiter.ui_volume
     VolumeLimiter.set_is_running VolumeLimiter.set_original_volume
     VolumeLimiter.set_current_peak VolumeLimiter.set_current_volume
     VolumeLimiter.set_is_limiting VolumeLimiter.set_last_over_threshold_time
     VolumeLimiter.set_time_over_threshold VolumeLimiter.set_release_time
     VolumeLimiter.set_release_rate VolumeLimiter.set_ui_peak
     VolumeLimiter.set_ui_volume
     limiter_attributes AudioController.__init__ Settings.set_defaults
     e2e_settings steady e2e_tick
     Settings.volume_cap Settings.attack_time Settings.release_time
     Settings.hold_time Settings.user_cooldown Settings.leeway_db
     Settings.dampening Settings.dampening_speed Settings.voice_mode
     andb negb].

Lemma Rmax_1_nonzero (x : R) : Rmax 1 x <> 0.
Proof. pose proof (Rmax_l 1 x). lra. Qed.

Lemma Rmax_1_pos (x : R) : 0 < Rmax 1 x.
Proof. pose proof (Rmax_l 1 x). lra. Qed.

Ltac py_nonzero := solve [lra | apply Rmax_1_nonzero | real_lra].

Ltac py_leaf :=
  idtac;
  lazymatch goal with
  | |- context [get_volume ?a ?h] => rewrite (get_volume_run a h)
  | |- context [get_raw_peak ?a ?h] => rewrite (get_raw_peak_run a h)
  | |- context [check_user_changed ?c ?a ?h] =>
      rewrite (check_user_changed_run c a h)
  | |- context [set_volume ?ok ?v ?h] => rewrite (set_volume_run ok v h)
  | |- context [float_div ?a ?b ?h] =>
      rewrite (float_div_run a b h) by py_nonzero
  end.

Ltac py_exec_by leaf :=
  py_blocks; repeat ((leaf || py_test); py_blocks);
  cbn [app]; rewrite ?app_nil_r.

Ltac py_exec := py_exec_by py_leaf.

(** Runs [m] once, whatever the number of places of the goal it occurs
    in. *)
Ltac py_focus_by leaf m :=
  pattern m;
  match goal with
  | |- ?P _ =>
      let Q := fresh "Q" in
      set (Q := P); py_exec_by leaf; subst Q; cbv beta;
      cbn [outcome final events limiter audio last_time]
  end.

Ltac py_focus m := py_focus_by py_leaf m.

Lemma in_user_cooldown_false (a : AudioController.t) (now cooldown : R) :
  in_user_cooldown a now cooldown = false <->
  match AudioController.user_set_time a with
  | None => True
  | Some t => t = 0 \/ ~ now - t < cooldown
  end.
Proof.
  unfold in_user_cooldown. destruct (AudioController.user_set_time a) as [t|].
  - destruct (float_truthy_spec t), (float_lt_spec (now - t) cooldown);
      cbn; split; intros H; try reflexivity; try discriminate; try tauto;
      left; destruct (Req_dec_T t 0); tauto.
  - tauto.
Qed.

Lemma writes_app (evs evs' : list Event) :
  writes (evs ++ evs') = writes evs ++ writes evs'.
Proof.
  induction evs as [|e evs IH]; [reflexivity|].
  destruct e; cbn [app writes]; rewrite IH; reflexivity.
Qed.

Lemma writes_raw_peak_events (answer : option R) (vol : R) :
  writes (raw_peak_events answer vol) = [].
Proof.
  unfold raw_peak_events.
  destruct answer; [destruct (float_gt vol 0.01)|]; reflexivity.
Qed.

Lemma guarded_raw_peak_events (answer : option R) (vol : R) :
  Forall guarded (raw_peak_events answer vol).
Proof.
  unfold raw_peak_events. constructor; [exact I|].
  destruct answer; [destruct (float_gt_spec vol 0.01)|]; repeat constructor.
  cbn. lra.
Qed.

Lemma release_rate_of_pos (release_time : R) : 0 < release_rate_of release_time.
Proof.
  unfold release_rate_of. destruct (float_gt_spec release_time 0); [|lra].
  apply Rdiv_lt_0_compat; lra.
Qed.

Ltac py_writes :=
  repeat first
    [ rewrite writes_app
    | rewrite writes_raw_peak_events
    | progress (cbn [writes app]) ].

(** * Hold and release *)

Lemma _update_release_rate_run (h : Heap) :
  _update_release_rate h =
  mkRun (Returns tt)
    (mkHeap
       (VolumeLimiter.set_release_rate
          (release_rate_of (VolumeLimiter.release_time (limiter h)))
          (limiter h))
       (audio h) (last_time h))
    (if float_gt (VolumeLimiter.release_time (limiter h)) 0
     then [Divide 1 (VolumeLimiter.release_time (limiter h))]
     else []).
Proof.
  destruct h as [[] a t]. unfold release_rate_of. py_exec; reflexivity.
Qed.

(** C4. Let [_update_release_rate] have run, as it does when the limiter
    is built and after every assignment to [release_time]: it does not
    raise and leaves [release_rate] at [1 / release_time] when
    [release_time > 0] and at 10 otherwise.  Take then an iteration of the
    enabled loop in which no change by the user is seen, the cooldown is
    over, the controller is limiting and the signal is under the threshold;
    let the power of line 315 be a float, the baseline be in [0, 1], the
    volume read for the release be non-negative and the clock not run
    backwards.  Then:
    - while [now - last_over_threshold_time <= hold_time] nothing is
      written and the controller keeps limiting;
    - after that, when the volume is more than 0.005 below the baseline,
      the one write is [min (current + release_rate * dt, original_volume)]
      for that release rate;
    - and when it is not, the one write is [original_volume] itself and
      [is_limiting] becomes false. *)
Theorem hold_then_release (h0 : Heap) (it : Iteration) :
  let h := final (_update_release_rate h0) in
  let l := limiter h in
  let a := audio h in
  let dt := now it - last_time h in
  let seen :=
    volume_read (check_volume it) (AudioController._cached_volume a) in
  let raw_peak := raw_peak_read (peak it) seen in
  let current :=
    volume_read (release_volume it) (volume_read (volume it) seen) in
  let since_loud := now it - VolumeLimiter.last_over_threshold_time l in
  let releaseRate :=
    if float_gt (VolumeLimiter.release_time l) 0
    then 1 / VolumeLimiter.release_time l
    else 10 in
  VolumeLimiter.is_running l = true ->
  VolumeLimiter.is_limiting l = true ->
  ~ Rabs (seen - AudioController._last_set_volume a) > 0.01 ->
  in_user_cooldown a (now it) (VolumeLimiter.user_cooldown l) = false ->
  ~ (raw_peak * VolumeLimiter.original_volume l > VolumeLimiter.volume_cap l
     /\ raw_peak > 0.001) ->
  leeway_factor_finite l ->
  0 <= VolumeLimiter.original_volume l <= 1 ->
  0 <= current ->
  0 <= dt ->
  let r := loop_body it h in
  outcome (_update_release_rate h0) = Returns tt /\
  VolumeLimiter.release_rate l = releaseRate /\
  outcome r = Returns tt /\
  (since_loud <= VolumeLimiter.hold_time l ->
   writes (events r) = [] /\
   VolumeLimiter.is_limiting (limiter (final r)) = true) /\
  (since_loud > VolumeLimiter.hold_time l ->
   current < VolumeLimiter.original_volume l - 0.005 ->
   writes (events r)
   = [Rmin (current + releaseRate * dt) (VolumeLimiter.original_volume l)] /\
   VolumeLimiter.is_limiting (limiter (final r)) = true) /\
  (since_loud > VolumeLimiter.hold_time l ->
   current >= VolumeLimiter.original_volume l - 0.005 ->
   writes (events r) = [VolumeLimiter.original_volume l] /\
   VolumeLimiter.is_limiting (limiter (final r)) = false).
Proof.
  rewrite (_update_release_rate_run h0). cbn [final outcome].
  destruct h0 as [[] [c s ut uv] t], it as [tnow uclock cv pk vol rv wok tp tv].
  unfold leeway_factor_finite.
  cbn [limiter audio last_time now check_volume peak volume release_volume
       VolumeLimiter.is_running VolumeLimiter.is_limiting
       VolumeLimiter.user_cooldown VolumeLimiter.original_volume
       VolumeLimiter.volume_cap VolumeLimiter.release_rate
       VolumeLimiter.release_time VolumeLimiter.last_over_threshold_time
       VolumeLimiter.hold_time VolumeLimiter.leeway_db
       VolumeLimiter.set_release_rate
       AudioController._cached_volume AudioController._last_set_volume
       AudioController.user_set_time].
  fold (release_rate_of release_time).
  intros Hrun Hlim Hsame Hcool Hunder Hfinite Horig Hcur Hdt.
  apply in_user_cooldown_false in Hcool.
  cbn [AudioController.user_set_time] in Hcool.
  subst.
  pose proof (Rmult_le_pos _ _
                (Rlt_le _ _ (release_rate_of_pos release_time)) Hdt) as Hstep.
  split; [reflexivity|]. split; [reflexivity|].
  destruct ut as [t0|]; cbv zeta;
    match goal with |- context [loop_body ?it ?h] => py_focus (loop_body it h) end;
    cbn [outcome final events limiter VolumeLimiter.is_limiting];
    (split; [reflexivity|]); repeat split; intros;
    try (exfalso; real_lra); py_writes; try reflexivity;
    f_equal; apply clamp01_id; real_lra.
Qed.

(** * A change by the user *)

(** C3. When [check_user_changed] sees a volume more than 0.01 away from
    the last one written, the block that follows it makes that volume the
    baseline, clears [is_limiting] and [time_over_threshold] and the
    controller records the time and the volume.  With a positive cooldown
    (and a clock that is positive and does not run backwards) the iteration
    stops there: it ends in that state having neither read the peak meter
    nor written a volume.  And every later iteration whose [now] is less
    than [user_cooldown] after the recorded time reads no peak and writes
    no volume either, whatever the endpoint would have answered. *)
Theorem user_change_wins :
  (forall (h : Heap) (it : Iteration),
     let seen :=
       volume_read (check_volume it)
         (AudioController._cached_volume (audio h)) in
     Rabs (seen - AudioController._last_set_volume (audio h)) > 0.01 ->
     let r := follow_user it h in
     outcome r = Returns tt /\
     VolumeLimiter.original_volume (limiter (final r)) = seen /\
     VolumeLimiter.is_limiting (limiter (final r)) = false /\
     VolumeLimiter.time_over_threshold (limiter (final r)) = 0 /\
     AudioController.user_set_time (audio (final r)) = Some (user_clock it) /\
     AudioController._last_set_volume (audio (final r)) = seen) /\
  (forall (h : Heap) (it : Iteration),
     let seen :=
       volume_read (check_volume it)
         (AudioController._cached_volume (audio h)) in
     VolumeLimiter.is_running (limiter h) = true ->
     Rabs (seen - AudioController._last_set_volume (audio h)) > 0.01 ->
     0 < user_clock it ->
     now it <= user_clock it ->
     0 < VolumeLimiter.user_cooldown (limiter h) ->
     let r := loop_body it h in
     outcome r = Returns tt /\
     VolumeLimiter.original_volume (limiter (final r)) = seen /\
     VolumeLimiter.is_limiting (limiter (final r)) = false /\
     VolumeLimiter.time_over_threshold (limiter (final r)) = 0 /\
     AudioController.user_set_time (audio (final r)) = Some (user_clock it) /\
     AudioController._last_set_volume (audio (final r)) = seen /\
     events r = [GetMasterVolumeLevelScalar (check_volume it); Sleep 0.02]) /\
  (forall (h : Heap) (it : Iteration) (t0 : R),
     AudioController.user_set_time (audio h) = Some t0 ->
     0 < t0 ->
     t0 <= user_clock it ->
     now it - t0 < VolumeLimiter.user_cooldown (limiter h) ->
     let r := loop_body it h in
     outcome r = Returns tt /\
     no_peak_read (events r) = true /\
     writes (events r) = []).
Proof.
  split; [|split].
  - intros [[] [c s ut uv] t] [tnow uclock cv pk vol rv wok tp tv] seen Hseen.
    subst seen. cbn [audio check_volume AudioController._cached_volume
                     AudioController._last_set_volume] in Hseen.
    cbv zeta. py_exec. repeat split; reflexivity.
  - intros [[] [c s ut uv] t] [tnow uclock cv pk vol rv wok tp tv] seen
           Hrun Hseen Hclock Hnow Hcool.
    subst seen.
    cbn [limiter audio check_volume user_clock now
         VolumeLimiter.is_running VolumeLimiter.user_cooldown
         AudioController._cached_volume AudioController._last_set_volume]
      in Hrun, Hseen, Hclock, Hnow, Hcool.
    subst. cbv zeta.
    match goal with |- context [loop_body ?it ?h] => py_focus (loop_body it h) end.
    repeat split; reflexivity.
  - intros [[] [c s ut uv] t] [tnow uclock cv pk vol rv wok tp tv] t0
           Hset Ht0 Hclock Hnow.
    cbn [limiter audio user_clock now VolumeLimiter.user_cooldown
         AudioController.user_set_time] in Hset, Hclock, Hnow.
    subst. destruct is_running; cbv zeta;
      match goal with |- context [loop_body ?it ?h] => py_focus (loop_body it h) end;
      repeat split; reflexivity.
Qed.

(** * Composition *)

Lemma bind_run {A B : Type} (m : Py A) (f : A -> Py B) (h : Heap) (a : A) :
  outcome (m h) = Returns a ->
  bind m f h = after (events (m h)) (f a (final (m h))).
Proof.
  unfold bind. destruct (m h) as [o h' evs]. cbn [outcome events final].
  intros ->. reflexivity.
Qed.

Lemma outcome_after {A : Type} (evs : list Event) (r : Run A) :
  outcome (after evs r) = outcome r.
Proof. destruct r; reflexivity. Qed.

Lemma final_after {A : Type} (evs : list Event) (r : Run A) :
  final (after evs r) = final r.
Proof. destruct r; reflexivity. Qed.

Lemma events_after {A : Type} (evs : list Event) (r : Run A) :
  events (after evs r) = evs ++ events r.
Proof. destruct r; reflexivity. Qed.

(** * Divisions *)

Ltac py_guarded :=
  repeat first
    [ apply Forall_nil
    | apply guarded_raw_peak_events
    | apply Forall_app; split
    | apply Forall_cons ];
  cbn [guarded]; try exact I; solve [lra | apply Rmax_1_pos | real_lra].

Lemma bind_raise {A B : Type} (m : Py A) (f : A -> Py B) (h : Heap) (e : Exn) :
  outcome (m h) = Raises e ->
  bind m f h = mkRun (Raises e) (final (m h)) (events (m h)).
Proof.
  unfold bind. destruct (m h) as [o h' evs]. cbn [outcome events final].
  intros ->. reflexivity.
Qed.

(** An iteration divides by positive numbers only, raises nothing but the
    [OverflowError] of line 315, and not even that when the power is a
    float; it leaves [leeway_db] as it is. *)
Lemma loop_body_guarded (it : Iteration) (h : Heap) :
  Forall guarded (events (loop_body it h)) /\
  (outcome (loop_body it h) = Returns tt \/
   outcome (loop_body it h) = Raises OverflowError) /\
  (leeway_factor_finite (limiter h) -> outcome (loop_body it h) = Returns tt) /\
  VolumeLimiter.leeway_db (limiter (final (loop_body it h)))
  = VolumeLimiter.leeway_db (limiter h).
Proof.
  destruct h as [[] [c s ut uv] t], it as [tnow uclock cv pk vol rv wok tp tv].
  unfold leeway_factor_finite. cbn [limiter VolumeLimiter.leeway_db].
  destruct is_running; [destruct is_limiting, ut as [t0|]|];
    match goal with |- context [loop_body ?it ?h] => py_focus (loop_body it h) end;
    cbn [outcome events VolumeLimiter.leeway_db];
    (split; [py_guarded|]);
    (split; [first [left; reflexivity | right; reflexivity]|]);
    (split; [|reflexivity]);
    intros Hfinite; first [reflexivity | exfalso; lra].
Qed.

Lemma loop_body_returns (it : Iteration) (h : Heap) :
  leeway_factor_finite (limiter h) ->
  outcome (loop_body it h) = Returns tt /\
  leeway_factor_finite (limiter (final (loop_body it h))).
Proof.
  intros Hfinite.
  destruct (loop_body_guarded it h) as (_ & _ & Hret & Hsame).
  split; [exact (Hret Hfinite)|].
  unfold leeway_factor_finite in *. rewrite Hsame. exact Hfinite.
Qed.



(** * A failed read of the peak meter *)

Lemma get_raw_peak_none_run (h : Heap) :
  get_raw_peak None h = mkRun (Returns 0) h [GetPeakValue None].
Proof. rewrite get_raw_peak_run. reflexivity. Qed.

Ltac py_leaf_silent :=
  idtac;
  lazymatch goal with
  | |- context [get_raw_peak None ?h] => rewrite (get_raw_peak_none_run h)
  | _ => py_leaf
  end.

(** C5. When the peak meter raises, [get_raw_peak] returns 0 and leaves
    the heap alone, and when the volume control raises, [get_volume] returns
    the cached volume and leaves the heap alone.  In an iteration whose peak
    read raises, limiting does not engage ([is_limiting] is true afterwards
    only if it was true before), and the failed read raises nothing: the
    iteration returns, or it stops at the [OverflowError] of the power of
    line 315, which does not depend on the read.  When that power is a
    float the iteration returns normally, and unless it stopped before
    reading the peak at all, it records a peak of 0 and resets
    [time_over_threshold] to 0. *)
Theorem failed_peak_read_is_silent (h : Heap) (it : Iteration) :
  peak it = None ->
  let r := loop_body it h in
  (outcome (get_raw_peak None h) = Returns 0 /\
   final (get_raw_peak None h) = h) /\
  (outcome (get_volume None h)
   = Returns (AudioController._cached_volume (audio h)) /\
   final (get_volume None h) = h) /\
  (VolumeLimiter.is_limiting (limiter (final r)) = true ->
   VolumeLimiter.is_limiting (limiter h) = true) /\
  (outcome r = Returns tt \/ outcome r = Raises OverflowError) /\
  (leeway_factor_finite (limiter h) ->
   outcome r = Returns tt /\
   (no_peak_read (events r) = true \/
    VolumeLimiter.current_peak (limiter (final r)) = 0 /\
    VolumeLimiter.time_over_threshold (limiter (final r)) = 0)).
Proof.
  destruct h as [[] [c s ut uv] t], it as [tnow uclock cv pk vol rv wok tp tv].
  unfold leeway_factor_finite. cbn [peak limiter VolumeLimiter.leeway_db].
  intros ->. cbv zeta.
  split; [rewrite get_raw_peak_none_run; split; reflexivity|].
  split; [rewrite get_volume_run; split; reflexivity|].
  destruct is_running; [destruct is_limiting, ut as [t0|]|];
    match goal with
    | |- context [loop_body ?it ?h] =>
        py_focus_by py_leaf_silent (loop_body it h)
    end;
    cbn [outcome final events limiter VolumeLimiter.is_limiting
         VolumeLimiter.current_peak VolumeLimiter.time_over_threshold];
    (split; [intros H; (reflexivity || exact H)|]);
    (split; [first [left; reflexivity | right; reflexivity]|]);
    intros Hfinite; try (exfalso; lra);
    (split; [reflexivity|]);
    first [left; reflexivity | right; split; reflexivity].
Qed.

(** * Telemetry *)

(** C7, as amended.  An iteration that stops at a gate (the controller is
    disabled or a cooldown is running) returns normally and leaves
    [ui_peak] and [ui_volume] as they were.  An iteration that passes both
    gates raises [OverflowError] at line 315 when the power there is not a
    float, before it gets to the telemetry; otherwise it returns normally
    and ends by publishing fresh telemetry: [ui_peak] is the raw peak
    obtained from a new read of the meter and [ui_volume] the volume
    obtained from a new read of the volume control, which is also the
    cached volume. *)
Theorem telemetry_after_the_gates (h : Heap) (it : Iteration) :
  let r := loop_body it h in
  if skips it h then
    outcome r = Returns tt /\
    VolumeLimiter.ui_peak (limiter (final r))
    = VolumeLimiter.ui_peak (limiter h) /\
    VolumeLimiter.ui_volume (limiter (final r))
    = VolumeLimiter.ui_volume (limiter h)
  else
    (~ leeway_factor_finite (limiter h) ->
     outcome r = Raises OverflowError /\
     VolumeLimiter.ui_peak (limiter (final r))
     = VolumeLimiter.ui_peak (limiter h) /\
     VolumeLimiter.ui_volume (limiter (final r))
     = VolumeLimiter.ui_volume (limiter h)) /\
    (leeway_factor_finite (limiter h) ->
     outcome r = Returns tt /\
     exists cached : R,
       VolumeLimiter.ui_peak (limiter (final r))
       = raw_peak_read (telemetry_peak it) cached /\
       VolumeLimiter.ui_volume (limiter (final r))
       = volume_read (telemetry_volume it) cached /\
       VolumeLimiter.ui_volume (limiter (final r))
       = AudioController._cached_volume (audio (final r))).
Proof.
  destruct h as [[] [c s ut uv] t], it as [tnow uclock cv pk vol rv wok tp tv].
  unfold leeway_factor_finite. cbn [limiter VolumeLimiter.leeway_db].
  destruct is_running; [destruct is_limiting, ut as [t0|]|];
    cbv zeta;
    match goal with |- context [loop_body ?it ?h] => py_focus (loop_body it h) end;
    unfold skips; py_exec; cbn [orb];
    cbn [VolumeLimiter.ui_peak VolumeLimiter.ui_volume
         AudioController._cached_volume];
    first
      [ split; [reflexivity|split; reflexivity]
      | split;
        [ intros Hnot; first [ exfalso; apply Hnot; lra
                             | split; [reflexivity|split; reflexivity] ]
        | intros Hfinite; first [ exfalso; lra
                                | split; [reflexivity|];
                                  eexists; split; [reflexivity|];
                                  split; reflexivity ] ] ].
Qed.

(** C7 as stated fails at the cooldown gate: with the default settings and
    the endpoint at full volume, the user turns the volume down to 0.5.  The
    iteration that sees it stops at the cooldown test, and the published
    volume is still 1 while the volume of the endpoint, which the controller
    has just read, is 0.5. *)
Lemma no_telemetry_in_cooldown :
  let r := loop_body (steady 100 0.5 0.1) (default_heap 1) in
  outcome r = Returns tt /\
  AudioController._cached_volume (audio (final r)) = 0.5 /\
  VolumeLimiter.ui_volume (limiter (final r)) = 1 /\
  VolumeLimiter.ui_volume (limiter (final r))
  <> AudioController._cached_volume (audio (final r)).
Proof.
  cbv zeta. py_run. repeat split; try reflexivity. cbn. lra.
Qed.

(** * The end-to-end example *)

Lemma leeway_zero : Rpower 10 (0 / 20) = 1.
Proof. replace (0 / 20) with 0 by lra. apply Rpower_O. lra. Qed.





Lemma iterate_cons_run (it : Iteration) (rest : list Iteration) (h : Heap) :
  outcome (loop_body it h) = Returns tt ->
  iterate (it :: rest) h
  = after (events (loop_body it h)) (iterate rest (final (loop_body it h))).
Proof.
  intros Hret. cbn [iterate].
  exact (bind_run (loop_body it) (fun _ => iterate rest) h tt Hret).
Qed.

Lemma _run_run (start : R) (its : list Iteration) (h : Heap) :
  _run start its h = iterate its (mkHeap (limiter h) (audio h) start).
Proof.
  unfold _run, bind, put_last_time.
  destruct (iterate its _) as [o h' evs]. reflexivity.
Qed.




(** * The leeway zone *)

Lemma leeway_3db_bound : 1.25 < Rpower 10 (3.0 / 20).
Proof.
  assert (H1 : Rpower (Rpower 1.25 20) (1 / 20) = 1.25).
  { rewrite Rpower_mult. replace (20 * (1 / 20)) with 1 by lra.
    apply Rpower_1. lra. }
  assert (H2 : Rpower (Rpower 10 3) (1 / 20) = Rpower 10 (3.0 / 20)).
  { rewrite Rpower_mult. f_equal. lra. }
  rewrite <- H1, <- H2.
  apply Rlt_Rpower_l; [lra|].
  replace 20 with (INR 20) by (simpl; lra).
  replace 3 with (INR 3) by (simpl; lra).
  rewrite !Rpower_pow by lra.
  split; [apply pow_lt; lra|]. simpl. lra.
Qed.

Lemma blend_monotone (raw cap D o1 o2 : R) :
  raw > 0 -> D > 0 ->
  cap < raw * o1 -> raw * o1 <= raw * o2 -> raw * o2 < cap + D ->
  D <= 2 * (raw * o1 - cap) ->
  o2 * (1 - (raw * o2 - cap) / D) + cap / raw * ((raw * o2 - cap) / D)
  <= o1 * (1 - (raw * o1 - cap) / D) + cap / raw * ((raw * o1 - cap) / D).
Proof.
  intros Hraw HD H1 H12 H2 Hmid.
  assert (E : forall o, o * (1 - (raw * o - cap) / D) + cap / raw * ((raw * o - cap) / D)
             = o - (raw * o - cap) * (raw * o - cap) / (raw * D)).
  { intros o. field. lra. }
  rewrite !E.
  assert (Hpos : 0 < raw * D) by (apply Rmult_lt_0_compat; lra).
  assert (Hle : (raw * o1 - cap) * (raw * o1 - cap) / (raw * D) - (raw * o2 - cap) * (raw * o2 - cap) / (raw * D) <= o1 - o2); [|lra].
  replace ((raw * o1 - cap) * (raw * o1 - cap) / (raw * D) - (raw * o2 - cap) * (raw * o2 - cap) / (raw * D))
    with ((o1 - o2) * ((raw * o1 + raw * o2 - 2 * cap) / D)) by (field; lra).
  assert (Ho : o1 - o2 <= 0) by nra.
  assert (Hq : 1 <= (raw * o1 + raw * o2 - 2 * cap) / D).
  { apply (Rmult_le_reg_r D); [lra|]. unfold Rdiv. rewrite Rmult_assoc, Rinv_l by lra. lra. }
  nra.
Qed.

Lemma blend_above_full (raw cap D o : R) :
  raw > 0 -> D > 0 -> cap < raw * o -> raw * o < cap + D ->
  o * (1 - 1) + cap / raw * 1
  <= o * (1 - (raw * o - cap) / D) + cap / raw * ((raw * o - cap) / D).
Proof.
  intros Hraw HD H1 H2.
  replace (o * (1 - (raw * o - cap) / D) + cap / raw * ((raw * o - cap) / D))
    with (cap / raw + (1 - (raw * o - cap) / D) * ((raw * o - cap) / raw))
    by (field; lra).
  assert (Hr : (raw * o - cap) / D < 1).
  { apply (Rmult_lt_reg_r D); [lra|].
    unfold Rdiv. rewrite Rmult_assoc, Rinv_l by lra. lra. }
  assert (Hq : 0 < (raw * o - cap) / raw) by (apply Rdiv_lt_0_compat; lra).
  set (r := (raw * o - cap) / D) in *.
  set (q := (raw * o - cap) / raw) in *.
  assert (Hprod : 0 <= (1 - r) * q) by (apply Rmult_le_pos; lra).
  lra.
Qed.

Lemma clamp_div_monotone (b1 b2 s : R) :
  0 < s -> b2 <= b1 ->
  Rmax 0.01 (Rmin 1 (b2 / s)) <= Rmax 0.01 (Rmin 1 (b1 / s)).
Proof.
  intros Hs Hb.
  assert (Hd : b2 / s <= b1 / s).
  { unfold Rdiv. apply Rmult_le_compat_r; [|exact Hb].
    left. apply Rinv_0_lt_compat. exact Hs. }
  set (q1 := b1 / s) in *. set (q2 := b2 / s) in *.
  unfold Rmax, Rmin.
  destruct (Rle_dec 1 q2), (Rle_dec 1 q1);
    repeat match goal with
           | |- context [Rle_dec ?x ?y] => destruct (Rle_dec x y)
           end; lra.
Qed.

(** C2, as amended.  For a fixed raw peak over 0.001 and fixed settings,
    take two baseline volumes whose potential outputs are over the cap, the
    second at least as loud as the first.  When the first potential output
    is at or above the middle of the leeway zone, [(volume_cap +
    soft_threshold) / 2], the target computed for the second is not above
    the target computed for the first; and when the first potential output
    is at or above [soft_threshold], the two targets are equal. *)
Theorem leeway_monotone_from_midpoint (h : Heap) (raw_peak soft o1 o2 : R) :
  let cap := VolumeLimiter.volume_cap (limiter h) in
  let at_volume := fun o =>
    mkHeap (VolumeLimiter.set_original_volume o (limiter h))
      (audio h) (last_time h) in
  let target := fun o =>
    limiting_target raw_peak (raw_peak * o) soft (at_volume o) in
  raw_peak > 0.001 ->
  cap < raw_peak * o1 ->
  raw_peak * o1 <= raw_peak * o2 ->
  cap + soft <= 2 * (raw_peak * o1) ->
  exists t1 t2 : R,
    outcome (target o1) = Returns t1 /\
    outcome (target o2) = Returns t2 /\
    t2 <= t1 /\
    (raw_peak * o1 >= soft -> t1 = t2).
Proof.
  destruct h as [[] a t]. cbv zeta.
  cbn [limiter VolumeLimiter.volume_cap].
  intros Hraw H1 H12 Hmid.
  py_exec.
  all: do 2 eexists; (split; [reflexivity|]); (split; [reflexivity|]).
  all: split;
    [ apply clamp_div_monotone; [apply Rmax_1_pos|];
      first
        [ lra
        | apply blend_monotone; lra
        | eapply Rle_trans; [|apply blend_above_full; lra]; lra ]
    | intros Hfull; try (exfalso; lra);
      do 2 f_equal; unfold Rdiv; f_equal; lra ].
Qed.

Lemma clamp_target_id (x : R) :
  0.01 <= x <= 1 -> clamp01 (Rmax 0.01 (Rmin 1 x)) = x.
Proof.
  intros Hx. unfold clamp01, Rmax, Rmin.
  destruct (Rle_dec 1 x); destruct (Rle_dec 0.01 _);
    destruct (Rle_dec 1 _); destruct (Rle_dec 0 _); lra.
Qed.

Lemma raw_peak_full (vol : R) :
  vol > 0.01 -> raw_peak_read (Some vol) vol = 1.
Proof.
  intros Hvol. unfold raw_peak_read.
  destruct (float_gt_spec vol 0.01); [|contradiction].
  replace (vol / vol) with 1 by (field; lra).
  unfold Rmin. destruct (Rle_dec 1 1); lra.
Qed.

Lemma default_heap_eq (v : R) :
  default_heap v
  = mkHeap
      (VolumeLimiter.set_release_rate (1 / 0.5)
         (limiter_attributes Settings.set_defaults v))
      (AudioController.__init__ v) 0.
Proof. unfold default_heap. py_run. reflexivity. Qed.

(** C2 as stated fails in the lower half of the leeway zone.  With the
    default settings (cap 0.2, leeway 3 dB) and a full-scale signal, start
    once with the endpoint at volume 0.21 and once at 0.24 and let the loop
    go round every 20 ms.  Both potential outputs are over the cap, the
    third iteration engages limiting in both runs, and the volume written
    for the louder one is the higher. *)
Lemma louder_can_get_louder_target :
  exists w1 w2 : R,
    writes (events (_run 100 [loud 0.21 0.21 100.02; loud 0.21 0.21 100.04;
                              loud 0.21 w1 100.06] (default_heap 0.21)))
    = [w1] /\
    writes (events (_run 100 [loud 0.24 0.24 100.02; loud 0.24 0.24 100.04;
                              loud 0.24 w2 100.06] (default_heap 0.24)))
    = [w2] /\
    w1 < w2.
Proof.
  pose proof leeway_3db_bound as Hpow.
  pose proof leeway_3db_finite as Hfinite.
  pose proof (raw_peak_full 0.21 ltac:(lra)) as Hraw1.
  pose proof (raw_peak_full 0.24 ltac:(lra)) as Hraw2.
  do 2 eexists.
  rewrite !_run_run, !default_heap_eq. unfold loud. cbn [iterate].
  py_exec_by
    ltac:(first [ progress (cbn [volume_read])
                | rewrite Hraw1 | rewrite Hraw2 | py_leaf ]).
  py_writes. split; [reflexivity|]. split; [reflexivity|].
  set (D := 0.2 * Rpower 10 (3.0 / 20) - 0.2) in *.
  assert (HD : 0.05 < D) by (unfold D; lra).
  assert (HI : 0 < / D < 20).
  { split; [apply Rinv_0_lt_compat; lra|].
    replace 20 with (/ 0.05) by lra.
    apply Rinv_lt_contravar; [apply Rmult_lt_0_compat; lra|exact HD]. }
  assert (Hs : Rmax 1 (Rmin 1.0 (1 + (1.0 - 1) * 1)) = 1).
  { clear. unfold Rmax, Rmin.
    destruct (Rle_dec 1.0 (1 + (1.0 - 1) * 1));
      match goal with |- context [Rle_dec ?x ?y] => destruct (Rle_dec x y) end;
      lra. }
  rewrite Hs.
  rewrite !clamp_target_id; unfold Rdiv; lra.
Qed.

(** * The theorems at work *)

Lemma float_gt_true (a b : R) : a > b -> float_gt a b = true.
Proof.
  intros H. destruct (float_gt_spec a b); [reflexivity|contradiction].
Qed.

(** C9 at work: the controller writes 0.5 and reads 0.5 back; the user
    moves the volume from 1 to 0.5 and it stays there. *)
Lemma own_write_is_no_user_change_witness :
  (AudioController._last_set_volume
     (audio (final (set_volume true 0.5 (default_heap 1)))) = clamp01 0.5 /\
   outcome (check_user_changed 100 (Some 0.5)
              (final (set_volume true 0.5 (default_heap 1))))
   = Returns false) /\
  (AudioController._last_set_volume
     (audio (final (check_user_changed 100 (Some 0.5) (default_heap 1))))
   = 0.5 /\
   outcome (check_user_changed 101 (Some 0.5)
              (final (check_user_changed 100 (Some 0.5) (default_heap 1))))
   = Returns false).
Proof.
  destruct own_write_is_no_user_change as [A B]. split.
  - apply (A (default_heap 1) 0.5 100 (Some 0.5)).
    unfold clamp01. real_lra.
  - apply (B (default_heap 1) 100 101 (Some 0.5) (Some 0.5)).
    + rewrite check_user_changed_run, default_heap_eq. cbn.
      rewrite float_gt_true; [reflexivity|real_lra].
    + cbn. real_lra.
Defined.

(** C8 at work: right after startup, disable, one iteration, enable. *)
Lemma toggle_twice_keeps_state_witness :
  let r := toggle_twice [steady 100 1 0.5] (default_heap 1) in
  outcome r = Returns tt /\
  events r = [Sleep 0.05] /\
  audio (final r) = audio (default_heap 1) /\
  VolumeLimiter.is_running (limiter (final r)) = true /\
  controller_state (final r) =
  {| originalVolume := originalVolume (controller_state (default_heap 1));
     isLimiting := isLimiting (controller_state (default_heap 1));
     timeOverThreshold := 0;
     lastWrittenVolume := lastWrittenVolume (controller_state (default_heap 1)) |}.
Proof.
  apply (toggle_twice_keeps_state [steady 100 1 0.5] (default_heap 1)).
  rewrite default_heap_eq. reflexivity.
Defined.

Lemma default_heap_finite (v : R) :
  leeway_factor_finite (limiter (default_heap v)).
Proof. rewrite default_heap_eq. exact leeway_3db_finite. Qed.

Lemma holding_heap_finite : leeway_factor_finite (limiter holding_heap).
Proof. exact leeway_3db_finite. Qed.

(** C5 at work: the meter raises in the first iteration after startup. *)
Lemma failed_peak_read_is_silent_witness :
  let h := default_heap 1 in
  let r := loop_body (meter_down 100.02 1) h in
  outcome r = Returns tt /\
  (VolumeLimiter.is_limiting (limiter (final r)) = true ->
   VolumeLimiter.is_limiting (limiter h) = true) /\
  (no_peak_read (events r) = true \/
   VolumeLimiter.current_peak (limiter (final r)) = 0 /\
   VolumeLimiter.time_over_threshold (limiter (final r)) = 0).
Proof.
  destruct (failed_peak_read_is_silent (default_heap 1) (meter_down 100.02 1)
              eq_refl) as (_ & _ & Hkeep & _ & Hfine).
  destruct (Hfine (default_heap_finite 1)) as [Hret Hreset].
  split; [exact Hret|]. split; [exact Hkeep|exact Hreset].
Defined.

(** C4 at work: the release time has just been set to 0.25 s and
    [_update_release_rate] makes the rate 4 per second; 0.52 s after the
    last loud sample, in silence, the volume goes from 0.4 to
    [min (0.4 + 4 * 0.02, 1)]. *)
Lemma hold_then_release_witness :
  let h0 :=
    mkHeap (VolumeLimiter.set_release_time 0.25 (limiter holding_heap))
           (audio holding_heap) (last_time holding_heap) in
  let h := final (_update_release_rate h0) in
  let r := loop_body (steady 100.52 0.4 0) h in
  VolumeLimiter.release_rate (limiter h) = 1 / 0.25 /\
  outcome r = Returns tt /\
  writes (events r) = [Rmin (0.4 + 1 / 0.25 * (100.52 - 100.5)) 1] /\
  VolumeLimiter.is_limiting (limiter (final r)) = true.
Proof.
  assert (Hraw : raw_peak_read (Some 0) 0.4 = 0).
  { unfold raw_peak_read. rewrite float_gt_true by lra.
    unfold Rmin. destruct (Rle_dec 1 (0 / 0.4)); lra. }
  intros h0 h r.
  assert (Hh : h = mkHeap
                     (VolumeLimiter.set_release_rate (release_rate_of 0.25)
                        (limiter h0))
                     (audio h0) (last_time h0)).
  { subst h. rewrite (_update_release_rate_run h0). reflexivity. }
  pose proof (hold_then_release h0 (steady 100.52 0.4 0)) as Hclaim.
  cbv zeta in Hclaim. fold h in Hclaim. fold r in Hclaim.
  rewrite Hh in Hclaim.
  unfold h0, holding_heap, steady in Hclaim.
  cbn [limiter audio last_time now check_volume peak volume release_volume
       volume_read
       VolumeLimiter.set_release_rate VolumeLimiter.set_release_time
       VolumeLimiter.is_running VolumeLimiter.is_limiting
       VolumeLimiter.user_cooldown VolumeLimiter.original_volume
       VolumeLimiter.volume_cap VolumeLimiter.release_rate
       VolumeLimiter.release_time VolumeLimiter.last_over_threshold_time
       VolumeLimiter.hold_time VolumeLimiter.leeway_db
       AudioController._cached_volume AudioController._last_set_volume
       AudioController.user_set_time] in Hclaim.
  rewrite (float_gt_true 0.25 0) in Hclaim by lra.
  rewrite Hraw in Hclaim.
  destruct Hclaim as (_ & Hrate & Hret & _ & Hrelease & _).
  - reflexivity.
  - reflexivity.
  - real_lra.
  - reflexivity.
  - lra.
  - exact leeway_3db_finite.
  - lra.
  - lra.
  - lra.
  - rewrite Hh. unfold h0.
    cbn [limiter VolumeLimiter.release_rate VolumeLimiter.set_release_rate].
    split; [exact Hrate|]. split; [exact Hret|]. apply Hrelease; lra.
Defined.

(** C2 at work: cap 0.2 and soft threshold 0.3.  The potential outputs
    0.26 and 0.28 are in the upper half of the leeway zone, 0.3 and 0.35 at
    or beyond its end. *)
Lemma leeway_monotone_from_midpoint_witness :
  let at_volume := fun o =>
    mkHeap (VolumeLimiter.set_original_volume o (limiter holding_heap))
      (audio holding_heap) (last_time holding_heap) in
  (exists t1 t2 : R,
     outcome (limiting_target 1 (1 * 0.26) 0.3 (at_volume 0.26)) = Returns t1 /\
     outcome (limiting_target 1 (1 * 0.28) 0.3 (at_volume 0.28)) = Returns t2 /\
     t2 <= t1) /\
  (exists t1 t2 : R,
     outcome (limiting_target 1 (1 * 0.3) 0.3 (at_volume 0.3)) = Returns t1 /\
     outcome (limiting_target 1 (1 * 0.35) 0.3 (at_volume 0.35)) = Returns t2 /\
     t1 = t2).
Proof.
  split.
  - destruct (leeway_monotone_from_midpoint holding_heap 1 0.3 0.26 0.28)
      as (t1 & t2 & H1 & H2 & Hle & _);
      [lra|unfold holding_heap; cbn [limiter VolumeLimiter.volume_cap]; lra
      |lra|unfold holding_heap; cbn [limiter VolumeLimiter.volume_cap]; lra|].
    exists t1, t2. split; [exact H1|]. split; [exact H2|exact Hle].
  - destruct (leeway_monotone_from_midpoint holding_heap 1 0.3 0.3 0.35)
      as (t1 & t2 & H1 & H2 & _ & Hsame);
      [lra|unfold holding_heap; cbn [limiter VolumeLimiter.volume_cap]; lra
      |lra|unfold holding_heap; cbn [limiter VolumeLimiter.volume_cap]; lra|].
    exists t1, t2. split; [exact H1|]. split; [exact H2|].
    apply Hsame. lra.
Defined.

(** C3 at work: the user moves the volume from 1 to 0.5 at time 100; a
    second later a loud signal plays and the controller leaves it alone. *)
Lemma user_change_wins_witness :
  let it := steady 100 0.5 0.1 in
  let r := loop_body it (default_heap 1) in
  let r' := loop_body (steady 101 0.5 0.9) (final r) in
  (VolumeLimiter.original_volume (limiter (final (follow_user it (default_heap 1)))) = 0.5 /\
   VolumeLimiter.is_limiting (limiter (final (follow_user it (default_heap 1)))) = false) /\
  (VolumeLimiter.original_volume (limiter (final r)) = 0.5 /\
   AudioController.user_set_time (audio (final r)) = Some 100 /\
   events r = [GetMasterVolumeLevelScalar (Some 0.5); Sleep 0.02]) /\
  (outcome r' = Returns tt /\ no_peak_read (events r') = true /\ writes (events r') = []).
Proof.
  destruct user_change_wins as (A & B & C).
  assert (Hseen : Rabs (0.5 - 1) > 0.01) by real_lra.
  intros it r r'.
  destruct (B (default_heap 1) it) as (B1 & B2 & B3 & B4 & B5 & B6 & B7).
  { rewrite default_heap_eq. reflexivity. }
  { rewrite default_heap_eq. exact Hseen. }
  { cbn. lra. }
  { cbn. lra. }
  { rewrite default_heap_eq. cbn. lra. }
  split; [|split].
  - destruct (A (default_heap 1) it) as (A1 & A2 & A3 & _).
    { rewrite default_heap_eq. exact Hseen. }
    split; [exact A2|exact A3].
  - split; [exact B2|]. split; [exact B5|exact B7].
  - apply (C (final r) (steady 101 0.5 0.9) 100).
    + exact B5.
    + lra.
    + cbn. lra.
    + subst r it. rewrite default_heap_eq. py_run. lra.
Defined.

(** * What an iteration can do *)

Lemma volume_read_in_unit (answer : option R) (cached : R) :
  in_unit answer -> 0 <= cached <= 1 -> 0 <= volume_read answer cached <= 1.
Proof. destruct answer; cbn; tauto. Qed.

(** What every path through the loop body has in common. *)
Lemma loop_body_summary (it : Iteration) (h : Heap) :
  let r := loop_body it h in
  same_settings (limiter h) (limiter (final r)) /\
  (writes (events r) = [] \/
   exists level : R,
     writes (events r) = [clamp01 level] /\
     VolumeLimiter.is_running (limiter h) = true /\
     skips it h = false /\
     (VolumeLimiter.is_limiting (limiter h) = true \/
      VolumeLimiter.is_limiting (limiter (final r)) = true)) /\
  (VolumeLimiter.original_volume (limiter (final r))
   = VolumeLimiter.original_volume (limiter h) \/
   VolumeLimiter.original_volume (limiter (final r)) = volume_seen it h /\
   Rabs (volume_seen it h - AudioController._last_set_volume (audio h)) > 0.01) /\
  (volumes_reported_in_unit it -> volumes_in_range (audio h) ->
   volumes_in_range (audio (final r))) /\
  last_time (final r)
  = (if VolumeLimiter.is_running (limiter h) then now it else last_time h).
Proof.
  destruct h as [[] [c s ut uv] t], it as [tnow uclock cv pk vol rv wok tp tv].
  unfold volume_seen, volumes_reported_in_unit, volumes_in_range, same_settings.
  cbn [limiter audio last_time now check_volume volume release_volume telemetry_volume
       VolumeLimiter.is_running VolumeLimiter.volume_cap VolumeLimiter.attack_time VolumeLimiter.release_time VolumeLimiter.hold_time VolumeLimiter.user_cooldown VolumeLimiter.leeway_db VolumeLimiter.dampening VolumeLimiter.dampening_speed VolumeLimiter.voice_mode VolumeLimiter.release_rate VolumeLimiter.peak_start_time VolumeLimiter.is_limiting VolumeLimiter.original_volume
       AudioController._cached_volume AudioController._last_set_volume].
  destruct is_running; [destruct is_limiting, ut as [t0|]|];
    cbv zeta;
    match goal with |- context [loop_body ?it ?h] => py_focus (loop_body it h) end.
  all: cbn [VolumeLimiter.is_running VolumeLimiter.volume_cap VolumeLimiter.attack_time VolumeLimiter.release_time VolumeLimiter.hold_time VolumeLimiter.user_cooldown VolumeLimiter.leeway_db VolumeLimiter.dampening VolumeLimiter.dampening_speed VolumeLimiter.voice_mode VolumeLimiter.release_rate VolumeLimiter.peak_start_time VolumeLimiter.is_limiting VolumeLimiter.original_volume
       AudioController._cached_volume AudioController._last_set_volume].
  all: (split; [repeat split; reflexivity|]).
  all: py_writes.
  all: (split;
        [ first
            [ left; reflexivity
            | right; eexists; split; [reflexivity|];
              split; [reflexivity|];
              split; [unfold skips; py_exec; reflexivity|];
              first [left; reflexivity | right; reflexivity] ]
        |]).
  all: (split;
        [ first [left; reflexivity | right; split; [reflexivity|assumption]]
        |]).
  all: (split; [|reflexivity]).
  all: intros (Hcv & Hvol & Hrv & Htv) (Hc & Hs).
  all: split.
  all: repeat first
         [ assumption
         | apply clamp01_range
         | apply volume_read_in_unit; [assumption|]
         | match goal with |- context [if ?b then _ else _] => destruct b end ].
Qed.

(** The first iteration of a run returns, and the run goes on from the
    heap it leaves, or it raises the [OverflowError] of line 315, and the
    run ends there. *)
Lemma iterate_cons_cases (it : Iteration) (rest : list Iteration) (h : Heap) :
  iterate (it :: rest) h
  = after (events (loop_body it h)) (iterate rest (final (loop_body it h))) \/
  iterate (it :: rest) h
  = mkRun (Raises OverflowError) (final (loop_body it h))
          (events (loop_body it h)).
Proof.
  destruct (loop_body_guarded it h) as (_ & [Hret|Hraise] & _).
  - left. apply iterate_cons_run. exact Hret.
  - right. cbn [iterate]. apply bind_raise. exact Hraise.
Qed.

Lemma iterate_writes (its : list Iteration) (h : Heap) :
  (length (writes (events (iterate its h))) <= length its)%nat /\
  Forall (fun w => 0 <= w <= 1) (writes (events (iterate its h))).
Proof.
  revert h. induction its as [|it rest IH]; intros h.
  - split; [apply le_n|constructor].
  - destruct (IH (final (loop_body it h))) as [IHlen IHunit].
    destruct (loop_body_summary it h) as (_ & Hwrites & _).
    destruct (iterate_cons_cases it rest h) as [-> | ->].
    + rewrite events_after, writes_app, length_app.
      destruct Hwrites as [Hnone | (level & Hone & _)].
      * rewrite Hnone. cbn [length app]. split; [|exact IHunit].
        apply le_S. exact IHlen.
      * rewrite Hone. cbn [length app Nat.add]. split.
        -- apply le_n_S. exact IHlen.
        -- constructor; [apply clamp01_range|exact IHunit].
    + cbn [events length].
      destruct Hwrites as [Hnone | (level & Hone & _)].
      * rewrite Hnone. split; [apply Nat.le_0_l|constructor].
      * rewrite Hone. cbn [length]. split.
        -- apply le_n_S, Nat.le_0_l.
        -- constructor; [apply clamp01_range|constructor].
Qed.

(** X1. However long the loop runs and whatever the endpoint answers, it
    asks for at most one volume per iteration, and every volume it asks for
    is in [0, 1]. *)
Theorem loop_writes_are_few_and_in_unit
        (start : R) (its : list Iteration) (h : Heap) :
  (length (writes (events (_run start its h))) <= length its)%nat /\
  Forall (fun w => 0 <= w <= 1) (writes (events (_run start its h))).
Proof. rewrite _run_run. apply iterate_writes. Qed.

Lemma same_settings_trans (l1 l2 l3 : VolumeLimiter.t) :
  same_settings l1 l2 -> same_settings l2 l3 -> same_settings l1 l3.
Proof.
  unfold same_settings.
  intros (A1 & A2 & A3 & A4 & A5 & A6 & A7 & A8 & A9 & A10 & A11 & A12)
         (B1 & B2 & B3 & B4 & B5 & B6 & B7 & B8 & B9 & B10 & B11 & B12).
  repeat split; congruence.
Qed.

Lemma iterate_same_settings (its : list Iteration) (h : Heap) :
  same_settings (limiter h) (limiter (final (iterate its h))).
Proof.
  revert h. induction its as [|it rest IH]; intros h.
  - repeat split; reflexivity.
  - destruct (iterate_cons_cases it rest h) as [-> | ->].
    + rewrite final_after.
      apply (same_settings_trans _ (limiter (final (loop_body it h)))).
      * apply loop_body_summary.
      * apply IH.
    + cbn [final]. apply loop_body_summary.
Qed.

(** X2. The loop never changes what the window sets: after any number of
    iterations the enable flag, the cap, the seven timing and shaping
    parameters, the release rate, [voice_mode] and [peak_start_time] are
    what they were. *)
Theorem loop_leaves_settings_alone
        (start : R) (its : list Iteration) (h : Heap) :
  same_settings (limiter h) (limiter (final (_run start its h))).
Proof.
  rewrite _run_run.
  exact (iterate_same_settings its (mkHeap (limiter h) (audio h) start)).
Qed.

(** X3. The controller touches the volume only while it limits: an
    iteration that writes a volume is an enabled one that passed the
    cooldown test, and limiting was engaged before it or is engaged after
    it. *)
Theorem writes_only_while_limiting (it : Iteration) (h : Heap) :
  let r := loop_body it h in
  writes (events r) = [] \/
  (VolumeLimiter.is_running (limiter h) = true /\
   skips it h = false /\
   (VolumeLimiter.is_limiting (limiter h) = true \/
    VolumeLimiter.is_limiting (limiter (final r)) = true)).
Proof.
  cbv zeta.
  destruct (loop_body_summary it h) as (_ & [Hnone | (level & _ & H)] & _).
  - left. exact Hnone.
  - right. exact H.
Qed.

Lemma iterate_volumes_in_unit (its : list Iteration) (h : Heap) :
  Forall volumes_reported_in_unit its ->
  volumes_in_range (audio h) ->
  0 <= VolumeLimiter.original_volume (limiter h) <= 1 ->
  volumes_in_range (audio (final (iterate its h))) /\
  0 <= VolumeLimiter.original_volume (limiter (final (iterate its h))) <= 1.
Proof.
  revert h. induction its as [|it rest IH]; intros h Hits Haudio Horig.
  - split; assumption.
  - inversion Hits as [|? ? Hit Hrest]; subst.
    destruct (loop_body_summary it h) as (_ & _ & Hbase & Hrange & _).
    assert (Horig' : 0 <= VolumeLimiter.original_volume
                            (limiter (final (loop_body it h))) <= 1).
    { destruct Hbase as [-> | [-> _]]; [exact Horig|].
      apply volume_read_in_unit; [apply Hit|apply Haudio]. }
    destruct (iterate_cons_cases it rest h) as [-> | ->].
    + rewrite final_after.
      apply IH; [exact Hrest|apply Hrange; assumption|exact Horig'].
    + cbn [final]. split; [apply Hrange; assumption|exact Horig'].
Qed.

(** X4. When every volume the endpoint reports is in [0, 1] and the
    controller starts with its cached volume, its last written volume and
    its baseline in [0, 1], they are still in [0, 1] after any number of
    iterations. *)
Theorem volumes_stay_in_unit (start : R) (its : list Iteration) (h : Heap) :
  Forall volumes_reported_in_unit its ->
  volumes_in_range (audio h) ->
  0 <= VolumeLimiter.original_volume (limiter h) <= 1 ->
  let h' := final (_run start its h) in
  volumes_in_range (audio h') /\
  0 <= VolumeLimiter.original_volume (limiter h') <= 1.
Proof.
  intros Hits Haudio Horig. cbv zeta. rewrite _run_run.
  exact (iterate_volumes_in_unit its (mkHeap (limiter h) (audio h) start)
           Hits Haudio Horig).
Qed.

(** * Attack and limiting *)


Lemma div_by_factor_le (b s : R) : 0 < b -> 1 <= s -> b / s <= b.
Proof.
  intros Hb Hs. apply (Rmult_le_reg_r s); [lra|].
  unfold Rdiv. rewrite Rmult_assoc, Rinv_l by lra. nra.
Qed.

Lemma div_by_factor_pos (b s : R) : 0 < b / s -> 1 <= s -> 0 < b.
Proof.
  intros Hq Hs. replace b with (b / s * s) by (field; lra).
  apply Rmult_lt_0_compat; lra.
Qed.

Lemma target_le_baseline (b s o : R) :
  1 <= s -> b <= o ->
  clamp01 (Rmax 0.01 (Rmin 1 (b / s))) <= Rmax 0.01 o.
Proof.
  intros Hs Hb.
  destruct (Rle_dec (b / s) 0.01) as [Hq|Hq].
  - replace (clamp01 (Rmax 0.01 (Rmin 1 (b / s)))) with 0.01.
    + apply Rmax_l.
    + unfold clamp01, Rmax, Rmin.
      destruct (Rle_dec 1 (b / s)); destruct (Rle_dec 0.01 _);
        destruct (Rle_dec 1 _); destruct (Rle_dec 0 _); lra.
  - assert (Hpos : 0 < b) by (apply (div_by_factor_pos b s); lra).
    pose proof (div_by_factor_le b s Hpos Hs) as Hle.
    apply Rle_trans with o; [|apply Rmax_r].
    unfold clamp01, Rmax, Rmin.
    destruct (Rle_dec 1 (b / s)); destruct (Rle_dec 0.01 _);
      destruct (Rle_dec 1 _); destruct (Rle_dec 0 _); lra.
Qed.


Lemma full_blend (raw cap o : R) :
  0 < raw -> cap < raw * o ->
  o * (1 - 1) + cap / raw * 1 <= o /\
  raw * (o * (1 - 1) + cap / raw * 1) = cap.
Proof.
  intros Hraw Hover. split.
  - assert (cap / raw < o); [|lra].
    apply (Rmult_lt_reg_r raw); [lra|].
    unfold Rdiv. rewrite Rmult_assoc, Rinv_l by lra. lra.
  - field. lra.
Qed.

Lemma leeway_blend (raw cap D o : R) :
  0 < raw -> 0 < D -> cap < raw * o -> raw * o < cap + D ->
  o * (1 - (raw * o - cap) / D) + cap / raw * ((raw * o - cap) / D) <= o /\
  raw * (o * (1 - (raw * o - cap) / D) + cap / raw * ((raw * o - cap) / D))
  <= cap + D / 4.
Proof.
  intros Hraw HD Hover Hzone.
  set (x := raw * o - cap).
  assert (Hx : 0 < x < D) by (unfold x; lra).
  split.
  - replace (o * (1 - x / D) + cap / raw * (x / D))
      with (o - x / D * (x / raw)) by (unfold x; field; lra).
    assert (0 < x / D) by (apply Rdiv_lt_0_compat; lra).
    assert (0 < x / raw) by (apply Rdiv_lt_0_compat; lra).
    assert (0 < x / D * (x / raw)) by (apply Rmult_lt_0_compat; lra).
    lra.
  - replace (raw * (o * (1 - x / D) + cap / raw * (x / D)))
      with (cap + D / 4 - (x - D / 2) * (x - D / 2) / D)
      by (unfold x; field; lra).
    assert (0 <= (x - D / 2) * (x - D / 2) / D); [|lra].
    apply Rmult_le_pos; [apply (Rle_0_sqr (x - D / 2))|].
    left. apply Rinv_0_lt_compat. lra.
Qed.

Ltac over_threshold_start :=
  cbn [limiter audio last_time now check_volume peak volume
       VolumeLimiter.is_running VolumeLimiter.is_limiting
       VolumeLimiter.user_cooldown VolumeLimiter.original_volume
       VolumeLimiter.volume_cap VolumeLimiter.time_over_threshold
       VolumeLimiter.attack_time VolumeLimiter.leeway_db
       VolumeLimiter.last_over_threshold_time
       AudioController._cached_volume AudioController._last_set_volume
       AudioController.user_set_time] in *.

(** X5. In an enabled iteration that sees no change by the user, is past
    the cooldown, gets a float from the power of line 315 and hears the
    signal over the threshold, nothing is raised, the time over the
    threshold grows by [dt] and the time of the last loud sample becomes
    [now].  While the accumulated time is below [attack_time] nothing is
    written and [is_limiting] keeps its value; as soon as it reaches
    [attack_time] limiting is engaged and exactly one volume is written. *)
Theorem attack_delay (h : Heap) (it : Iteration) :
  let l := limiter h in
  let dt := now it - last_time h in
  loud_now it h ->
  let r := loop_body it h in
  let l' := limiter (final r) in
  outcome r = Returns tt /\
  VolumeLimiter.time_over_threshold l'
  = VolumeLimiter.time_over_threshold l + dt /\
  VolumeLimiter.last_over_threshold_time l' = now it /\
  (VolumeLimiter.time_over_threshold l + dt < VolumeLimiter.attack_time l ->
   writes (events r) = [] /\
   VolumeLimiter.is_limiting l' = VolumeLimiter.is_limiting l) /\
  (VolumeLimiter.time_over_threshold l + dt >= VolumeLimiter.attack_time l ->
   VolumeLimiter.is_limiting l' = true /\
   length (writes (events r)) = 1%nat).
Proof.
  destruct h as [[] [c s ut uv] t], it as [tnow uclock cv pk vol rv wok tp tv].
  intros l dt (Hrun & Hsame & Hcool & Hfinite & Hover & Hloud).
  unfold leeway_factor_finite in Hfinite.
  unfold volume_seen in *.
  apply in_user_cooldown_false in Hcool.
  subst l dt. over_threshold_start. subst.
  destruct is_limiting, ut as [t0|]; cbv zeta;
    match goal with |- context [loop_body ?it ?h] => py_focus (loop_body it h) end;
    cbn [VolumeLimiter.time_over_threshold VolumeLimiter.is_limiting
         VolumeLimiter.last_over_threshold_time];
    (split; [reflexivity|]); (split; [reflexivity|]); (split; [reflexivity|]);
    split; intros; try (exfalso; lra); py_writes; split; reflexivity.
Qed.

Lemma clamp01_le_baseline (x o : R) : x <= o -> clamp01 x <= Rmax 0.01 o.
Proof.
  intros Hx. unfold clamp01, Rmax, Rmin.
  destruct (Rle_dec 1 x); destruct (Rle_dec 0.01 o);
    match goal with |- context [Rle_dec 0 ?y] => destruct (Rle_dec 0 y) end; lra.
Qed.

(** The volume of a limiting write against the baseline, on a path where
    the signal was found over the threshold. *)
Ltac limited_leaf :=
  lazymatch goal with
  | Hover : ?raw * ?o > ?cap, Hloud : ?raw > 0.001
    |- clamp01 (Rmax 0.01 (Rmin 1 (_ / _))) <= Rmax 0.01 ?o =>
      let Hraw := fresh "Hraw" in
      assert (Hraw : 0 < raw) by lra;
      apply target_le_baseline; [apply Rmax_l|];
      lazymatch goal with
      | Hfull : raw * o >= ?soft |- _ =>
          exact (proj1 (full_blend raw cap o Hraw Hover))
      | Hzone : ~ raw * o >= ?soft |- _ =>
          refine (proj1 (leeway_blend raw cap (soft - cap) o Hraw _ _ _)); lra
      end
  end.

Lemma volume_read_at_most (M : R) (answer : option R) (cached : R) :
  at_most M answer -> cached <= M -> volume_read answer cached <= M.
Proof. destruct answer; cbn; tauto. Qed.

(** A written volume against the baseline [o] of its path. *)
Ltac written_leaf :=
  first [ limited_leaf
        | apply clamp01_le_baseline; first [apply Rmin_r | apply Rle_refl] ].

(** A written volume against a bound [M] on the baseline. *)
Ltac bounded_leaf :=
  match goal with
  | Ho : ?o <= ?M |- clamp01 _ <= ?M =>
      apply Rle_trans with (Rmax 0.01 o);
      [written_leaf|apply Rmax_lub; assumption]
  | Hcv : at_most ?M ?cv, Hc : ?c <= ?M |- clamp01 _ <= ?M =>
      apply Rle_trans with (Rmax 0.01 (volume_read cv c));
      [written_leaf
      |apply Rmax_lub; [assumption|apply volume_read_at_most; assumption]]
  end.

(** What every path through the loop body respects. *)
Lemma loop_body_caution (it : Iteration) (h : Heap) :
  let r := loop_body it h in
  let l := limiter h in
  let l' := limiter (final r) in
  Forall (fun w => w <= Rmax 0.01 (VolumeLimiter.original_volume l'))
         (writes (events r)) /\
  (VolumeLimiter.is_limiting l' = true ->
   VolumeLimiter.is_limiting l = true \/
   VolumeLimiter.time_over_threshold l' >= VolumeLimiter.attack_time l /\
   VolumeLimiter.last_over_threshold_time l' = now it) /\
  (forall M : R,
     0.01 <= M ->
     volumes_reported_at_most M it ->
     AudioController._cached_volume (audio h) <= M ->
     VolumeLimiter.original_volume l <= M ->
     AudioController._cached_volume (audio (final r)) <= M).
Proof.
  destruct h as [[] [c s ut uv] t], it as [tnow uclock cv pk vol rv wok tp tv].
  unfold volumes_reported_at_most.
  cbn [limiter audio last_time now check_volume volume release_volume
       telemetry_volume].
  destruct is_running; [destruct is_limiting, ut as [t0|]|];
    cbv zeta;
    match goal with |- context [loop_body ?it ?h] => py_focus (loop_body it h) end.
  all: cbn [VolumeLimiter.is_running VolumeLimiter.time_over_threshold
            VolumeLimiter.attack_time VolumeLimiter.is_limiting
            VolumeLimiter.last_over_threshold_time
            VolumeLimiter.original_volume AudioController._cached_volume].
  all: py_writes.
  all: (split;
        [|split;
          [ first [ intros _; left; reflexivity
                  | intros Hf; discriminate Hf
                  | intros Hf; left; exact Hf
                  | intros _; right; split; [assumption|reflexivity] ]
          | intros M HM (Hcv & Hvol & Hrv & Htv) Hc Ho ]]).
  all: try apply Forall_nil.
  all: try (apply Forall_cons; [written_leaf|apply Forall_nil]).
  all: repeat first
         [ assumption
         | apply volume_read_at_most; [assumption|]
         | match goal with |- context [if ?b then _ else _] => destruct b end ].
  all: bounded_leaf.
Qed.


(** X8. Limiting is switched on by a sustained peak only: an iteration
    that starts with [is_limiting] false and ends with it true has found the
    signal over the threshold at [now], with the time over the threshold at
    [attack_time] or more. *)
Theorem engages_only_after_attack (it : Iteration) (h : Heap) :
  let l' := limiter (final (loop_body it h)) in
  VolumeLimiter.is_limiting (limiter h) = false ->
  VolumeLimiter.is_limiting l' = true ->
  VolumeLimiter.is_running (limiter h) = true /\
  VolumeLimiter.time_over_threshold l'
  >= VolumeLimiter.attack_time (limiter h) /\
  VolumeLimiter.last_over_threshold_time l' = now it.
Proof.
  cbv zeta. intros Hoff Hon.
  destruct (loop_body_caution it h) as (_ & Hengage & _).
  destruct (Hengage Hon) as [Hwas | Hattack]; [congruence|].
  split; [|exact Hattack].
  destruct (loop_body_summary it h) as (Hsame & _).
  destruct (VolumeLimiter.is_running (limiter h)) eqn:Hrun; [reflexivity|].
  rewrite (loop_body_disabled it h Hrun) in Hon.
  cbn in Hon. congruence.
Qed.



(** * The window and the loop together *)

Ltac callback_unfold :=
  unfold callback, _on_cap_change, _on_attack_change, _on_hold_change,
    _on_cooldown_change, _on_leeway_change, _on_dampening_change,
    _on_dampening_speed_change, _reset_defaults,
    Assign.volume_cap, Assign.attack_time, Assign.hold_time,
    Assign.user_cooldown, Assign.leeway_db, Assign.dampening,
    Assign.dampening_speed.

Lemma callback_run (c : Callback) (h : Heap) :
  release_rate_current (limiter h) ->
  let r := callback c h in
  outcome r = Returns tt /\
  Forall guarded (events r) /\
  release_rate_current (limiter (final r)).
Proof.
  destruct h as [[] a t]. unfold release_rate_current, release_rate_of.
  cbn [limiter VolumeLimiter.release_rate VolumeLimiter.release_time].
  intros Hinv.
  destruct c; cbv zeta; callback_unfold;
    match goal with |- context [?m (mkHeap ?l ?a ?t)] =>
      py_focus (m (mkHeap l a t)) end;
    cbn [VolumeLimiter.release_rate VolumeLimiter.release_time];
    (split; [reflexivity|]); (split; [py_guarded|]);
    first [exact Hinv | py_exec; reflexivity].
Qed.

Lemma callback_leeway (c : Callback) (h : Heap) :
  leeway_factor_finite (limiter h) ->
  leeway_kept_finite (Gui c) ->
  leeway_factor_finite (limiter (final (callback c h))).
Proof.
  destruct h as [[] a t]. unfold leeway_factor_finite.
  cbn [limiter VolumeLimiter.leeway_db leeway_kept_finite].
  intros Hfinite Hkept.
  destruct c; callback_unfold;
    match goal with |- context [?m (mkHeap ?l ?a ?t)] =>
      py_focus (m (mkHeap l a t)) end;
    cbn [VolumeLimiter.leeway_db];
    first [exact Hfinite | exact Hkept | exact leeway_3db_finite].
Qed.

Lemma step_run (s : Step) (h : Heap) :
  release_rate_current (limiter h) ->
  let r := step s h in
  Forall guarded (events r) /\
  release_rate_current (limiter (final r)) /\
  (outcome r = Returns tt \/ outcome r = Raises OverflowError) /\
  (leeway_factor_finite (limiter h) -> leeway_kept_finite s ->
   outcome r = Returns tt /\ leeway_factor_finite (limiter (final r))).
Proof.
  intros Hinv. destruct s as [c|it]; cbn [step]; cbv zeta.
  - destruct (callback_run c h Hinv) as (Hret & Hdiv & Hinv').
    split; [exact Hdiv|]. split; [exact Hinv'|].
    split; [left; exact Hret|]. intros Hfinite Hkept.
    split; [exact Hret|]. apply callback_leeway; assumption.
  - destruct (loop_body_guarded it h) as (Hdiv & Hout & _).
    split; [exact Hdiv|]. split; [|split; [exact Hout|]].
    + destruct (loop_body_summary it h) as (Hsame & _).
      unfold same_settings in Hsame. unfold release_rate_current in *.
      destruct Hsame
        as (_ & _ & _ & Htime & _ & _ & _ & _ & _ & _ & Hrate & _).
      rewrite Hrate, Htime. exact Hinv.
    + intros Hfinite _. apply loop_body_returns. exact Hfinite.
Qed.

Lemma steps_run (ss : list Step) (h : Heap) :
  release_rate_current (limiter h) ->
  let r := steps ss h in
  Forall guarded (events r) /\
  release_rate_current (limiter (final r)) /\
  (outcome r = Returns tt \/ outcome r = Raises OverflowError) /\
  (leeway_factor_finite (limiter h) -> Forall leeway_kept_finite ss ->
   outcome r = Returns tt).
Proof.
  revert h. induction ss as [|s rest IH]; intros h Hinv; cbv zeta.
  - split; [constructor|]. split; [exact Hinv|].
    split; [left; reflexivity|]. intros _ _. reflexivity.
  - destruct (step_run s h Hinv) as (Hdiv & Hinv' & [Hret | Hraise] & Hfine).
    + cbn [steps]. rewrite (bind_run _ _ h tt Hret).
      rewrite outcome_after, events_after, final_after.
      destruct (IH (final (step s h)) Hinv') as (Hdiv' & Hinv'' & Hout & Hfine').
      split; [apply Forall_app; split; assumption|].
      split; [exact Hinv''|]. split; [exact Hout|].
      intros Hfinite Hkept.
      inversion Hkept as [|? ? Hs Hrest]; subst.
      apply Hfine'; [|exact Hrest]. apply Hfine; assumption.
    + cbn [steps]. rewrite (bind_raise _ _ h OverflowError Hraise).
      cbn [outcome events final].
      split; [exact Hdiv|]. split; [exact Hinv'|].
      split; [right; reflexivity|].
      intros Hfinite Hkept.
      inversion Hkept as [|? ? Hs Hrest]; subst.
      destruct (Hfine Hfinite Hs) as [Hret _]. congruence.
Qed.

Lemma startup_release_rate (settings : Settings.t) (volume : R)
      (answer : option R) :
  release_rate_current (limiter (final (startup settings volume answer))).
Proof.
  destruct settings. unfold release_rate_current, release_rate_of, startup,
    VolumeLimiter__init__.
  py_exec; reflexivity.
Qed.

Lemma startup_leeway (settings : Settings.t) (volume : R)
      (answer : option R) :
  VolumeLimiter.leeway_db (limiter (final (startup settings volume answer)))
  = Settings.leeway_db settings.
Proof.
  destruct settings. unfold startup, VolumeLimiter__init__.
  py_exec; reflexivity.
Qed.

(** X10. The release rate always matches the release time: from the start
    of the program on, after any sequence of slider moves, resets to the
    defaults, presses of the enable button and loop iterations, every
    division made had a positive divisor and [release_rate] is
    [1 / release_time] for a positive [release_time] and 10 otherwise.  The
    one exception that can end the sequence is the [OverflowError] of the
    power of line 315; where the leeway of the settings and every leeway the
    slider sets give a float there, nothing raises. *)
Theorem release_rate_follows_release_time
        (settings : Settings.t) (volume : R) (answer : option R)
        (ss : list Step) :
  let r := steps ss (final (startup settings volume answer)) in
  Forall guarded (events r) /\
  VolumeLimiter.release_rate (limiter (final r))
  = release_rate_of (VolumeLimiter.release_time (limiter (final r))) /\
  (outcome r = Returns tt \/ outcome r = Raises OverflowError) /\
  (Rpower 10 (Settings.leeway_db settings / 20) <= float_max ->
   Forall leeway_kept_finite ss ->
   outcome r = Returns tt).
Proof.
  cbv zeta.
  destruct (steps_run ss (final (startup settings volume answer))
              (startup_release_rate settings volume answer))
    as (Hdiv & Hinv & Hout & Hfine).
  split; [exact Hdiv|]. split; [exact Hinv|]. split; [exact Hout|].
  intros Hfinite Hkept. apply Hfine; [|exact Hkept].
  unfold leeway_factor_finite. rewrite startup_leeway. exact Hfinite.
Qed.

(** X11. [Reset to defaults] in the window and the defaults of [Settings]
    are not the same: the reset leaves the cap, [voice_mode], the enable
    flag and the state of the controller alone, gives attack, release, hold,
    cooldown and leeway the values of [Settings.set_defaults] and the
    release rate 2, but sets [dampening] to 2 and [dampening_speed] to 0.1
    where [Settings.set_defaults] has 1 and 0. *)
Theorem reset_defaults_are_not_set_defaults (h : Heap) :
  let r := _reset_defaults h in
  let l := limiter h in
  let l' := limiter (final r) in
  let d := Settings.set_defaults in
  outcome r = Returns tt /\
  (VolumeLimiter.volume_cap l' = VolumeLimiter.volume_cap l /\
   VolumeLimiter.voice_mode l' = VolumeLimiter.voice_mode l /\
   VolumeLimiter.is_running l' = VolumeLimiter.is_running l /\
   controller_state (final r) = controller_state h) /\
  (VolumeLimiter.attack_time l' = Settings.attack_time d /\
   VolumeLimiter.release_time l' = Settings.release_time d /\
   VolumeLimiter.hold_time l' = Settings.hold_time d /\
   VolumeLimiter.user_cooldown l' = Settings.user_cooldown d /\
   VolumeLimiter.leeway_db l' = Settings.leeway_db d /\
   VolumeLimiter.release_rate l' = 2) /\
  (VolumeLimiter.dampening l' = 2 /\
   VolumeLimiter.dampening l' <> Settings.dampening d /\
   VolumeLimiter.dampening_speed l' = 0.1 /\
   VolumeLimiter.dampening_speed l' <> Settings.dampening_speed d).
Proof.
  destruct h as [[] a t]. cbv zeta. unfold controller_state.
  callback_unfold.
  match goal with |- context [?m (mkHeap ?l ?a ?t)] =>
    py_focus (m (mkHeap l a t)) end.
  cbn [VolumeLimiter.volume_cap VolumeLimiter.voice_mode
       VolumeLimiter.is_running VolumeLimiter.original_volume
       VolumeLimiter.is_limiting VolumeLimiter.time_over_threshold
       VolumeLimiter.attack_time VolumeLimiter.release_time
       VolumeLimiter.hold_time VolumeLimiter.user_cooldown
       VolumeLimiter.leeway_db VolumeLimiter.release_rate
       VolumeLimiter.dampening VolumeLimiter.dampening_speed
       Settings.attack_time Settings.release_time Settings.hold_time
       Settings.user_cooldown Settings.leeway_db Settings.dampening
       Settings.dampening_speed Settings.set_defaults].
  repeat split; try reflexivity; lra.
Qed.

(** * Dampening *)

(** What an iteration that limits does. *)
Lemma limiting_run (it : Iteration) (h : Heap) :
  limits_now it h ->
  let l := limiter h in
  let raw_peak := raw_peak_read (peak it) (volume_seen it h) in
  let time_over :=
    VolumeLimiter.time_over_threshold l + (now it - last_time h) in
  let r := loop_body it h in
  writes (events r)
  = [floor_and_clamp (blend_of l raw_peak / sustained_factor_of l time_over)] /\
  VolumeLimiter.is_limiting (limiter (final r)) = true /\
  VolumeLimiter.time_over_threshold (limiter (final r)) = time_over.
Proof.
  destruct h as [[] [c s ut uv] t], it as [tnow uclock cv pk vol rv wok tp tv].
  unfold limits_now, loud_now.
  intros ((Hrun & Hsame & Hcool & Hfinite & Hover & Hloud) & Hlong).
  unfold leeway_factor_finite in Hfinite.
  unfold volume_seen in *.
  apply in_user_cooldown_false in Hcool.
  over_threshold_start. subst. cbv zeta.
  unfold floor_and_clamp, blend_of, sustained_factor_of, leeway_ratio_of.
  cbn [VolumeLimiter.volume_cap VolumeLimiter.original_volume
       VolumeLimiter.leeway_db VolumeLimiter.attack_time
       VolumeLimiter.dampening VolumeLimiter.dampening_speed].
  destruct is_limiting, ut as [t0|];
    match goal with |- context [loop_body ?it ?h] => py_focus (loop_body it h) end;
    py_writes;
    cbn [VolumeLimiter.is_limiting VolumeLimiter.time_over_threshold];
    repeat match goal with
           | |- context [float_ge ?a ?b] =>
               destruct (float_ge_spec a b); try (exfalso; lra)
           | |- context [float_gt ?a ?b] =>
               destruct (float_gt_spec a b); try (exfalso; lra)
           end;
    repeat split; reflexivity.
Qed.

(** The one volume written by an iteration that limits. *)
Lemma limiting_write_run (it : Iteration) (h : Heap) :
  limits_now it h ->
  let l := limiter h in
  let raw_peak := raw_peak_read (peak it) (volume_seen it h) in
  let time_over :=
    VolumeLimiter.time_over_threshold l + (now it - last_time h) in
  writes (events (loop_body it h))
  = [floor_and_clamp (blend_of l raw_peak / sustained_factor_of l time_over)].
Proof. intros Hlim. apply (limiting_run it h Hlim). Qed.

Lemma floor_and_clamp_eq (x : R) :
  floor_and_clamp x = Rmax 0.01 (Rmin 1 x).
Proof.
  unfold floor_and_clamp. apply clamp01_id.
  unfold Rmax, Rmin.
  destruct (Rle_dec 1 x);
    match goal with |- context [Rle_dec 0.01 ?y] => destruct (Rle_dec 0.01 y) end;
    lra.
Qed.

Lemma floor_and_clamp_monotone (x y : R) :
  x <= y -> floor_and_clamp x <= floor_and_clamp y.
Proof.
  intros Hxy. rewrite !floor_and_clamp_eq. unfold Rmax, Rmin.
  destruct (Rle_dec 1 x), (Rle_dec 1 y);
    repeat match goal with
           | |- context [Rle_dec 0.01 ?z] => destruct (Rle_dec 0.01 z)
           end; lra.
Qed.

Lemma floor_and_clamp_floor (x : R) : x <= 0.01 -> floor_and_clamp x = 0.01.
Proof.
  intros Hx. rewrite floor_and_clamp_eq. unfold Rmax, Rmin.
  destruct (Rle_dec 1 x);
    match goal with |- context [Rle_dec 0.01 ?y] => destruct (Rle_dec 0.01 y) end;
    lra.
Qed.

Lemma floor_and_clamp_ge (x : R) :
  0.01 <= floor_and_clamp x /\ Rmin 1 x <= floor_and_clamp x.
Proof.
  rewrite floor_and_clamp_eq. split; [apply Rmax_l|apply Rmax_r].
Qed.

(** Dividing the blend by a larger factor gives a lower volume, whatever
    the sign of the blend. *)
Lemma divided_more (b f g : R) :
  1 <= f -> f <= g -> floor_and_clamp (b / g) <= floor_and_clamp (b / f).
Proof.
  intros Hf Hfg. destruct (Rle_dec 0 b) as [Hb|Hb].
  - apply floor_and_clamp_monotone. unfold Rdiv.
    apply Rmult_le_compat_l; [exact Hb|].
    apply Rinv_le_contravar; lra.
  - assert (Hneg : forall k : R, 1 <= k -> b / k <= 0.01).
    { intros k Hk. unfold Rdiv.
      assert (0 < / k) by (apply Rinv_0_lt_compat; lra).
      assert (b * / k <= 0) by nra. lra. }
    rewrite (floor_and_clamp_floor (b / g)) by (apply Hneg; lra).
    rewrite (floor_and_clamp_floor (b / f)) by (apply Hneg; lra).
    lra.
Qed.

(** Dividing by [f] lowers the volume by the factor [f] at most. *)
Lemma divided_at_most (b f : R) :
  1 <= f -> floor_and_clamp (b / 1) <= f * floor_and_clamp (b / f).
Proof.
  intros Hf. replace (b / 1) with b by (field; lra).
  destruct (floor_and_clamp_ge (b / f)) as [Hfloor Hmin].
  rewrite (floor_and_clamp_eq b).
  assert (Hq : b = f * (b / f)) by (field; lra).
  set (q := b / f) in *. set (w := floor_and_clamp q) in *.
  apply Rmax_lub; [nra|].
  apply Rle_trans with (f * Rmin 1 q); [|apply Rmult_le_compat_l; lra].
  rewrite Hq. clear Hmin Hfloor Hq. unfold Rmin.
  destruct (Rle_dec 1 (f * q)), (Rle_dec 1 q); nra.
Qed.

Lemma sustained_factor_bounds (l : VolumeLimiter.t) (time_over : R) :
  1 <= sustained_factor_of l time_over <= Rmax 1 (VolumeLimiter.dampening l).
Proof.
  unfold sustained_factor_of. cbv zeta. split; [apply Rmax_l|].
  apply Rle_max_compat_l. apply Rmin_l.
Qed.

Lemma sustained_factor_off (l : VolumeLimiter.t) (time_over : R) :
  VolumeLimiter.dampening l <= 1 -> sustained_factor_of l time_over = 1.
Proof.
  intros Hd. unfold sustained_factor_of. cbv zeta.
  apply Rmax_left. apply Rle_trans with (2 := Hd). apply Rmin_l.
Qed.

(** X12. Dampening only lowers the volume, and by its factor at most: the
    volume written by a limiting iteration is at most the one written with
    the dampening slider at 1, and at least that one divided by
    [max(1, dampening)]; with [dampening] at 1 or below the two are the
    same. *)
Theorem dampening_only_lowers (it : Iteration) (h : Heap) :
  limits_now it h ->
  let d := VolumeLimiter.dampening (limiter h) in
  exists w w1 : R,
    writes (events (loop_body it h)) = [w] /\
    writes (events (loop_body it (final (_on_dampening_change 1 h)))) = [w1] /\
    w <= w1 <= Rmax 1 d * w /\
    (d <= 1 -> w = w1).
Proof.
  intros Hlim d.
  assert (Hlim1 : limits_now it (final (_on_dampening_change 1 h))).
  { destruct h as [[] a t]. exact Hlim. }
  rewrite (limiting_write_run it h Hlim).
  rewrite (limiting_write_run it _ Hlim1).
  do 2 eexists. split; [reflexivity|]. split; [reflexivity|].
  destruct h as [l a t].
  cbn [limiter audio last_time final _on_dampening_change modify_limiter] in *.
  set (raw := raw_peak_read _ _).
  set (T := VolumeLimiter.time_over_threshold _ + _).
  assert (Hone : sustained_factor_of (Assign.dampening 1 l) T = 1).
  { apply sustained_factor_off. destruct l. cbn. lra. }
  assert (Hb : blend_of (Assign.dampening 1 l) raw = blend_of l raw).
  { destruct l. reflexivity. }
  rewrite Hone, Hb.
  destruct (sustained_factor_bounds l T) as [Hlow Hhigh].
  split; [split|].
  - apply divided_more; lra.
  - apply Rle_trans with (1 := divided_at_most (blend_of l raw) _ Hlow).
    apply Rmult_le_compat_r; [|exact Hhigh].
    destruct (floor_and_clamp_ge (blend_of l raw / sustained_factor_of l T)).
    lra.
  - intros Hoff. rewrite (sustained_factor_off l T Hoff). reflexivity.
Qed.

Lemma ramp_monotone (l : VolumeLimiter.t) (t1 t2 : R) :
  t1 <= t2 -> sustained_factor_of l t1 <= sustained_factor_of l t2.
Proof.
  intros Ht. destruct (Rle_dec (VolumeLimiter.dampening l) 1) as [Hd|Hd].
  - rewrite !sustained_factor_off by exact Hd. lra.
  - unfold sustained_factor_of. cbv zeta.
    apply Rle_max_compat_l. apply Rle_min_compat_l.
    apply Rplus_le_compat_l. apply Rmult_le_compat_l; [lra|].
    destruct (float_gt_spec (VolumeLimiter.dampening_speed l) 0.001); [|lra].
    apply Rle_min_compat_l. unfold Rdiv. apply Rmult_le_compat_r; [|lra].
    apply Rlt_le. apply Rinv_0_lt_compat. lra.
Qed.

Lemma ramp_saturated (l : VolumeLimiter.t) (time_over : R) :
  time_over - VolumeLimiter.attack_time l >= VolumeLimiter.dampening_speed l ->
  sustained_factor_of l time_over = Rmax 1 (VolumeLimiter.dampening l).
Proof.
  intros Hlong. unfold sustained_factor_of. cbv zeta.
  assert (Hramp : (if float_gt (VolumeLimiter.dampening_speed l) 0.001
                   then Rmin 1 ((time_over - VolumeLimiter.attack_time l)
                                / VolumeLimiter.dampening_speed l)
                   else 1) = 1).
  { destruct (float_gt_spec (VolumeLimiter.dampening_speed l) 0.001);
      [|reflexivity].
    apply Rmin_left. apply Rmult_le_reg_r with (VolumeLimiter.dampening_speed l);
      [lra|].
    unfold Rdiv. rewrite Rmult_assoc, Rinv_l by lra. lra. }
  rewrite Hramp. f_equal. apply Rmin_left. lra.
Qed.

Lemma ramp_instant (l : VolumeLimiter.t) (time_over : R) :
  sustained_factor_of (Assign.dampening_speed 0 l) time_over
  = Rmax 1 (VolumeLimiter.dampening l).
Proof.
  destruct l. unfold sustained_factor_of. cbv zeta.
  cbn [Assign.dampening_speed VolumeLimiter.dampening_speed
       VolumeLimiter.dampening VolumeLimiter.attack_time].
  destruct (float_gt_spec 0 0.001); [lra|].
  f_equal. apply Rmin_left. lra.
Qed.

(** X13. The longer the peak lasts, the lower the volume: of two heaps
    that differ in the time over the threshold only, the one with the
    longer time makes a limiting iteration write the lower (or the same)
    volume. *)
Theorem longer_peak_lower_volume (it : Iteration) (h : Heap) (t1 t2 : R) :
  limits_now it (with_time_over t1 h) ->
  t1 <= t2 ->
  exists w1 w2 : R,
    writes (events (loop_body it (with_time_over t1 h))) = [w1] /\
    writes (events (loop_body it (with_time_over t2 h))) = [w2] /\
    w2 <= w1.
Proof.
  intros Hlim Ht.
  assert (Hlim2 : limits_now it (with_time_over t2 h)).
  { destruct h as [[] a t]. unfold limits_now, with_time_over in *.
    cbn [limiter audio last_time VolumeLimiter.set_time_over_threshold
         VolumeLimiter.time_over_threshold VolumeLimiter.is_running
         VolumeLimiter.user_cooldown VolumeLimiter.original_volume
         VolumeLimiter.volume_cap VolumeLimiter.attack_time] in *.
    destruct Hlim as (Hloud & Hlong).
    split; [exact Hloud|lra]. }
  rewrite (limiting_write_run it _ Hlim), (limiting_write_run it _ Hlim2).
  do 2 eexists. split; [reflexivity|]. split; [reflexivity|].
  destruct h as [l a t]. unfold with_time_over.
  cbn [limiter audio last_time].
  assert (Hb : forall (x raw : R),
             blend_of (VolumeLimiter.set_time_over_threshold x l) raw
             = blend_of l raw).
  { intros. destruct l. reflexivity. }
  assert (Hf : forall (x T : R),
             sustained_factor_of (VolumeLimiter.set_time_over_threshold x l) T
             = sustained_factor_of l T).
  { intros. destruct l. reflexivity. }
  rewrite !Hb, !Hf.
  assert (Hx : forall x : R,
             VolumeLimiter.time_over_threshold
               (VolumeLimiter.set_time_over_threshold x l) = x).
  { intros. destruct l. reflexivity. }
  rewrite !Hx.
  apply divided_more.
  - apply sustained_factor_bounds.
  - apply ramp_monotone. lra.
Qed.

(** X14. Dampening is complete [dampening_speed] seconds after the attack:
    once the time over the threshold is [attack_time + dampening_speed] or
    more, a limiting iteration writes what it writes with the dampening
    speed slider at 0, the blend of the leeway zone divided by
    [max(1, dampening)]. *)
Theorem dampening_completes (it : Iteration) (h : Heap) :
  limits_now it h ->
  let l := limiter h in
  let raw_peak := raw_peak_read (peak it) (volume_seen it h) in
  VolumeLimiter.time_over_threshold l + (now it - last_time h)
  - VolumeLimiter.attack_time l >= VolumeLimiter.dampening_speed l ->
  let w := floor_and_clamp
             (blend_of l raw_peak / Rmax 1 (VolumeLimiter.dampening l)) in
  writes (events (loop_body it h)) = [w] /\
  writes (events (loop_body it (final (_on_dampening_speed_change 0 h)))) = [w].
Proof.
  intros Hlim l raw_peak Hlong w.
  assert (Hlim0 : limits_now it (final (_on_dampening_speed_change 0 h))).
  { destruct h as [[] a t]. exact Hlim. }
  rewrite (limiting_write_run it h Hlim).
  rewrite (limiting_write_run it _ Hlim0).
  subst w raw_peak l.
  rewrite (ramp_saturated _ _ Hlong).
  split; [reflexivity|].
  destruct h as [l a t].
  cbn [limiter audio last_time final _on_dampening_speed_change modify_limiter].
  rewrite ramp_instant.
  assert (Hb : forall raw : R,
             blend_of (Assign.dampening_speed 0 l) raw = blend_of l raw).
  { intros. destruct l. reflexivity. }
  rewrite Hb. reflexivity.
Qed.

(** * A release from start to end *)

Lemma raw_peak_silent (vol : R) : raw_peak_read (Some 0) vol = 0.
Proof.
  unfold raw_peak_read. destruct (float_gt_spec vol 0.01); [|reflexivity].
  unfold Rdiv. rewrite Rmult_0_l. apply Rmin_right. lra.
Qed.

(** As [py_leaf], with the volumes the endpoint reports filled in. *)
Ltac py_leaf_reported := idtac; py_leaf; cbn [volume_read].

Lemma release_tick (h0 h : Heap) (limiting : bool) (v t dt : R) :
  let l0 := limiter h0 in
  let o := VolumeLimiter.original_volume l0 in
  let step := VolumeLimiter.release_rate l0 * dt in
  VolumeLimiter.is_running l0 = true ->
  leeway_factor_finite l0 ->
  0 <= v <= o -> o <= 1 -> 0 <= step ->
  t + dt - VolumeLimiter.last_over_threshold_time l0
  > VolumeLimiter.hold_time l0 ->
  (limiting = false -> v = o) ->
  release_phase h0 limiting v t h ->
  let v' := release_step v o step in
  let r := loop_body (quiet v v' (t + dt)) h in
  outcome r = Returns tt /\
  release_phase h0 (limiting && float_lt v (o - 0.005)) v' (t + dt) (final r) /\
  writes (events r) = (if limiting then [v'] else []).
Proof.
  destruct h0 as [[] a0 t0], h as [[] [c s ut uv] tl].
  unfold release_phase, same_settings, quiet, leeway_factor_finite.
  cbn [limiter audio last_time
       VolumeLimiter.is_running VolumeLimiter.volume_cap
       VolumeLimiter.attack_time VolumeLimiter.release_time
       VolumeLimiter.hold_time VolumeLimiter.user_cooldown
       VolumeLimiter.leeway_db VolumeLimiter.dampening
       VolumeLimiter.dampening_speed VolumeLimiter.voice_mode
       VolumeLimiter.release_rate VolumeLimiter.peak_start_time
       VolumeLimiter.is_limiting VolumeLimiter.original_volume
       VolumeLimiter.last_over_threshold_time
       AudioController._cached_volume AudioController._last_set_volume
       AudioController.user_set_time].
  intros Hrun Hfinite Hv Ho Hstep Hhold Hrest
         ((S1 & S2 & S3 & S4 & S5 & S6 & S7 & S8 & S9 & S10 & S11 & S12)
          & P1 & P2 & P3 & P4 & P5 & P6 & P7).
  subst. cbv zeta.
  pose proof (raw_peak_silent v) as Hraw.
  destruct limiting; [clear Hrest|specialize (Hrest eq_refl); subst v];
    match goal with |- context [loop_body ?it ?h] =>
      py_focus_by py_leaf_reported (loop_body it h) end;
    py_writes.
  all: cbn [VolumeLimiter.is_running VolumeLimiter.volume_cap
       VolumeLimiter.attack_time VolumeLimiter.release_time
       VolumeLimiter.hold_time VolumeLimiter.user_cooldown
       VolumeLimiter.leeway_db VolumeLimiter.dampening
       VolumeLimiter.dampening_speed VolumeLimiter.voice_mode
       VolumeLimiter.release_rate VolumeLimiter.peak_start_time
       VolumeLimiter.is_limiting VolumeLimiter.original_volume
       VolumeLimiter.last_over_threshold_time
       AudioController._cached_volume AudioController._last_set_volume
       AudioController.user_set_time andb].
  all: unfold release_step.
  all: replace (t + dt - t) with dt by lra.
  all: repeat match goal with
           | |- context [float_lt ?a ?b] =>
               destruct (float_lt_spec a b); try (exfalso; lra)
           end.
  all: repeat split; try reflexivity.
  all: symmetry; apply clamp01_id; lra.
Qed.

Lemma release_step_spec (v o step : R) :
  0 <= v <= o -> o <= 1 -> 0 <= step ->
  v <= release_step v o step <= o /\
  (v < o - 0.005 -> release_step v o step = Rmin (v + step) o) /\
  (~ v < o - 0.005 -> release_step v o step = o).
Proof.
  intros Hv Ho Hstep. unfold release_step.
  destruct (float_lt_spec v (o - 0.005)) as [Hlt|Hge].
  - assert (Hmin : v <= Rmin (v + step) o <= o).
    { split; [apply Rmin_glb; lra|apply Rmin_r]. }
    rewrite clamp01_id by lra.
    split; [exact Hmin|]. split; [reflexivity|contradiction].
  - rewrite clamp01_id by lra.
    split; [lra|]. split; [contradiction|reflexivity].
Qed.

Lemma release_phase_eq (h0 h : Heap) (b b' : bool) (v v' t : R) :
  release_phase h0 b v t h -> b = b' -> v = v' -> release_phase h0 b' v' t h.
Proof. intros H -> ->. exact H. Qed.

Lemma release_ticks_run (h0 : Heap) (dt : R) (n : nat) :
  let l0 := limiter h0 in
  let o := VolumeLimiter.original_volume l0 in
  let step := VolumeLimiter.release_rate l0 * dt in
  VolumeLimiter.is_running l0 = true ->
  leeway_factor_finite l0 ->
  o <= 1 -> 0 <= dt -> 0 <= step ->
  forall (h : Heap) (limiting : bool) (v t : R),
    0 <= v <= o ->
    t + dt - VolumeLimiter.last_over_threshold_time l0
    > VolumeLimiter.hold_time l0 ->
    (limiting = true -> o - 0.005 <= v + INR n * step) ->
    (limiting = false -> v = o) ->
    release_phase h0 limiting v t h ->
    let its := release_ticks (S n) t dt v o step in
    let r := iterate its h in
    outcome r = Returns tt /\
    (exists t' : R, release_phase h0 false o t' (final r)) /\
    Forall (fun w => v <= w <= o) (writes (events r)) /\
    exists m : nat,
      (m <= S n)%nat /\
      (if limiting then (1 <= m)%nat else m = 0%nat) /\
      map Some (writes (events r)) = firstn m (map telemetry_volume its).
Proof.
  intros l0 o step Hrun Hfinite Ho Hdt Hstep.
  induction n as [|k IH]; intros h limiting v t Hv Hhold Hfar Hrest Hphase;
    cbv zeta;
    pose proof (release_tick h0 h limiting v t dt Hrun Hfinite Hv Ho Hstep Hhold
                  Hrest Hphase) as Htick;
    cbv zeta in Htick;
    change (VolumeLimiter.original_volume (limiter h0)) with o in Htick;
    change (VolumeLimiter.release_rate (limiter h0) * dt) with step in Htick;
    destruct Htick as (Hret & Hphase' & Hwrites);
    destruct (release_step_spec v o step Hv Ho Hstep) as (Hv' & Hmove & Hdone);
    set (v' := release_step v o step) in *;
    cbn [release_ticks]; fold v';
    rewrite (iterate_cons_run _ _ h Hret);
    rewrite outcome_after, final_after, events_after, writes_app, Hwrites.
  - cbn [release_ticks iterate ret outcome final events writes map].
    rewrite app_nil_r.
    assert (Hoff : limiting && float_lt v (o - 0.005) = false).
    { destruct limiting; [|reflexivity]. cbn [andb].
      destruct (float_lt_spec v (o - 0.005)) as [Hlt|]; [|reflexivity].
      specialize (Hfar eq_refl). cbn [INR] in Hfar. lra. }
    assert (Hv'o : v' = o).
    { destruct limiting.
      - apply Hdone. specialize (Hfar eq_refl). cbn [INR] in Hfar. lra.
      - apply Hdone. rewrite (Hrest eq_refl). lra. }
    split; [reflexivity|].
    split; [eexists; exact (release_phase_eq _ _ _ _ _ _ _ Hphase' Hoff Hv'o)|].
    destruct limiting.
    + split; [constructor; [lra|constructor]|].
      exists 1%nat. split; [apply le_n|]. split; [apply le_n|reflexivity].
    + split; [constructor|].
      exists 0%nat. split; [apply Nat.le_0_l|]. split; reflexivity.
  - set (limiting' := limiting && float_lt v (o - 0.005)) in *.
    assert (Hhold' : t + dt + dt - VolumeLimiter.last_over_threshold_time l0
                     > VolumeLimiter.hold_time l0) by lra.
    assert (Hfar' : limiting' = true -> o - 0.005 <= v' + INR k * step).
    { intros Hon. subst limiting'.
      apply andb_prop in Hon. destruct Hon as [Hon Hlt]. subst limiting.
      destruct (float_lt_spec v (o - 0.005)) as [Hlt'|]; [|discriminate].
      specialize (Hfar eq_refl). rewrite S_INR in Hfar.
      rewrite (Hmove Hlt').
      pose proof (Rmult_le_pos _ _ (pos_INR k) Hstep) as Hk.
      unfold Rmin. destruct (Rle_dec (v + step) o); lra. }
    assert (Hrest' : limiting' = false -> v' = o).
    { intros Hoff. subst limiting'. destruct limiting.
      - cbn [andb] in Hoff.
        destruct (float_lt_spec v (o - 0.005)) as [|Hge]; [discriminate|].
        apply Hdone. exact Hge.
      - apply Hdone. rewrite (Hrest eq_refl). lra. }
    assert (Hv'' : 0 <= v' <= o) by lra.
    destruct (IH (final (loop_body (quiet v v' (t + dt)) h)) limiting' v'
                 (t + dt) Hv'' Hhold' Hfar' Hrest' Hphase')
      as (Hret' & Hdone' & Hbetween & m & Hm & Hkind & Htaken).
    cbv zeta in Hret', Hdone', Hbetween, Htaken.
    split; [exact Hret'|]. split; [exact Hdone'|].
    assert (Hbetween' :
              Forall (fun w => v <= w <= o)
                (writes (events (iterate
                   (release_ticks (S k) (t + dt) dt v' o step)
                   (final (loop_body (quiet v v' (t + dt)) h)))))).
    { eapply Forall_impl; [|exact Hbetween]. cbv beta. intros w Hw. lra. }
    destruct limiting.
    + split; [constructor; [lra|exact Hbetween']|].
      exists (S m). split; [apply le_n_S; exact Hm|].
      split; [apply le_n_S, Nat.le_0_l|].
      cbn [app map firstn telemetry_volume quiet]. f_equal. exact Htaken.
    + split; [exact Hbetween'|].
      subst limiting'. cbn [andb] in Hkind. subst m.
      exists 0%nat. split; [apply Nat.le_0_l|]. split; [reflexivity|].
      cbn [app firstn] in *. exact Htaken.
Qed.

(** X15. A release comes to an end.  The controller is limiting, the
    endpoint is at [v], below the baseline [o], no change by the user is on
    record, the leeway gives a float at the power of line 315, and from [t + dt] on, past the hold time, the loop goes round
    every [dt] seconds in silence on an endpoint that takes every volume it
    is given.  If [n] steps of [release_rate * dt] bring [v] to within
    0.005 of [o], then after [n + 1] iterations limiting is off and the
    endpoint is back at [o], which is also the last volume written; the
    volumes written are those the endpoint took, one per iteration until
    limiting went off, each between [v] and [o]. *)
Theorem release_completes (h : Heap) (t dt : R) (n : nat) :
  let l := limiter h in
  let o := VolumeLimiter.original_volume l in
  let v := AudioController._cached_volume (audio h) in
  let step := VolumeLimiter.release_rate l * dt in
  VolumeLimiter.is_running l = true ->
  VolumeLimiter.is_limiting l = true ->
  leeway_factor_finite l ->
  AudioController.user_set_time (audio h) = None ->
  AudioController._last_set_volume (audio h) = v ->
  0 <= v <= o -> o <= 1 -> 0 <= dt -> 0 <= step ->
  t + dt - VolumeLimiter.last_over_threshold_time l
  > VolumeLimiter.hold_time l ->
  o - 0.005 <= v + INR n * step ->
  let its := release_ticks (S n) t dt v o step in
  let r := _run t its h in
  outcome r = Returns tt /\
  VolumeLimiter.is_limiting (limiter (final r)) = false /\
  VolumeLimiter.original_volume (limiter (final r)) = o /\
  AudioController._cached_volume (audio (final r)) = o /\
  AudioController._last_set_volume (audio (final r)) = o /\
  Forall (fun w => v <= w <= o) (writes (events r)) /\
  exists m : nat,
    (1 <= m <= S n)%nat /\
    map Some (writes (events r)) = firstn m (map telemetry_volume its).
Proof.
  intros l o v step Hrun Hlim Hfinite Huser Hlast Hv Ho Hdt Hstep Hhold Hfar.
  cbv zeta. rewrite _run_run.
  assert (Hphase : release_phase h true v t (mkHeap (limiter h) (audio h) t)).
  { unfold release_phase. cbn [limiter audio last_time].
    repeat split; try reflexivity; assumption. }
  destruct (release_ticks_run h dt n Hrun Hfinite Ho Hdt Hstep
              (mkHeap (limiter h) (audio h) t) true v t Hv Hhold
              (fun _ => Hfar) (fun H => False_ind _ (diff_true_false H))
              Hphase)
    as (Hret & (t' & Hend) & Hbetween & m & Hm & Hone & Htaken).
  cbv zeta in Hret, Hend, Hbetween, Htaken.
  destruct Hend as (_ & Hbase & _ & _ & Hoff & Hcached & Hset & _).
  split; [exact Hret|]. split; [exact Hoff|]. split; [exact Hbase|].
  split; [exact Hcached|]. split; [exact Hset|]. split; [exact Hbetween|].
  exists m. split; [split; assumption|exact Htaken].
Qed.

(** * A pause *)

(** X16. A pause counts towards the attack time.  Iterations made while
    the controller is disabled do not move [last_time], so the first
    iteration after [Enable] measures [dt] from the last iteration before
    [Disable]: if the signal is over the threshold then (in an iteration
    as in X5) and that [dt] is [attack_time] or more, limiting is engaged
    and a volume is written in this very iteration, with the whole pause as
    the time over the threshold. *)
Theorem pause_counts_towards_attack
        (h : Heap) (paused : list Iteration) (it : Iteration) :
  loud_now it h ->
  paused <> [] ->
  now it - last_time h >= VolumeLimiter.attack_time (limiter h) ->
  let h' := final (toggle_twice paused h) in
  let r := loop_body it h' in
  last_time h' = last_time h /\
  VolumeLimiter.time_over_threshold (limiter (final r))
  = now it - last_time h /\
  VolumeLimiter.is_limiting (limiter (final r)) = true /\
  length (writes (events r)) = 1%nat.
Proof.
  intros Hloud Hsome Hlong. cbv zeta.
  rewrite (toggle_twice_run paused h (proj1 Hloud)). cbn [final].
  destruct paused as [|p rest]; [contradiction|].
  set (h' := mkHeap _ _ _).
  assert (Hlim : limits_now it h').
  { destruct h as [[] a t]. split; [exact Hloud|].
    cbn [h' limiter audio last_time VolumeLimiter.set_time_over_threshold
         VolumeLimiter.time_over_threshold VolumeLimiter.attack_time] in *.
    lra. }
  destruct (limiting_run it h' Hlim) as (Hw & Hon & Htime).
  split; [reflexivity|]. split; [|split; [exact Hon|]].
  - rewrite Htime. destruct h as [[] a t].
    cbn [h' limiter audio last_time VolumeLimiter.set_time_over_threshold
         VolumeLimiter.time_over_threshold]. lra.
  - rewrite Hw. reflexivity.
Qed.

(** * The meter and the graph: properties *)


(** X18. The line in the graph is where limiting starts.
    [_draw_graph] computes its threshold without raising, by a division
    with a positive divisor, and leaves the heap alone; the threshold is at
    most 1; and for a positive baseline a raw peak of at most 1 is over the
    line exactly when the loop finds [raw_peak * original_volume] over the
    cap. *)
Theorem graph_line_is_the_threshold (h : Heap) :
  let l := limiter h in
  exists threshold : R,
    outcome (_draw_graph_threshold h) = Returns threshold /\
    final (_draw_graph_threshold h) = h /\
    Forall guarded (events (_draw_graph_threshold h)) /\
    threshold <= 1 /\
    (VolumeLimiter.original_volume l > 0 ->
     forall raw_peak : R,
       raw_peak <= 1 ->
       (raw_peak > threshold <->
        raw_peak * VolumeLimiter.original_volume l
        > VolumeLimiter.volume_cap l)).
Proof.
  destruct h as [[] a t]. cbv zeta. unfold _draw_graph_threshold.
  cbn [limiter VolumeLimiter.original_volume VolumeLimiter.volume_cap].
  match goal with |- context [?m (mkHeap ?l ?a ?t)] =>
    py_focus (m (mkHeap l a t)) end;
    eexists; (split; [reflexivity|]); (split; [reflexivity|]);
    (split; [py_guarded|]); (split; [apply Rmin_l|]);
    intros Hpos raw Hraw; try lra.
  assert (Hinv : 0 < / original_volume) by (apply Rinv_0_lt_compat; lra).
  assert (Hq : volume_cap / original_volume * original_volume = volume_cap).
  { unfold Rdiv. rewrite Rmult_assoc, Rinv_l by lra. lra. }
  set (q := volume_cap / original_volume) in *.
  unfold Rmin. destruct (Rle_dec 1 q); split; intros; nra.
Qed.

(** * The settings file: properties *)

(** X19. What is saved is what is loaded: [load] on the file that [save]
    leaves gives back every attribute of the [Settings] object, whatever
    values they hold. *)
Theorem load_after_save (s : SettingsObject.t) :
  SettingsObject.load (SettingsObject.save s) = s.
Proof. destruct s. reflexivity. Qed.

Lemma get_absent (data : list (String.string * Json.t)) (key : String.string)
      (default : Json.t) :
  Json.has data key = false -> Json.get data key default = default.
Proof.
  induction data as [|[k v] rest IH]; cbn [Json.has Json.get].
  - reflexivity.
  - intros Hno. apply orb_false_elim in Hno. destruct Hno as [Hk Hrest].
    rewrite Hk. apply IH. exact Hrest.
Qed.

(** X20. Without a usable file the settings are the defaults: [load]
    gives what [set_defaults] gives when the file is missing, when reading
    it raises, when it holds a value that is not an object, and when it
    holds an object with none of the eleven keys; and those defaults, as
    the limiter reads them, are the settings [Settings.set_defaults]
    stands for above. *)
Theorem load_falls_back_to_defaults :
  SettingsObject.load Missing = SettingsObject.set_defaults /\
  SettingsObject.load Unreadable = SettingsObject.set_defaults /\
  (forall value : Json.t,
     (forall data, value <> Json.Object data) ->
     SettingsObject.load (Holds value) = SettingsObject.set_defaults) /\
  (forall data : list (String.string * Json.t),
     Forall (fun key => Json.has data key = false) SettingsObject.keys ->
     SettingsObject.load (Holds (Json.Object data))
     = SettingsObject.set_defaults) /\
  SettingsObject.read SettingsObject.set_defaults = Some Settings.set_defaults.
Proof.
  split; [reflexivity|]. split; [reflexivity|]. split; [|split].
  - intros value Hno. destruct value; try reflexivity.
    exfalso. exact (Hno _ eq_refl).
  - intros data Hnone. unfold SettingsObject.keys in Hnone.
    repeat match goal with
           | H : Forall _ (_ :: _) |- _ =>
               let Hk := fresh "Hk" in
               let Hr := fresh "Hr" in
               apply Forall_cons_iff in H; destruct H as [Hk Hr]
           end.
    unfold SettingsObject.load.
    rewrite !get_absent by assumption. reflexivity.
  - reflexivity.
Qed.

(** X21. The settings survive a restart.  After [save_settings] the file
    holds the limiter's cap, its seven timing and shaping parameters and
    [voice_mode] and keeps [show_close_notifications] and [run_at_startup]
    as the [Settings] object had them; [load] on that file gives settings
    the limiter can read, and the limiter built from them at the next
    start has the same nine values, is enabled, is not limiting, and has
    the release rate that belongs to the release time. *)
Theorem settings_survive_restart
        (l : VolumeLimiter.t) (s : SettingsObject.t)
        (volume : R) (answer : option R) :
  let s' := SettingsObject.load (snd (save_settings l s)) in
  s' = fst (save_settings l s) /\
  SettingsObject.show_close_notifications s'
  = SettingsObject.show_close_notifications s /\
  SettingsObject.run_at_startup s' = SettingsObject.run_at_startup s /\
  exists settings : Settings.t,
    SettingsObject.read s' = Some settings /\
    let r := startup settings volume answer in
    let l' := limiter (final r) in
    outcome r = Returns tt /\
    VolumeLimiter.volume_cap l' = VolumeLimiter.volume_cap l /\
    VolumeLimiter.attack_time l' = VolumeLimiter.attack_time l /\
    VolumeLimiter.release_time l' = VolumeLimiter.release_time l /\
    VolumeLimiter.hold_time l' = VolumeLimiter.hold_time l /\
    VolumeLimiter.user_cooldown l' = VolumeLimiter.user_cooldown l /\
    VolumeLimiter.leeway_db l' = VolumeLimiter.leeway_db l /\
    VolumeLimiter.dampening l' = VolumeLimiter.dampening l /\
    VolumeLimiter.dampening_speed l' = VolumeLimiter.dampening_speed l /\
    VolumeLimiter.voice_mode l' = VolumeLimiter.voice_mode l /\
    VolumeLimiter.release_rate l'
    = release_rate_of (VolumeLimiter.release_time l) /\
    VolumeLimiter.is_running l' = true /\
    VolumeLimiter.is_limiting l' = false.
Proof.
  destruct l, s. cbv zeta.
  split; [reflexivity|]. split; [reflexivity|]. split; [reflexivity|].
  eexists. split; [reflexivity|].
  unfold startup, VolumeLimiter__init__, release_rate_of.
  cbn [VolumeLimiter.volume_cap VolumeLimiter.attack_time
       VolumeLimiter.release_time VolumeLimiter.hold_time
       VolumeLimiter.user_cooldown VolumeLimiter.leeway_db
       VolumeLimiter.dampening VolumeLimiter.dampening_speed
       VolumeLimiter.voice_mode].
  match goal with |- context [bind ?m ?f ?h] => py_focus (bind m f h) end;
    repeat split; reflexivity.
Qed.

(** * The leeway *)

Lemma blend_at_least_base (l : VolumeLimiter.t) (raw : R) :
  0 < raw ->
  raw * VolumeLimiter.original_volume l > VolumeLimiter.volume_cap l ->
  VolumeLimiter.volume_cap l / raw <= blend_of l raw.
Proof.
  intros Hraw Hover. unfold blend_of, leeway_ratio_of. cbv zeta.
  set (o := VolumeLimiter.original_volume l) in *.
  set (cap := VolumeLimiter.volume_cap l) in *.
  set (soft := cap * Rpower 10 (VolumeLimiter.leeway_db l / 20)).
  assert (Hbase : cap / raw < o).
  { apply Rmult_lt_reg_r with raw; [exact Hraw|].
    unfold Rdiv. rewrite Rmult_assoc, Rinv_l by lra. lra. }
  destruct (float_ge_spec (raw * o) soft) as [Hfull|Hzone].
  - lra.
  - assert (HD : 0 < soft - cap) by lra.
    assert (Hratio : 0 <= (raw * o - cap) / (soft - cap) <= 1).
    { split.
      - apply Rlt_le. apply Rdiv_lt_0_compat; lra.
      - apply Rmult_le_reg_r with (soft - cap); [exact HD|].
        unfold Rdiv. rewrite Rmult_assoc, Rinv_l by lra. lra. }
    set (ratio := (raw * o - cap) / (soft - cap)) in *.
    set (base := cap / raw) in *. nra.
Qed.

Lemma blend_without_leeway (l : VolumeLimiter.t) (raw : R) :
  raw * VolumeLimiter.original_volume l > VolumeLimiter.volume_cap l ->
  blend_of (Assign.leeway_db 0 l) raw = VolumeLimiter.volume_cap l / raw.
Proof.
  intros Hover. destruct l. unfold blend_of, leeway_ratio_of. cbv zeta.
  cbn [Assign.leeway_db VolumeLimiter.leeway_db VolumeLimiter.volume_cap
       VolumeLimiter.original_volume] in *.
  rewrite leeway_zero.
  destruct (float_ge_spec (raw * original_volume) (volume_cap * 1)); lra.
Qed.

(** X22. The leeway only softens: the volume written by a limiting
    iteration is never below the one written with the leeway slider at 0,
    where every peak over the cap is limited in full. *)
Theorem leeway_only_softens (it : Iteration) (h : Heap) :
  limits_now it h ->
  exists w w0 : R,
    writes (events (loop_body it h)) = [w] /\
    writes (events (loop_body it (final (_on_leeway_change 0 h)))) = [w0] /\
    w0 <= w.
Proof.
  intros Hlim.
  assert (Hlim0 : limits_now it (final (_on_leeway_change 0 h))).
  { destruct h as [[] a t].
    destruct Hlim as ((Hrun & Hsame & Hcool & _ & Hover & Hloud) & Hlong).
    refine (conj (conj Hrun (conj Hsame (conj Hcool
                   (conj _ (conj Hover Hloud))))) Hlong).
    unfold leeway_factor_finite.
    cbn [limiter final _on_leeway_change modify_limiter Assign.leeway_db
         VolumeLimiter.leeway_db].
    rewrite leeway_zero. pose proof float_max_ge_10. lra. }
  rewrite (limiting_write_run it h Hlim).
  rewrite (limiting_write_run it _ Hlim0).
  do 2 eexists. split; [reflexivity|]. split; [reflexivity|].
  destruct Hlim as ((_ & _ & _ & _ & Hover & Hloud) & _).
  destruct h as [l a t].
  cbn [limiter audio last_time final _on_leeway_change modify_limiter] in *.
  set (raw := raw_peak_read _ _) in *.
  set (T := VolumeLimiter.time_over_threshold _ + _).
  assert (Hf : sustained_factor_of (Assign.leeway_db 0 l) T
               = sustained_factor_of l T).
  { destruct l. reflexivity. }
  rewrite Hf, (blend_without_leeway l raw Hover).
  apply floor_and_clamp_monotone.
  destruct (sustained_factor_bounds l T) as [Hone _].
  unfold Rdiv. apply Rmult_le_compat_r.
  - apply Rlt_le. apply Rinv_0_lt_compat. lra.
  - apply blend_at_least_base; [lra|exact Hover].
Qed.

(** * The level graph: properties *)

Lemma ui_updates_window (peaks history : list R) :
  history <> [] ->
  ui_updates peaks history = skipn (length peaks) (history ++ peaks).
Proof.
  revert history. induction peaks as [|p ps IH]; intros history Hsome.
  - cbn [ui_updates fold_left length skipn]. rewrite app_nil_r. reflexivity.
  - destruct history as [|x rest]; [contradiction|].
    unfold ui_updates in *. cbn [fold_left _schedule_ui_update].
    rewrite IH by (destruct rest; discriminate).
    cbn [length app skipn]. rewrite <- app_assoc. reflexivity.
Qed.

(** X23. The graph shows the latest levels: starting from a non-empty
    history (the program starts with 100 zeros), after any number of
    updates the history has the length it had and holds the last that many
    of the old entries followed by the published peaks, in order. *)
Theorem graph_history_is_a_window (peaks history : list R) :
  history <> [] ->
  ui_updates peaks history = skipn (length peaks) (history ++ peaks) /\
  length (ui_updates peaks history) = length history.
Proof.
  intros Hsome. rewrite (ui_updates_window peaks history Hsome).
  split; [reflexivity|].
  rewrite length_skipn, length_app. lia.
Qed.

Lemma waveform_length (i : nat) (step : R) (history : list R) :
  length (waveform i step history) = (2 * length history)%nat.
Proof.
  revert i. induction history as [|p rest IH]; intros i.
  - reflexivity.
  - cbn [waveform length]. rewrite IH. lia.
Qed.

Lemma waveform_xs (i : nat) (step : R) (history : list R) :
  0 <= step ->
  Forall (fun x => INR i * step <= x <= INR (i + length history - 1) * step)
         (xs_of (waveform i step history)).
Proof.
  intros Hstep. revert i. induction history as [|p rest IH]; intros i.
  - constructor.
  - cbn [waveform xs_of length]. constructor.
    + split; [apply Rle_refl|].
      apply Rmult_le_compat_r; [exact Hstep|].
      apply le_INR. lia.
    + eapply Forall_impl; [|apply (IH (S i))].
      cbv beta. intros x [Hlow Hhigh]. split.
      * apply Rle_trans with (2 := Hlow).
        apply Rmult_le_compat_r; [exact Hstep|]. apply le_INR. lia.
      * replace (i + S (length rest) - 1)%nat
          with (S i + length rest - 1)%nat by lia.
        exact Hhigh.
Qed.

Lemma waveform_ys (i : nat) (step : R) (history : list R) :
  Forall (fun peak => 0 <= peak <= 1) history ->
  Forall (fun y => 0 <= y <= 50) (ys_of (waveform i step history)).
Proof.
  intros Hpeaks. revert i.
  induction Hpeaks as [|p rest Hp Hrest IH]; intros i.
  - constructor.
  - cbn [waveform ys_of]. constructor; [lra|apply IH].
Qed.

(** X24. The waveform is drawn inside the graph.  [_draw_graph] never
    raises on it: with fewer than two samples it draws nothing, otherwise
    its one division has a positive divisor and the points are drawn,
    [x] and [y] for every sample; every [x] is between 0 and the width
    340, and every [y] is between 0 and the height 50 when the samples are
    between 0 and 1. *)
Theorem waveform_stays_in_the_graph (history : list R) (h : Heap) :
  let r := _draw_graph_waveform history h in
  final r = h /\
  Forall guarded (events r) /\
  ((length history < 2)%nat -> outcome r = Returns None) /\
  ((2 <= length history)%nat ->
   exists points : list R,
     outcome r = Returns (Some points) /\
     length points = (2 * length history)%nat /\
     Forall (fun x => 0 <= x <= 340) (xs_of points) /\
     (Forall (fun peak => 0 <= peak <= 1) history ->
      Forall (fun y => 0 <= y <= 50) (ys_of points))).
Proof.
  cbv zeta. unfold _draw_graph_waveform.
  destruct (Nat.ltb_spec (length history) 2) as [Hfew|Hmany].
  - split; [reflexivity|]. split; [constructor|].
    split; [reflexivity|].
    intros Hno. lia.
  - assert (Hpos : 0 < INR (length history - 1)).
    { apply lt_0_INR. lia. }
    unfold bind. rewrite float_div_run by lra.
    rewrite waveform_length.
    destruct (Nat.leb_spec 4 (2 * length history)) as [_|Hshort].
    2:{ lia. }
    cbn [ret outcome final events app].
    split; [reflexivity|]. split; [constructor; [exact Hpos|constructor]|].
    split.
    + intros Hfew. lia.
    + intros _. eexists. split; [reflexivity|].
      split; [apply waveform_length|]. split; [|apply waveform_ys].
      assert (Hstep : 0 <= 340 / INR (length history - 1)).
      { apply Rlt_le. apply Rdiv_lt_0_compat; lra. }
      eapply Forall_impl; [|apply (waveform_xs 0 _ history Hstep)].
      cbv beta. cbn [Nat.add INR]. intros x [Hlow Hhigh]. split; [lra|].
      apply Rle_trans with (1 := Hhigh).
      unfold Rdiv. rewrite <- Rmult_assoc, Rmult_comm, <- Rmult_assoc.
      rewrite Rinv_l by lra. lra.
Qed.

(** * More theorems at work *)

(** A full-scale signal on the endpoint held at 0.4 below a baseline of 1,
    a tenth of a second after the previous iteration. *)
Lemma holding_heap_loud : loud_now (loud 0.4 0.4 100.6) holding_heap.
Proof.
  unfold loud_now, volume_seen, holding_heap, loud, in_user_cooldown.
  cbn [limiter audio now peak check_volume volume_read
       VolumeLimiter.is_running VolumeLimiter.user_cooldown
       VolumeLimiter.original_volume VolumeLimiter.volume_cap
       AudioController._cached_volume AudioController._last_set_volume
       AudioController.user_set_time].
  rewrite raw_peak_full by lra.
  split; [reflexivity|]. split; [real_lra|]. split; [reflexivity|].
  split; [exact leeway_3db_finite|]. split; lra.
Qed.

Lemma holding_heap_limits : limits_now (loud 0.4 0.4 100.6) holding_heap.
Proof.
  split; [exact holding_heap_loud|].
  unfold holding_heap, loud.
  cbn [limiter last_time now VolumeLimiter.time_over_threshold
       VolumeLimiter.attack_time].
  lra.
Qed.

Lemma steady_in_unit (t v p : R) :
  0 <= v <= 1 -> volumes_reported_in_unit (steady t v p).
Proof. intros Hv. repeat split; apply Hv. Qed.

Lemma leeway_3db_upper : Rpower 10 (3.0 / 20) < 1.5.
Proof.
  assert (H1 : Rpower (Rpower 1.5 20) (1 / 20) = 1.5).
  { rewrite Rpower_mult. replace (20 * (1 / 20)) with 1 by lra.
    apply Rpower_1. lra. }
  assert (H2 : Rpower (Rpower 10 3) (1 / 20) = Rpower 10 (3.0 / 20)).
  { rewrite Rpower_mult. f_equal. lra. }
  rewrite <- H1, <- H2.
  apply Rlt_Rpower_l; [lra|].
  replace 20 with (INR 20) by (simpl; lra).
  replace 3 with (INR 3) by (simpl; lra).
  rewrite !Rpower_pow by lra.
  split; [apply pow_lt; lra|]. simpl. lra.
Qed.

(** Beyond the soft threshold the blend is the volume that brings the peak
    to the cap. *)
Lemma blend_full (l : VolumeLimiter.t) (raw : R) :
  raw * VolumeLimiter.original_volume l
  >= VolumeLimiter.volume_cap l * Rpower 10 (VolumeLimiter.leeway_db l / 20) ->
  blend_of l raw = VolumeLimiter.volume_cap l / raw.
Proof.
  intros Hfull. unfold blend_of, leeway_ratio_of. cbv zeta.
  destruct (float_ge_spec (raw * VolumeLimiter.original_volume l)
              (VolumeLimiter.volume_cap l
               * Rpower 10 (VolumeLimiter.leeway_db l / 20)));
    [lra|contradiction].
Qed.

Lemma dampened_heap_eq :
  dampened_heap
  = mkHeap
      (VolumeLimiter.set_release_rate (1 / 0.5)
         (Assign.dampening_speed 0.1
            (Assign.dampening 2.0 (limiter holding_heap))))
      (audio holding_heap) (last_time holding_heap).
Proof.
  unfold dampened_heap, holding_heap. callback_unfold. py_run. reflexivity.
Qed.

(** Writes out the example heaps and iterations. *)
Ltac example_state :=
  rewrite ?dampened_heap_eq, ?default_heap_eq;
  unfold started_heap, with_time_over, holding_heap, loud, volume_seen,
    in_user_cooldown, limiter_attributes, AudioController.__init__,
    _on_dampening_change, modify_limiter;
  rewrite ?default_heap_eq;
  unfold limiter_attributes, AudioController.__init__;
  cbn [limiter audio last_time final now peak check_volume volume_read
       Settings.set_defaults Settings.volume_cap Settings.attack_time
       Settings.release_time Settings.hold_time Settings.user_cooldown
       Settings.leeway_db Settings.dampening Settings.dampening_speed
       Settings.voice_mode
       Assign.dampening Assign.dampening_speed
       VolumeLimiter.set_release_rate VolumeLimiter.set_time_over_threshold
       VolumeLimiter.is_running VolumeLimiter.user_cooldown
       VolumeLimiter.original_volume VolumeLimiter.volume_cap
       VolumeLimiter.time_over_threshold VolumeLimiter.attack_time
       VolumeLimiter.leeway_db VolumeLimiter.dampening
       VolumeLimiter.dampening_speed
       AudioController._cached_volume AudioController._last_set_volume
       AudioController.user_set_time].

(** The full-scale signal on [dampened_heap], the signal having been over
    the threshold for [t0] seconds before. *)
Lemma dampened_heap_limits (t0 : R) :
  0 <= t0 ->
  limits_now (loud 0.4 0.4 100.6) (with_time_over t0 dampened_heap).
Proof.
  intros Ht0. unfold limits_now, loud_now, leeway_factor_finite.
  example_state. rewrite raw_peak_full by lra.
  split; [|lra].
  split; [reflexivity|]. split; [real_lra|]. split; [reflexivity|].
  split; [exact leeway_3db_finite|]. split; lra.
Qed.

(** The volume it writes while the dampening ramps up. *)
Lemma dampened_heap_write (t0 : R) :
  0 <= t0 <= 0.05 ->
  writes (events (loop_body (loud 0.4 0.4 100.6)
                    (with_time_over t0 dampened_heap)))
  = [0.2 / (1 + (t0 + 0.05) / 0.1)].
Proof.
  intros Ht0.
  rewrite (limiting_write_run _ _ (dampened_heap_limits t0 (proj1 Ht0))).
  cbv zeta. pose proof leeway_3db_upper as Hpow.
  rewrite blend_full;
    example_state; rewrite ?raw_peak_full by lra; [|lra].
  unfold sustained_factor_of. cbv zeta. example_state.
  destruct (float_gt_spec 0.1 0.001) as [_|Hno]; [|exfalso; lra].
  replace (t0 + (100.6 - 100.5) - 0.05) with (t0 + 0.05) by lra.
  assert (Hramp : 0.5 <= (t0 + 0.05) / 0.1 <= 1) by lra.
  rewrite (Rmin_right 1 ((t0 + 0.05) / 0.1)) by lra.
  rewrite (Rmin_right 2.0) by lra.
  rewrite (Rmax_right 1) by lra.
  f_equal. rewrite floor_and_clamp_eq.
  assert (Hw : 0.1 <= 0.2 / 1 / (1 + (2.0 - 1) * ((t0 + 0.05) / 0.1)) <= 0.2).
  { set (f := 1 + (2.0 - 1) * ((t0 + 0.05) / 0.1)).
    assert (Hf : 1.5 <= f <= 2) by (unfold f; lra).
    replace (0.2 / 1) with 0.2 by lra.
    split.
    - apply (Rmult_le_reg_r f); [lra|].
      unfold Rdiv. rewrite Rmult_assoc, Rinv_l by lra. lra.
    - apply (Rmult_le_reg_r f); [lra|].
      unfold Rdiv. rewrite Rmult_assoc, Rinv_l by lra. lra. }
  rewrite Rmin_right by lra. rewrite Rmax_right by lra.
  replace (0.2 / 1) with 0.2 by lra. f_equal. lra.
Qed.

(** The volume it writes with the dampening slider at 1. *)
Lemma undampened_heap_write :
  writes (events (loop_body (loud 0.4 0.4 100.6)
                    (final (_on_dampening_change 1 dampened_heap))))
  = [0.2].
Proof.
  assert (Hlim : limits_now (loud 0.4 0.4 100.6)
                   (final (_on_dampening_change 1 dampened_heap))).
  { pose proof (dampened_heap_limits 0 ltac:(lra)) as Hlim.
    rewrite dampened_heap_eq in Hlim |- *. exact Hlim. }
  rewrite (limiting_write_run _ _ Hlim). cbv zeta.
  pose proof leeway_3db_upper as Hpow.
  rewrite sustained_factor_off by (example_state; lra).
  rewrite blend_full;
    example_state; rewrite ?raw_peak_full by lra; [|lra].
  rewrite floor_and_clamp_eq.
  replace (0.2 / 1 / 1) with 0.2 by lra.
  rewrite Rmin_right by lra. rewrite Rmax_right by lra. reflexivity.
Qed.

(** The first iteration of the loop after a start on an endpoint at [v],
    when a full-scale signal plays. *)
Lemma started_heap_limits (v w : R) :
  0.2 < v <= 1 ->
  limits_now (loud v w 100.1) (started_heap v 100).
Proof.
  intros Hv. unfold limits_now, loud_now, leeway_factor_finite.
  example_state. rewrite raw_peak_full by lra.
  split; [|lra].
  split; [reflexivity|]. split; [real_lra|]. split; [reflexivity|].
  split; [exact leeway_3db_finite|]. split; lra.
Qed.

Lemma started_heap_write (v w : R) :
  0.2 < v <= 1 ->
  writes (events (loop_body (loud v w 100.1) (started_heap v 100)))
  = [floor_and_clamp (blend_of (limiter (started_heap v 100)) 1)].
Proof.
  intros Hv.
  rewrite (limiting_write_run _ _ (started_heap_limits v w Hv)).
  cbv zeta. rewrite sustained_factor_off by (example_state; lra).
  unfold volume_seen, loud. cbn [peak check_volume volume_read].
  rewrite raw_peak_full by lra.
  do 2 f_equal. lra.
Qed.

(** The same iteration with the leeway slider at 0. *)
Lemma started_heap_write_no_leeway (v w : R) :
  0.2 < v <= 1 ->
  writes (events (loop_body (loud v w 100.1)
                    (final (_on_leeway_change 0 (started_heap v 100)))))
  = [0.2].
Proof.
  intros Hv.
  assert (Hlim0 : limits_now (loud v w 100.1)
                    (final (_on_leeway_change 0 (started_heap v 100)))).
  { destruct (started_heap_limits v w Hv)
      as ((Hrun & Hsame & Hcool & _ & Hover & Hloud) & Hlong).
    refine (conj (conj Hrun (conj Hsame (conj Hcool
                   (conj _ (conj Hover Hloud))))) Hlong).
    unfold leeway_factor_finite.
    cbn [limiter final _on_leeway_change modify_limiter Assign.leeway_db
         VolumeLimiter.leeway_db].
    rewrite leeway_zero. pose proof float_max_ge_10. lra. }
  rewrite (limiting_write_run _ _ Hlim0). cbv zeta.
  unfold _on_leeway_change. example_state.
  rewrite raw_peak_full by lra.
  rewrite blend_without_leeway
    by (cbn [VolumeLimiter.set_release_rate VolumeLimiter.original_volume
             VolumeLimiter.volume_cap]; lra).
  rewrite sustained_factor_off
    by (cbn [Assign.leeway_db VolumeLimiter.set_release_rate
             VolumeLimiter.dampening]; lra).
  cbn [VolumeLimiter.set_release_rate VolumeLimiter.volume_cap].
  rewrite floor_and_clamp_eq.
  replace (0.2 / 1 / 1) with 0.2 by lra.
  rewrite Rmin_right by lra. rewrite Rmax_right by lra. reflexivity.
Qed.

(** X4 at work: the endpoint is held at 0.4, then the user moves it to
    0.5. *)
Lemma volumes_stay_in_unit_witness :
  let h' := final (_run 100.5 [steady 100.52 0.4 0.1; steady 100.54 0.5 0.1]
                     holding_heap) in
  volumes_in_range (audio h') /\
  0 <= VolumeLimiter.original_volume (limiter h') <= 1.
Proof.
  apply (volumes_stay_in_unit 100.5
           [steady 100.52 0.4 0.1; steady 100.54 0.5 0.1] holding_heap).
  - apply Forall_cons; [apply steady_in_unit; lra|].
    apply Forall_cons; [apply steady_in_unit; lra|apply Forall_nil].
  - unfold volumes_in_range, holding_heap.
    cbn [audio AudioController._cached_volume
         AudioController._last_set_volume].
    lra.
  - unfold holding_heap. cbn [limiter VolumeLimiter.original_volume]. lra.
Defined.

(** X5 at work: the full-scale signal, 0.1 s over the threshold with an
    attack time of 0.05 s. *)
Lemma attack_delay_witness :
  let r := loop_body (loud 0.4 0.4 100.6) holding_heap in
  outcome r = Returns tt /\
  VolumeLimiter.is_limiting (limiter (final r)) = true /\
  length (writes (events r)) = 1%nat.
Proof.
  destruct (attack_delay holding_heap (loud 0.4 0.4 100.6) holding_heap_loud)
    as (Hret & _ & _ & _ & Hengaged).
  split; [exact Hret|]. apply Hengaged. cbn. lra.
Defined.


(** The same signal when limiting is not engaged yet. *)
Lemma idle_heap_limits :
  limits_now (loud 0.4 0.4 100.6)
    (mkHeap (VolumeLimiter.set_is_limiting false (limiter holding_heap))
            (audio holding_heap) (last_time holding_heap)).
Proof. exact holding_heap_limits. Qed.

(** X8 at work: that iteration switches limiting on, so its time over the
    threshold had reached the attack time. *)
Lemma engages_only_after_attack_witness :
  let h := mkHeap (VolumeLimiter.set_is_limiting false (limiter holding_heap))
                  (audio holding_heap) (last_time holding_heap) in
  let l' := limiter (final (loop_body (loud 0.4 0.4 100.6) h)) in
  VolumeLimiter.is_running (limiter h) = true /\
  VolumeLimiter.time_over_threshold l' >= VolumeLimiter.attack_time (limiter h) /\
  VolumeLimiter.last_over_threshold_time l' = now (loud 0.4 0.4 100.6).
Proof.
  apply (engages_only_after_attack (loud 0.4 0.4 100.6)
           (mkHeap (VolumeLimiter.set_is_limiting false (limiter holding_heap))
                   (audio holding_heap) (last_time holding_heap))).
  - reflexivity.
  - apply (limiting_run _ _ idle_heap_limits).
Defined.


(** X12 at work: after [Reset to defaults] the dampening is 2, reached
    after 0.1 s; 0.05 s after the attack the factor is 1.5, and the volume
    written is 0.2 / 1.5 where the dampening slider at 1 gives 0.2. *)
Lemma dampening_only_lowers_witness :
  exists w w1 : R,
    writes (events (loop_body (loud 0.4 0.4 100.6) dampened_heap)) = [w] /\
    writes (events (loop_body (loud 0.4 0.4 100.6)
                      (final (_on_dampening_change 1 dampened_heap)))) = [w1] /\
    w <= w1 <= 2 * w /\
    w = 0.2 / 1.5 /\
    w < w1.
Proof.
  assert (Hzero : 0 <= 0) by lra.
  assert (Hsame : with_time_over 0 dampened_heap = dampened_heap)
    by (rewrite dampened_heap_eq; reflexivity).
  pose proof (dampened_heap_limits 0 Hzero) as Hlim.
  rewrite Hsame in Hlim.
  destruct (dampening_only_lowers (loud 0.4 0.4 100.6) dampened_heap Hlim)
    as (w & w1 & Hw & Hw1 & Hbounds & _).
  assert (Hd : Rmax 1 (VolumeLimiter.dampening (limiter dampened_heap)) = 2).
  { example_state. rewrite Rmax_right by lra. lra. }
  rewrite Hd in Hbounds.
  assert (Hw' : w = 0.2 / 1.5).
  { pose proof (dampened_heap_write 0 ltac:(lra)) as Hvalue.
    rewrite Hsame in Hvalue.
    rewrite Hw in Hvalue. injection Hvalue as ->. f_equal. lra. }
  assert (Hw1' : w1 = 0.2).
  { pose proof undampened_heap_write as Hvalue.
    rewrite Hw1 in Hvalue. injection Hvalue as ->. reflexivity. }
  exists w, w1.
  split; [exact Hw|]. split; [exact Hw1|]. split; [exact Hbounds|].
  split; [exact Hw'|]. lra.
Defined.

(** X13 at work: the same signal 0.05 s and 0.07 s after the attack, where
    the factor is 1.5 and 1.7. *)
Lemma longer_peak_lower_volume_witness :
  exists w1 w2 : R,
    writes (events (loop_body (loud 0.4 0.4 100.6)
                      (with_time_over 0 dampened_heap))) = [w1] /\
    writes (events (loop_body (loud 0.4 0.4 100.6)
                      (with_time_over 0.02 dampened_heap))) = [w2] /\
    w2 <= w1 /\
    w1 = 0.2 / 1.5 /\ w2 = 0.2 / 1.7.
Proof.
  assert (Hzero : 0 <= 0) by lra.
  destruct (longer_peak_lower_volume (loud 0.4 0.4 100.6) dampened_heap 0 0.02
              (dampened_heap_limits 0 Hzero))
    as (w1 & w2 & Hw1 & Hw2 & Hle); [lra|].
  exists w1, w2.
  split; [exact Hw1|]. split; [exact Hw2|]. split; [exact Hle|].
  rewrite (dampened_heap_write 0) in Hw1 by lra.
  rewrite (dampened_heap_write 0.02) in Hw2 by lra.
  injection Hw1 as <-. injection Hw2 as <-. split; f_equal; lra.
Defined.

(** X14 at work: 0.15 s after the attack, with a dampening speed of 0.1 s,
    the volume is 0.2 / 2. *)
Lemma dampening_completes_witness :
  let h := with_time_over 0.1 dampened_heap in
  writes (events (loop_body (loud 0.4 0.4 100.6) h)) = [0.1] /\
  writes (events (loop_body (loud 0.4 0.4 100.6)
                    (final (_on_dampening_speed_change 0 h)))) = [0.1] /\
  VolumeLimiter.dampening_speed (limiter h) = 0.1.
Proof.
  cbv zeta.
  assert (Ht0 : 0 <= 0.1) by lra.
  pose proof (dampening_completes (loud 0.4 0.4 100.6)
                (with_time_over 0.1 dampened_heap)
                (dampened_heap_limits 0.1 Ht0)) as Hdone.
  cbv zeta in Hdone.
  assert (Hvalue :
            floor_and_clamp
              (blend_of (limiter (with_time_over 0.1 dampened_heap))
                 (raw_peak_read (peak (loud 0.4 0.4 100.6))
                    (volume_seen (loud 0.4 0.4 100.6)
                       (with_time_over 0.1 dampened_heap)))
               / Rmax 1 (VolumeLimiter.dampening
                           (limiter (with_time_over 0.1 dampened_heap))))
            = 0.1).
  { pose proof leeway_3db_upper as Hpow.
    rewrite blend_full;
      example_state; rewrite ?raw_peak_full by lra; [|lra].
    rewrite (Rmax_right 1) by lra. rewrite floor_and_clamp_eq.
    replace (0.2 / 1 / 2.0) with 0.1 by lra.
    rewrite Rmin_right by lra. apply Rmax_right. lra. }
  rewrite Hvalue in Hdone.
  destruct Hdone as [Hw Hw0]; [example_state; lra|].
  split; [exact Hw|]. split; [exact Hw0|].
  example_state. reflexivity.
Defined.

(** X15 at work: from 0.4 back to 1 in steps of 2 * 0.02, starting 0.52 s
    after the last loud sample. *)
Lemma release_completes_witness :
  let r := _run 100.5
             (release_ticks 16 100.5 0.02 0.4 1 (release_rate_of 0.5 * 0.02))
             holding_heap in
  outcome r = Returns tt /\
  VolumeLimiter.is_limiting (limiter (final r)) = false /\
  AudioController._cached_volume (audio (final r)) = 1.
Proof.
  assert (Hrate : release_rate_of 0.5 = 2).
  { unfold release_rate_of. rewrite float_gt_true by lra. lra. }
  assert (Hsteps : INR 15 = 15).
  { change 15%nat with (Z.to_nat 15). rewrite INR_IZR_INZ.
    reflexivity. }
  destruct (release_completes holding_heap 100.5 0.02 15)
    as (Hret & Hoff & _ & Hcached & _).
  1-11: unfold holding_heap;
    cbn [limiter audio VolumeLimiter.is_running VolumeLimiter.is_limiting
         VolumeLimiter.original_volume VolumeLimiter.release_rate
         VolumeLimiter.last_over_threshold_time VolumeLimiter.hold_time
         AudioController._cached_volume AudioController._last_set_volume
         AudioController.user_set_time];
    rewrite ?Hrate, ?Hsteps;
    first [exact leeway_3db_finite | reflexivity | lra].
  split; [exact Hret|]. split; [exact Hoff|exact Hcached].
Defined.

(** X16 at work: disabled for one iteration, enabled again while the
    full-scale signal plays. *)
Lemma pause_counts_towards_attack_witness :
  let h' := final (toggle_twice [steady 100.55 0.4 0.4] holding_heap) in
  let r := loop_body (loud 0.4 0.4 100.6) h' in
  last_time h' = last_time holding_heap /\
  VolumeLimiter.time_over_threshold (limiter (final r))
  = now (loud 0.4 0.4 100.6) - last_time holding_heap /\
  VolumeLimiter.is_limiting (limiter (final r)) = true /\
  length (writes (events r)) = 1%nat.
Proof.
  apply (pause_counts_towards_attack holding_heap [steady 100.55 0.4 0.4]
           (loud 0.4 0.4 100.6)).
  - exact holding_heap_loud.
  - discriminate.
  - cbn. lra.
Defined.

(** X22 at work: the program starts on an endpoint at 0.22.  A full-scale
    signal would come out at 0.22, between the cap of 0.2 and the soft
    threshold 3 dB above it, so the volume written stays above 0.2, the
    volume written with the leeway slider at 0. *)
Lemma leeway_only_softens_witness :
  exists w w0 : R,
    writes (events (loop_body (loud 0.22 0.22 100.1) (started_heap 0.22 100)))
    = [w] /\
    writes (events (loop_body (loud 0.22 0.22 100.1)
                      (final (_on_leeway_change 0 (started_heap 0.22 100)))))
    = [w0] /\
    w0 <= w /\
    w0 = 0.2 /\
    0.2 < w.
Proof.
  assert (Hv : 0.2 < 0.22 <= 1) by lra.
  pose proof (started_heap_limits 0.22 0.22 Hv) as Hlim.
  destruct (leeway_only_softens (loud 0.22 0.22 100.1) (started_heap 0.22 100)
              Hlim)
    as (w & w0 & Hw & Hw0 & Hle).
  exists w, w0.
  split; [exact Hw|]. split; [exact Hw0|]. split; [exact Hle|].
  assert (Hbig : 0.2 < w).
  { rewrite (started_heap_write 0.22 0.22 Hv) in Hw. injection Hw as <-.
    pose proof leeway_3db_bound as Hpow.
    unfold blend_of, leeway_ratio_of. cbv zeta. example_state.
    destruct (float_ge_spec (1 * 0.22) (0.2 * Rpower 10 (3.0 / 20)))
      as [Hfull|_]; [exfalso; lra|].
    set (D := 0.2 * Rpower 10 (3.0 / 20) - 0.2).
    assert (HD : 0.05 < D) by (unfold D; lra).
    assert (Hratio : 0 < (1 * 0.22 - 0.2) / D < 0.4).
    { split.
      - apply Rdiv_lt_0_compat; lra.
      - apply (Rmult_lt_reg_r D); [lra|].
        unfold Rdiv. rewrite Rmult_assoc, Rinv_l by lra. lra. }
    set (ratio := (1 * 0.22 - 0.2) / D) in *.
    rewrite floor_and_clamp_eq.
    assert (Hblend : 0.2 < 0.22 * (1 - ratio) + 0.2 / 1 * ratio <= 0.22)
      by lra.
    rewrite Rmin_right by lra. rewrite Rmax_right by lra. lra. }
  split; [|exact Hbig].
  pose proof (started_heap_write_no_leeway 0.22 0.22 Hv) as Hvalue.
  rewrite Hw0 in Hvalue. injection Hvalue as ->. reflexivity.
Defined.

(** X23 at work: two updates of the history the program starts with. *)
Lemma graph_history_is_a_window_witness :
  ui_updates [0.3; 0.5] peak_history_init
  = skipn 2 (peak_history_init ++ [0.3; 0.5]) /\
  length (ui_updates [0.3; 0.5] peak_history_init) = 100%nat.
Proof.
  apply (graph_history_is_a_window [0.3; 0.5] peak_history_init).
  unfold peak_history_init. cbn [repeat]. discriminate.
Defined.
